(** * Tornbot: the order reconciliation and lifecycle engine

    A shallow embedding of [src/main.py]: the in-memory order store
    ([pending_order], [active_orders], [processed_events],
    [pricing_config]), the purchase commands, New-Order Discovery
    ([detect_new_orders_from_torn]), the Matching Engine
    ([perform_order_check]), manual activation, admin grants, deletion,
    the expiry sweep and the scheduler tick ([auto_check_orders]).

    Modelling conventions.
    - Text is a [string] of 8-bit characters; [str.lower], the [in]
      operator, [str.split], [str.strip] and the three regular
      expressions of the source are evaluated by the functions of
      [PyStr] and [Regex] on the ASCII range.
    - An instant is a [Z] number of seconds: the source stores every
      instant through [strftime('%Y-%m-%d %H:%M:%S')], and feed
      timestamps are epoch seconds.  One reading [now] of the clock is
      taken per command or pass.
    - A Python [dict] is an insertion-ordered association list
      ([dict_set], [dict_del], [dict_get]); the set [processed_events]
      is a [gset string].
    - A raised Python exception is the outcome [Raise] of type [Exc].
    - Messages sent to the chat platform and the calls into the
      [database] module (a write-only sink that is not part of the
      order store) are not part of the state. *)

From Stdlib Require Import ZArith Ascii String Bool Lia DecimalString.
From stdpp Require Import base gmap strings list.

Local Open Scope Z_scope.

(** ** Python text primitives *)

Module PyStr.

Definition code (c : ascii) : nat := nat_of_ascii c.

Definition between (lo hi : nat) (c : ascii) : bool :=
  Nat.leb lo (code c) && Nat.leb (code c) hi.

Definition is_digit : ascii -> bool := between 48 57.
Definition is_upper : ascii -> bool := between 65 90.

(** [str.isspace] on the ASCII range: tab, LF, VT, FF, CR, the four
    separators 0x1c-0x1f and the blank. *)
Definition is_space (c : ascii) : bool :=
  between 9 13 c || between 28 32 c.

Definition lower_char (c : ascii) : ascii :=
  if is_upper c then ascii_of_nat (code c + 32) else c.

(** [s.lower()] *)
Fixpoint lower (s : string) : string :=
  match s with
  | EmptyString => EmptyString
  | String c s' => String (lower_char c) (lower s')
  end.

(** [needle in hay] *)
Fixpoint contains (needle hay : string) : bool :=
  String.prefix needle hay ||
  match hay with
  | EmptyString => false
  | String _ hay' => contains needle hay'
  end.

Definition digit_val (c : ascii) : Z := Z.of_nat (code c) - 48.

Fixpoint int_acc (acc : Z) (s : string) : Z :=
  match s with
  | EmptyString => acc
  | String c s' => int_acc (10 * acc + digit_val c) s'
  end.

(** [int(s)] for a string of decimal digits. *)
Definition int (s : string) : Z := int_acc 0 s.

(** [str(i)] for a list index. *)
Definition str_of_nat (i : nat) : string :=
  NilZero.string_of_uint (Nat.to_uint i).

(** [s.split(sep)] for a non-empty separator: [skip] counts the
    characters of a separator occurrence still to be dropped. *)
Fixpoint split_go (sep : string) (skip : nat) (s : string) : list string :=
  match s with
  | EmptyString => [EmptyString]
  | String c s' =>
      match skip with
      | S n => split_go sep n s'
      | O =>
          if String.prefix sep s
          then EmptyString :: split_go sep (String.length sep - 1) s'
          else match split_go sep 0 s' with
               | p :: ps => String c p :: ps
               | [] => [String c EmptyString]
               end
      end
  end.

Definition split (sep s : string) : list string := split_go sep 0 s.

(** [s.split()]: the maximal runs of non-blank characters. *)
Fixpoint split_ws (s : string) : list string :=
  match s with
  | EmptyString => []
  | String c s' =>
      if is_space c then split_ws s'
      else match s' with
           | EmptyString => [String c EmptyString]
           | String d _ =>
               if is_space d then String c EmptyString :: split_ws s'
               else match split_ws s' with
                    | w :: ws => String c w :: ws
                    | [] => [String c EmptyString]
                    end
           end
  end.

Fixpoint lstrip (s : string) : string :=
  match s with
  | EmptyString => EmptyString
  | String c s' => if is_space c then lstrip s' else s
  end.

Fixpoint rstrip (s : string) : string :=
  match s with
  | EmptyString => EmptyString
  | String c s' =>
      match rstrip s' with
      | EmptyString => if is_space c then EmptyString else String c EmptyString
      | r => String c r
      end
  end.

(** [s.strip()] *)
Definition strip (s : string) : string := rstrip (lstrip s).

(** [re.findall(r'\d+', s)]: the maximal runs of digits, left to
    right. *)
Fixpoint findall_digits (s : string) : list string :=
  match s with
  | EmptyString => []
  | String c s' =>
      if is_digit c then
        match s' with
        | EmptyString => [String c EmptyString]
        | String d _ =>
            if is_digit d then
              match findall_digits s' with
              | w :: ws => String c w :: ws
              | [] => [String c EmptyString]
              end
            else String c EmptyString :: findall_digits s'
        end
      else findall_digits s'
  end.


Fixpoint take (n : nat) (s : string) : string :=
  match n, s with
  | S n', String c s' => String c (take n' s')
  | _, _ => EmptyString
  end.

End PyStr.

(** ** A backtracking matcher for the regular expressions of the source

    Python's [re] explores alternatives in priority order (a greedy
    repetition tries the longest run first, a lazy one the shortest)
    and [re.search] returns the match at the leftmost start.  The
    matcher below does the same in continuation-passing style for the
    operators the three patterns of [main.py] use. *)

Module Regex.

Inductive re : Type :=
| Lit (s : string)              (* a literal *)
| Cls (p : ascii -> bool)       (* one character of a class *)
| Opt (r : re)                  (* r?  *)
| Star (p : ascii -> bool)      (* [p]*  greedy *)
| Plus (p : ascii -> bool)      (* [p]+  greedy *)
| LazyStar (p : ascii -> bool)  (* [p]*? *)
| Seq (r1 r2 : re).

Section Matcher.
Context {A : Type}.

Fixpoint lit (l s : string) (k : string -> option A) : option A :=
  match l with
  | EmptyString => k s
  | String c l' =>
      match s with
      | String d s' => if Ascii.eqb c d then lit l' s' k else None
      | EmptyString => None
      end
  end.

Fixpoint star (p : ascii -> bool) (s : string) (k : string -> option A)
  : option A :=
  match s with
  | String c s' =>
      if p c then
        match star p s' k with
        | Some x => Some x
        | None => k s
        end
      else k s
  | EmptyString => k s
  end.

Fixpoint lazy_star (p : ascii -> bool) (s : string)
  (k : string -> option A) : option A :=
  match k s with
  | Some x => Some x
  | None =>
      match s with
      | String c s' => if p c then lazy_star p s' k else None
      | EmptyString => None
      end
  end.

Fixpoint rmatch (r : re) (s : string) (k : string -> option A)
  : option A :=
  match r with
  | Lit l => lit l s k
  | Cls p =>
      match s with
      | String c s' => if p c then k s' else None
      | EmptyString => None
      end
  | Opt r1 =>
      match rmatch r1 s k with
      | Some x => Some x
      | None => k s
      end
  | Star p => star p s k
  | Plus p =>
      match s with
      | String c s' => if p c then star p s' k else None
      | EmptyString => None
      end
  | LazyStar p => lazy_star p s k
  | Seq r1 r2 => rmatch r1 s (fun s' => rmatch r2 s' k)
  end.
End Matcher.

(** A match of [pre (grp) post] anchored at the start of [s]; the
    result is the text of the group. *)
Definition match_group (pre grp post : re) (s : string) : option string :=
  rmatch pre s (fun s1 =>
    rmatch grp s1 (fun s2 =>
      rmatch post s2 (fun _ =>
        Some (PyStr.take (String.length s1 - String.length s2) s1)))).

(** [re.search(pre (grp) post, s).group(1)] *)
Fixpoint search_group (pre grp post : re) (s : string) : option string :=
  match match_group pre grp post s with
  | Some g => Some g
  | None =>
      match s with
      | String _ s' => search_group pre grp post s'
      | EmptyString => None
      end
  end.

End Regex.

(** ** Amount extraction (main.py, lines 537-556 and 1711-1728) *)

(** [re.search(r'(\d+)x?\s*xanax', log_text_lower)], group 1. *)
Definition xanax_pattern (log_text_lower : string) : option string :=
  Regex.search_group
    (Regex.Lit "")
    (Regex.Plus PyStr.is_digit)
    (Regex.Seq (Regex.Opt (Regex.Lit "x"))
       (Regex.Seq (Regex.Star PyStr.is_space) (Regex.Lit "xanax")))
    log_text_lower.

(** The payment amount New-Order Discovery reads from an event text;
    [0] stands for "no valid payment amount found". *)
Definition payment_amount (log_text : string) : Z :=
  let log_text_lower := PyStr.lower log_text in
  match xanax_pattern log_text_lower with
  | Some g => PyStr.int g
  | None =>
      if PyStr.contains "some xanax" log_text_lower then 1
      else match PyStr.findall_digits log_text with
           | n :: _ => PyStr.int n
           | [] => 0
           end
  end.

(** The amount test of the Matching Engine against the payment an
    order expects. *)
Definition payment_amount_found (log_text : string) (expected_payment : Z)
  : bool :=
  let log_text_lower := PyStr.lower log_text in
  match xanax_pattern log_text_lower with
  | Some g => Z.eqb (PyStr.int g) expected_payment
  | None =>
      if PyStr.contains "some xanax" log_text_lower && Z.eqb expected_payment 1
      then true
      else existsb (fun num => Z.eqb (PyStr.int num) expected_payment)
             (PyStr.findall_digits log_text)
  end.

(** ** Data model *)

(** [coverage_type]: ['XAN'] (duration based) or ['EXTC'] (count
    based). *)
Inductive CoverageKind : Type := XAN | EXTC.


(** The tag token a payer puts in the transfer message. *)
Definition message_code (k : CoverageKind) : string :=
  match k with XAN => "HJSx" | EXTC => "HJSe" end.

(** Outcome of a computation that may raise a Python exception. *)
Inductive Exc (A : Type) : Type :=
| Ok (a : A)
| Raise.
Arguments Ok {A} a.
Arguments Raise {A}.

Inductive OrderStatus : Type := StPending | StActive.

(** The key [f"{user.id}_{datetime.now().timestamp()}"], with the
    suffix ["_auto"] for a discovered order. *)
Record OrderId : Type := mkOrderId {
  oid_user : Z;
  oid_time : Z;
  oid_auto : bool
}.

Definition oid_eqb (a b : OrderId) : bool :=
  Z.eqb (oid_user a) (oid_user b) && Z.eqb (oid_time a) (oid_time b)
  && Bool.eqb (oid_auto a) (oid_auto b).

(** An [order_data] dictionary; a key the dictionary may lack is an
    [option].  The Discord message handle ["user_message"] and the copy
    of the key under ["order_id"] are left out. *)
Record Order : Type := mkOrder {
  user_id : Z;
  username : string;
  display_name : option string;
  coverage_type : CoverageKind;
  hours : option Z;
  jumps : option Z;
  xanax_payment : option Z;
  xanax_reward : Z;
  edvds_reward : option Z;
  ecstasy_reward : option Z;
  timestamp : option Z;
  payment_received_at : option Z;
  status : option OrderStatus;
  activated_at : option Z;
  expires_at : option Z;
  auto_detected : bool;
  torn_sender_name : option string;
  start_time : option Z
}.

Record XanPrice : Type := mkXanPrice { xan_cost : Z; xan_reward : Z }.

Record ExtcPrice : Type := mkExtcPrice {
  extc_cost : Z;
  extc_edvds : Z;
  extc_xanax : Z;
  extc_ecstasy : Z
}.

(** A guild member: [member.id], [str(member)], [member.display_name]. *)
Record Member : Type := mkMember {
  member_id : Z;
  member_name : string;
  member_display_name : string
}.

(** A JSON value found under ['log'] or ['event']: a string, or
    anything else with its [str()] rendering and its truth value. *)
Inductive PyVal : Type :=
| VStr (s : string)
| VOther (rendering : string) (truth : bool).

(** The value under ['timestamp']: absent, a number of epoch seconds,
    or a value [datetime.fromtimestamp] rejects. *)
Inductive PyTs : Type := TsAbsent | TsNum (z : Z) | TsInvalid.

Record LogEntry : Type := mkLogEntry {
  log : PyVal;               (* [''] when absent *)
  event : PyVal;             (* [''] when absent *)
  entry_timestamp : PyTs;
  other_fields : list string (* the other string-valued fields *)
}.

Inductive RawEntry : Type :=
| NotADict
| Entry (e : LogEntry).

(** What [check_torn_events] returns: [None] on a transport fault,
    else the value under ['events']. *)
Inductive Events : Type :=
| EvNone
| EvDict (items : list (string * RawEntry))
| EvList (entries : list RawEntry)
| EvOther (truth : bool).

Record Store : Type := mkStore {
  pending_order : list (OrderId * Order);
  active_orders : list (OrderId * Order);
  processed_events : gset string;
  pricing_xan : list (Z * XanPrice);
  pricing_extc : list (Z * ExtcPrice)
}.

Record Scheduler : Type := mkScheduler {
  auto_check_enabled : bool;
  auto_check_interval : Z;   (* minutes *)
  last_check_time : Z
}.

(** ** Insertion-ordered dictionaries *)

Section Dict.
Context {K V : Type} (eqb : K -> K -> bool).

Fixpoint dict_get (k : K) (d : list (K * V)) : option V :=
  match d with
  | [] => None
  | (k', v) :: d' => if eqb k k' then Some v else dict_get k d'
  end.

(** [d[k] = v]: an existing key keeps its position. *)
Fixpoint dict_set (k : K) (v : V) (d : list (K * V)) : list (K * V) :=
  match d with
  | [] => [(k, v)]
  | (k', v') :: d' =>
      if eqb k k' then (k, v) :: d' else (k', v') :: dict_set k v d'
  end.

(** [del d[k]] *)
Definition dict_del (k : K) (d : list (K * V)) : list (K * V) :=
  List.filter (fun kv => negb (eqb k (fst kv))) d.

Definition dict_mem (k : K) (d : list (K * V)) : bool :=
  existsb (fun kv => eqb k (fst kv)) d.

End Dict.

(** [any(order_data.get('user_id') == uid for order_data in d.values())] *)
Definition has_order (uid : Z) (d : list (OrderId * Order)) : bool :=
  existsb (fun kv => Z.eqb (user_id (snd kv)) uid) d.

Definition with_pending (st : Store) (p : list (OrderId * Order)) : Store :=
  mkStore p (active_orders st) (processed_events st)
    (pricing_xan st) (pricing_extc st).

Definition with_active (st : Store) (a : list (OrderId * Order)) : Store :=
  mkStore (pending_order st) a (processed_events st)
    (pricing_xan st) (pricing_extc st).

Definition with_processed (st : Store) (s : gset string) : Store :=
  mkStore (pending_order st) (active_orders st) s
    (pricing_xan st) (pricing_extc st).

(** ** Feed normalisation *)

(** The pairs [(log_id, log_entry)] a pass iterates over, with
    [str(log_id)] as identifier. *)
Fixpoint enumerate (i : nat) (l : list RawEntry) : list (string * RawEntry) :=
  match l with
  | [] => []
  | e :: l' => (PyStr.str_of_nat i, e) :: enumerate (S i) l'
  end.

Definition log_items (events : Events) : list (string * RawEntry) :=
  match events with
  | EvDict items => items
  | EvList entries => enumerate 0 entries
  | EvNone | EvOther _ => []
  end.

(** [not events] *)
Definition events_falsy (events : Events) : bool :=
  match events with
  | EvNone => true
  | EvDict [] => true
  | EvList [] => true
  | EvOther t => negb t
  | _ => false
  end.

Definition truthy (v : PyVal) : bool :=
  match v with
  | VStr s => negb (String.eqb s "")
  | VOther _ t => t
  end.

Definition py_str (v : PyVal) : string :=
  match v with
  | VStr s => s
  | VOther r _ => r
  end.

(** The text of an entry: ['event'] when ['log'] is empty, coerced to
    a string. *)
Definition entry_text (e : LogEntry) : string :=
  let log_text := log e in
  let event_text := event e in
  let log_text :=
    if truthy event_text && negb (truthy log_text) then event_text
    else log_text in
  py_str log_text.

(** [datetime.fromtimestamp(log_entry.get('timestamp', 0))] *)
Definition fromtimestamp (t : PyTs) : Exc Z :=
  match t with
  | TsAbsent => Ok 0
  | TsNum z => Ok z
  | TsInvalid => Raise
  end.

Definition has_transfer (log_text_lower : string) : bool :=
  (PyStr.contains "sent" log_text_lower
   && PyStr.contains "to you" log_text_lower)
  || PyStr.contains "you were sent" log_text_lower
  || PyStr.contains "received" log_text_lower.

(** ** New-Order Discovery (detect_new_orders_from_torn) *)

(** [re.search(r'from.*?>([^<]+)</a>', log_text)], group 1. *)
Definition name_pattern (log_text : string) : option string :=
  Regex.search_group
    (Regex.Seq (Regex.Lit "from")
       (Regex.Seq (Regex.LazyStar (fun c => negb (Ascii.eqb c "010"%char)))
          (Regex.Lit ">")))
    (Regex.Plus (fun c => negb (Ascii.eqb c "<"%char)))
    (Regex.Lit "</a>")
    log_text.

(** The sender name read from the event text; [name_part.split()[0]]
    raises [IndexError] when nothing stands between [' from '] and
    [' with']. *)
Definition sender_name_of (log_text : string) : Exc (option string) :=
  if PyStr.contains "from" (PyStr.lower log_text) then
    match name_pattern log_text with
    | Some g => Ok (Some (PyStr.strip g))
    | None =>
        match PyStr.split " from " log_text with
        | _ :: part :: _ =>
            let name_part :=
              PyStr.strip (List.hd EmptyString (PyStr.split " with" part)) in
            match PyStr.split_ws name_part with
            | w :: _ => Ok (Some w)
            | [] => Raise
            end
        | _ => Ok None
        end
    end
  else Ok None.

(** The first guild member whose display name contains the sender name
    or is contained in it, ignoring case. *)
Definition find_member (guild : list Member) (sender_name : string)
  : option Member :=
  List.find
    (fun member =>
       let member_display := PyStr.lower (member_display_name member) in
       PyStr.contains (PyStr.lower sender_name) member_display
       || PyStr.contains member_display (PyStr.lower sender_name))
    guild.

(** The [order_data] of a discovered order before its kind-specific
    keys are added. *)
Definition auto_order (m : Member) (k : CoverageKind)
  (log_time payment reward : Z) (sender_name : string) : Order :=
  {| user_id := member_id m;
     username := member_name m;
     display_name := Some (member_display_name m);
     coverage_type := k;
     hours := None;
     jumps := None;
     xanax_payment := Some payment;
     xanax_reward := reward;
     edvds_reward := None;
     ecstasy_reward := None;
     timestamp := Some log_time;
     payment_received_at := Some log_time;
     status := None;
     activated_at := None;
     expires_at := None;
     auto_detected := true;
     torn_sender_name := Some sender_name;
     start_time := None |}.

Definition set_hours (od : Order) (h : Z) : Order :=
  mkOrder (user_id od) (username od) (display_name od) (coverage_type od)
    (Some h) (jumps od) (xanax_payment od) (xanax_reward od)
    (edvds_reward od) (ecstasy_reward od) (timestamp od)
    (payment_received_at od) (status od) (activated_at od) (expires_at od)
    (auto_detected od) (torn_sender_name od) (start_time od).

Definition set_extc_keys (od : Order) (j edvds ecstasy : Z) : Order :=
  mkOrder (user_id od) (username od) (display_name od) (coverage_type od)
    (hours od) (Some j) (xanax_payment od) (xanax_reward od)
    (Some edvds) (Some ecstasy) (timestamp od)
    (payment_received_at od) (status od) (activated_at od) (expires_at od)
    (auto_detected od) (torn_sender_name od) (start_time od).

(** Lines 558-625: the pricing tier whose cost equals the payment, the
    new order, and the statements that store it.  In the source the
    store into [pending_order], the update of [processed_events] and
    the increment of the counter are indented under the [else] (EXTC)
    branch of [if coverage_type == 'XAN']. *)
Definition materialize (st : Store) (event_id : string) (m : Member)
  (coverage_type : CoverageKind) (log_time payment_amount now : Z)
  (sender_name : string) : Store * nat :=
  let order_id := mkOrderId (member_id m) now true in
  match coverage_type with
  | XAN =>
      match List.find (fun p => Z.eqb (xan_cost (snd p)) payment_amount)
              (pricing_xan st) with
      | None => (st, 0%nat)
      | Some (hours, price_info) =>
          let order_data :=
            auto_order m XAN log_time payment_amount (xan_reward price_info)
              sender_name in
          let order_data := set_hours order_data hours in
          (st, 0%nat)
      end
  | EXTC =>
      match List.find (fun p => Z.eqb (extc_cost (snd p)) payment_amount)
              (pricing_extc st) with
      | None => (st, 0%nat)
      | Some (jumps, price_info) =>
          let order_data :=
            auto_order m EXTC log_time payment_amount (extc_xanax price_info)
              sender_name in
          let order_data :=
            set_extc_keys order_data jumps (extc_edvds price_info)
              (extc_ecstasy price_info) in
          (mkStore (dict_set oid_eqb order_id order_data (pending_order st))
             (active_orders st)
             ({[ event_id ]} ∪ processed_events st)
             (pricing_xan st) (pricing_extc st),
           1%nat)
      end
  end.

(** One iteration of the discovery loop: the new store and the
    increment of [new_orders_count], or the exception the iteration
    raises. *)
Definition detect_event (guild : list Member) (now lookback_limit : Z)
  (st : Store) (log_id : string) (log_entry : RawEntry) : Exc (Store * nat) :=
  match log_entry with
  | NotADict => Ok (st, 0%nat)
  | Entry e =>
      let event_id := log_id in
      if bool_decide (event_id ∈ processed_events st) then Ok (st, 0%nat)
      else
        let log_text := entry_text e in
        let log_text_lower := PyStr.lower log_text in
        match fromtimestamp (entry_timestamp e) with
        | Raise => Raise
        | Ok log_time =>
            if Z.ltb log_time lookback_limit then Ok (st, 0%nat)
            else
              let has_xanax := PyStr.contains "xanax" log_text_lower in
              let has_hjsx := PyStr.contains "hjsx" log_text_lower in
              let has_hjse := PyStr.contains "hjse" log_text_lower in
              let is_xan_order :=
                has_xanax && has_hjsx && has_transfer log_text_lower in
              let is_extc_order :=
                has_xanax && has_hjse && has_transfer log_text_lower in
              if negb (is_xan_order || is_extc_order) then Ok (st, 0%nat)
              else
                match sender_name_of log_text with
                | Raise => Raise
                | Ok None => Ok (st, 0%nat)
                | Ok (Some sender_name) =>
                    if String.eqb sender_name "" then Ok (st, 0%nat)
                    else
                      match find_member guild sender_name with
                      | None => Ok (st, 0%nat)
                      | Some discord_member =>
                          if has_order (member_id discord_member)
                               (pending_order st)
                          then Ok (st, 0%nat)
                          else if has_order (member_id discord_member)
                                    (active_orders st)
                          then Ok (st, 0%nat)
                          else
                            let amount := payment_amount log_text in
                            if Z.eqb amount 0 then Ok (st, 0%nat)
                            else
                              let coverage_type :=
                                if is_xan_order then XAN else EXTC in
                              Ok (materialize st event_id discord_member
                                    coverage_type log_time amount now
                                    sender_name)
                      end
                end
        end
  end.

(** The [for] loop inside the [try]: it stops at the first iteration
    that raises. *)
Fixpoint detect_loop (guild : list Member) (now lookback_limit : Z)
  (items : list (string * RawEntry)) (st : Store) (new_orders_count : nat)
  : Store * nat * Exc unit :=
  match items with
  | [] => (st, new_orders_count, Ok tt)
  | (log_id, log_entry) :: rest =>
      match detect_event guild now lookback_limit st log_id log_entry with
      | Raise => (st, new_orders_count, Raise)
      | Ok (st', n) =>
          detect_loop guild now lookback_limit rest st'
            (new_orders_count + n)%nat
      end
  end.

(** [detect_new_orders_from_torn]: [except Exception] prints the error
    and the function returns [new_orders_count]. *)
Definition detect_new_orders_from_torn (st : Store) (guild : list Member)
  (events : Events) (now : Z) : Store * nat :=
  if events_falsy events then (st, 0%nat)
  else
    let lookback_limit := now - 3600 in
    fst (detect_loop guild now lookback_limit (log_items events) st 0%nat).

(** ** The Matching Engine (perform_order_check) *)

(** The display name without its ["[ID]"] part. *)
Definition clean_display_name (display_name : string) : string :=
  if PyStr.contains "[" display_name
  then PyStr.strip (List.hd EmptyString (PyStr.split "[" display_name))
  else display_name.

(** [any(word in log_text_lower for word in words if len(word) > 2)] *)
Definition partial_match (words : list string) (log_text_lower : string)
  : bool :=
  existsb
    (fun word =>
       Nat.ltb 2 (String.length word) && PyStr.contains word log_text_lower)
    words.

(** The four-way identity test of an order against an event text. *)
Definition name_match_found (od : Order) (log_text_lower : string) : bool :=
  let username := username od in
  let display_name :=
    match display_name od with Some d => d | None => username end in
  let display_name_clean := clean_display_name display_name in
  let display_name_found :=
    PyStr.contains (PyStr.lower display_name_clean) log_text_lower in
  let username_found :=
    PyStr.contains (PyStr.lower username) log_text_lower in
  let display_name_words := PyStr.split_ws (PyStr.lower display_name_clean) in
  let username_words := PyStr.split_ws (PyStr.lower username) in
  display_name_found || username_found
  || partial_match display_name_words log_text_lower
  || partial_match username_words log_text_lower.

(** The values of the string-valued fields of an entry. *)
Definition string_fields (e : LogEntry) : list string :=
  match log e with VStr s => [s] | VOther _ _ => [] end
  ++ match event e with VStr s => [s] | VOther _ _ => [] end
  ++ other_fields e.

Definition other_fields_match (code : string) (e : LogEntry) : bool :=
  existsb
    (fun value =>
       let value_lower := PyStr.lower value in
       PyStr.contains "xanax" value_lower
       || PyStr.contains "hjsx" value_lower
       || PyStr.contains "hjse" value_lower
       || PyStr.contains (PyStr.lower code) value_lower)
    (string_fields e).

(** The text predicates of the Matching Engine: currency, tag token
    and transfer phrase. *)
Definition is_tagged_transfer (k : CoverageKind) (log_text_lower : string)
  : bool :=
  PyStr.contains "xanax" log_text_lower
  && PyStr.contains (PyStr.lower (message_code k)) log_text_lower
  && has_transfer log_text_lower.

Definition expected_payment (od : Order) : Z :=
  match xanax_payment od with Some p => p | None => 0 end.

(** One iteration of the inner loop over the feed for the order [od]:
    [Ok (Some log_time)] when the entry verifies the payment. *)
Definition check_event (od : Order) (lookback_limit : Z) (e : LogEntry)
  : Exc (option Z) :=
  let code := message_code (coverage_type od) in
  let log_text := entry_text e in
  let log_text_lower := PyStr.lower log_text in
  match fromtimestamp (entry_timestamp e) with
  | Raise => Raise
  | Ok log_time =>
      if Z.ltb log_time lookback_limit then Ok None
      else
        let contains_xanax := PyStr.contains "xanax" log_text_lower in
        let contains_message_code :=
          PyStr.contains (PyStr.lower code) log_text_lower in
        let contains_hjsx := PyStr.contains "hjsx" log_text_lower in
        let contains_hjse := PyStr.contains "hjse" log_text_lower in
        if negb (contains_xanax || contains_hjsx || contains_hjse
                 || contains_message_code || other_fields_match code e)
        then Ok None
        else if is_tagged_transfer (coverage_type od) log_text_lower then
          let amount_found :=
            payment_amount_found log_text (expected_payment od) in
          let name_found := name_match_found od log_text_lower in
          match timestamp od with
          | None => Raise        (* strptime(None, ...) *)
          | Some order_time =>
              let time_difference := Z.abs (log_time - order_time) in
              let time_valid := Z.leb time_difference 3600 in
              if time_valid && amount_found && name_found
              then Ok (Some log_time)
              else Ok None
          end
        else Ok None
  end.

(** The in-place update of a verified order: the payment time is
    recorded, and the order time moves back to it when the payment
    came first. *)
Definition record_payment (od : Order) (log_time : Z) : Order :=
  let payment_made_first :=
    match timestamp od with
    | Some order_time => Z.ltb log_time order_time
    | None => false
    end in
  mkOrder (user_id od) (username od) (display_name od) (coverage_type od)
    (hours od) (jumps od) (xanax_payment od) (xanax_reward od)
    (edvds_reward od) (ecstasy_reward od)
    (if payment_made_first then Some log_time else timestamp od)
    (Some log_time) (status od) (activated_at od) (expires_at od)
    (auto_detected od) (torn_sender_name od) (start_time od).

(** The inner loop: the first qualifying entry wins. *)
Fixpoint scan_order (od : Order) (lookback_limit : Z)
  (items : list (string * RawEntry)) : Exc (option Order) :=
  match items with
  | [] => Ok None
  | (_, NotADict) :: rest => scan_order od lookback_limit rest
  | (_, Entry e) :: rest =>
      match check_event od lookback_limit e with
      | Raise => Raise
      | Ok (Some log_time) => Ok (Some (record_payment od log_time))
      | Ok None => scan_order od lookback_limit rest
      end
  end.

(** The outer loop over [pending_order.items()].  It returns the
    pending dictionary with the in-place updates made so far, and
    either the lists [verified_orders] and the length of
    [still_pending], or the exception that ended the loop. *)
Fixpoint check_orders (lookback_limit : Z) (items : list (string * RawEntry))
  (pending : list (OrderId * Order))
  : list (OrderId * Order) * Exc (list (OrderId * Order) * nat) :=
  match pending with
  | [] => ([], Ok ([], 0%nat))
  | (order_id, order_data) :: rest =>
      match scan_order order_data lookback_limit items with
      | Raise => (pending, Raise)
      | Ok found =>
          let '(rest', r) := check_orders lookback_limit items rest in
          match found with
          | Some order_data' =>
              ((order_id, order_data') :: rest',
               match r with
               | Ok (verified, still) =>
                   Ok ((order_id, order_data') :: verified, still)
               | Raise => Raise
               end)
          | None =>
              ((order_id, order_data) :: rest',
               match r with
               | Ok (verified, still) => Ok (verified, S still)
               | Raise => Raise
               end)
          end
      end
  end.

(** Coverage length in seconds: the configured hours for XAN (24 when
    the key is missing), always two hours for EXTC. *)
Definition coverage_seconds (od : Order) : Z :=
  match coverage_type od with
  | XAN => (match hours od with Some h => h | None => 24 end) * 3600
  | EXTC => 2 * 3600
  end.

Definition set_activation (od : Order) (activated expires : Z)
  (st : option OrderStatus) : Order :=
  mkOrder (user_id od) (username od) (display_name od) (coverage_type od)
    (hours od) (jumps od) (xanax_payment od) (xanax_reward od)
    (edvds_reward od) (ecstasy_reward od) (timestamp od)
    (payment_received_at od) st (Some activated) (Some expires)
    (auto_detected od) (torn_sender_name od) (start_time od).

(** One iteration of the activation loop. *)
Definition activate_verified (now : Z) (st : Store)
  (order : OrderId * Order) : Store :=
  let '(order_id, order_data) := order in
  let activation_time := now in
  let expiry_time := activation_time + coverage_seconds order_data in
  let st :=
    with_active st
      (dict_set oid_eqb order_id
         (set_activation order_data activation_time expiry_time
            (status order_data))
         (active_orders st)) in
  if dict_mem oid_eqb order_id (pending_order st)
  then with_pending st (dict_del oid_eqb order_id (pending_order st))
  else st.

(** [perform_order_check]: the store after the pass, and the pair
    [(len(still_pending), activated_count)] or the exception that
    leaves the function. *)
Definition perform_order_check (st : Store) (events : Events) (now : Z)
  : Store * Exc (nat * nat) :=
  match pending_order st with
  | [] => (st, Ok (0%nat, 0%nat))
  | _ :: _ =>
      match events with
      | EvNone => (st, Ok (0%nat, 0%nat))
      | _ =>
          let lookback_limit := now - 24 * 3600 in
          let '(pending', r) :=
            check_orders lookback_limit (log_items events) (pending_order st) in
          let st := with_pending st pending' in
          match r with
          | Raise => (st, Raise)
          | Ok (verified_orders, still_pending) =>
              (fold_left (activate_verified now) verified_orders st,
               Ok (still_pending, List.length verified_orders))
          end
      end
  end.

(** ** Commands on the order store *)

Inductive Reply : Type :=
| AdminOnly
| NoPricingConfigured
| OrderAlreadyExists
| InsuranceAlreadyActive
| InvalidCoverage
| OrderCreated (order_id : OrderId)
| NoPendingOrders
| MultipleOrders
| OrderActivated (order_id : OrderId)
| CoverageGranted (order_id : OrderId)
| OrdersListed
| InvalidOrderNumber
| OrderDeleted (order_id : OrderId)
| ExpiredRemoved (n : nat)
| PricingRejected
| PricingUpdated
| NoApiKey
| NothingToCheck
| CheckResults (still_pending activated : nat).

(** A reply by which a purchase command turns the request down. *)
Definition is_refusal (r : Reply) : bool :=
  match r with
  | NoPricingConfigured | OrderAlreadyExists | InsuranceAlreadyActive => true
  | _ => false
  end.

Definition purchase_order (user : Member) (k : CoverageKind) (now : Z)
  (param payment reward : Z) (edvds ecstasy : option Z) : Order :=
  {| user_id := member_id user;
     username := member_name user;
     display_name := Some (member_display_name user);
     coverage_type := k;
     hours := match k with XAN => Some param | EXTC => None end;
     jumps := match k with XAN => None | EXTC => Some param end;
     xanax_payment := Some payment;
     xanax_reward := reward;
     edvds_reward := edvds;
     ecstasy_reward := ecstasy;
     timestamp := Some now;
     payment_received_at := None;
     status := Some StPending;
     activated_at := None;
     expires_at := None;
     auto_detected := false;
     torn_sender_name := None;
     start_time := None |}.

(** [/xan]: [coverage] is the value of [int(coverage)], [None] when
    [int] raises [ValueError]. *)
Definition xan_insurance (st : Store) (user : Member) (coverage : option Z)
  (now : Z) : Store * Exc Reply :=
  match pricing_xan st with
  | [] => (st, Ok NoPricingConfigured)
  | _ :: _ =>
      let user_id := member_id user in
      let existing_pending := has_order user_id (pending_order st) in
      if existing_pending then (st, Ok OrderAlreadyExists)
      else
        let existing_active := has_order user_id (active_orders st) in
        if existing_active then (st, Ok InsuranceAlreadyActive)
        else
          match coverage with
          | None => (st, Raise)
          | Some hours =>
              match dict_get Z.eqb hours (pricing_xan st) with
              | None => (st, Ok InvalidCoverage)
              | Some price_config =>
                  let order_id := mkOrderId (member_id user) now false in
                  let order_data :=
                    purchase_order user XAN now hours (xan_cost price_config)
                      (xan_reward price_config) None None in
                  (with_pending st
                     (dict_set oid_eqb order_id order_data (pending_order st)),
                   Ok (OrderCreated order_id))
              end
          end
  end.

(** [/extc] *)
Definition extc_insurance (st : Store) (user : Member) (coverage : option Z)
  (now : Z) : Store * Exc Reply :=
  match pricing_extc st with
  | [] => (st, Ok NoPricingConfigured)
  | _ :: _ =>
      let user_id := member_id user in
      let existing_pending := has_order user_id (pending_order st) in
      if existing_pending then (st, Ok OrderAlreadyExists)
      else
        let existing_active := has_order user_id (active_orders st) in
        if existing_active then (st, Ok InsuranceAlreadyActive)
        else
          match coverage with
          | None => (st, Raise)
          | Some jumps =>
              match dict_get Z.eqb jumps (pricing_extc st) with
              | None => (st, Ok InvalidCoverage)
              | Some price_config =>
                  let order_id := mkOrderId (member_id user) now false in
                  let order_data :=
                    purchase_order user EXTC now jumps
                      (extc_cost price_config) (extc_xanax price_config)
                      (Some (extc_edvds price_config))
                      (Some (extc_ecstasy price_config)) in
                  (with_pending st
                     (dict_set oid_eqb order_id order_data (pending_order st)),
                   Ok (OrderCreated order_id))
              end
          end
  end.

(** [/setxanprice] and [/setextcprice] *)
Definition set_xan_price (st : Store) (is_admin : bool) (hours cost reward : Z)
  : Store * Reply :=
  if negb is_admin then (st, AdminOnly)
  else if Z.ltb hours 1 || Z.ltb cost 1 || Z.ltb reward 1
  then (st, PricingRejected)
  else
    (mkStore (pending_order st) (active_orders st) (processed_events st)
       (dict_set Z.eqb hours (mkXanPrice cost reward) (pricing_xan st))
       (pricing_extc st),
     PricingUpdated).

Definition set_extc_price (st : Store) (is_admin : bool)
  (jumps cost edvds_reward xanax_reward ecstasy_reward : Z) : Store * Reply :=
  if negb is_admin then (st, AdminOnly)
  else if Z.ltb jumps 1 || Z.ltb cost 1 || Z.ltb edvds_reward 1
          || Z.ltb xanax_reward 1 || Z.ltb ecstasy_reward 1
  then (st, PricingRejected)
  else
    (mkStore (pending_order st) (active_orders st) (processed_events st)
       (pricing_xan st)
       (dict_set Z.eqb jumps
          (mkExtcPrice cost edvds_reward xanax_reward ecstasy_reward)
          (pricing_extc st)),
     PricingUpdated).

(** The pending orders of a member, in dictionary order. *)
Definition user_orders (uid : Z) (d : list (OrderId * Order))
  : list (OrderId * Order) :=
  List.filter (fun kv => Z.eqb (user_id (snd kv)) uid) d.

(** The instant a manual activation counts from. *)
Definition activation_time (od : Order) (now : Z) : Z :=
  match payment_received_at od with
  | Some t => t
  | None => now
  end.

(** [/activate] (lines 2051-2097) *)
Definition activate_order (st : Store) (is_admin : bool) (uid : Z) (now : Z)
  : Store * Reply :=
  if negb is_admin then (st, AdminOnly)
  else
    match user_orders uid (pending_order st) with
    | [] => (st, NoPendingOrders)
    | [(order_id, order_data)] =>
        let activation_time := activation_time order_data now in
        let expiry_time := activation_time + coverage_seconds order_data in
        let st :=
          with_active st
            (dict_set oid_eqb order_id
               (set_activation order_data activation_time expiry_time
                  (Some StActive))
               (active_orders st)) in
        (with_pending st (dict_del oid_eqb order_id (pending_order st)),
         OrderActivated order_id)
    | _ :: _ :: _ => (st, MultipleOrders)
    end.

(** [/givecover] (lines 2689-2728): the order goes straight into
    [active_orders]. *)
Definition give_coverage (st : Store) (is_admin : bool) (user : Member)
  (drug_type : CoverageKind) (duration reward : Z) (now : Z)
  : Store * Reply :=
  if negb is_admin then (st, AdminOnly)
  else
    let order_time := now in
    let order_id := mkOrderId (member_id user) order_time false in
    let order_data :=
      {| user_id := member_id user;
         username := member_name user;
         display_name := None;
         coverage_type := drug_type;
         hours := match drug_type with XAN => Some duration | EXTC => None end;
         jumps := match drug_type with XAN => None | EXTC => Some duration end;
         xanax_payment := None;
         xanax_reward := reward;
         edvds_reward := match drug_type with XAN => None | EXTC => Some 3 end;
         ecstasy_reward :=
           match drug_type with XAN => None | EXTC => Some 1 end;
         timestamp := None;
         payment_received_at := None;
         status := None;
         activated_at := None;
         expires_at := None;
         auto_detected := false;
         torn_sender_name := None;
         start_time := Some order_time |} in
    (with_active st (dict_set oid_eqb order_id order_data (active_orders st)),
     CoverageGranted order_id).

(** [/del] with type "order"; [allowed] is the permission test. *)
Definition delete_entry (st : Store) (allowed : bool) (uid : Z)
  (order_number : option Z) : Store * Reply :=
  if negb allowed then (st, AdminOnly)
  else
    let orders := user_orders uid (pending_order st) in
    match orders with
    | [] => (st, NoPendingOrders)
    | _ :: _ =>
        match order_number with
        | None => (st, OrdersListed)
        | Some n =>
            if Z.ltb n 1 || Z.ltb (Z.of_nat (List.length orders)) n
            then (st, InvalidOrderNumber)
            else
              match nth_error orders (Z.to_nat (n - 1)) with
              | Some (order_id, _) =>
                  (with_pending st
                     (dict_del oid_eqb order_id (pending_order st)),
                   OrderDeleted order_id)
              | None => (st, InvalidOrderNumber)
              end
        end
    end.

(** [/expired]: the lazy expiry sweep of the active set. *)
Definition to_remove (now : Z) (od : Order) : bool :=
  match expires_at od, activated_at od with
  | Some expires, Some _ => Z.leb expires now
  | _, _ => true
  end.

Definition expired_orders_command (st : Store) (is_admin : bool) (now : Z)
  : Store * Reply :=
  if negb is_admin then (st, AdminOnly)
  else
    let orders_to_remove :=
      map fst (List.filter (fun kv => to_remove now (snd kv))
                 (active_orders st)) in
    (with_active st
       (fold_left (fun d order_id => dict_del oid_eqb order_id d)
          orders_to_remove (active_orders st)),
     ExpiredRemoved (List.length orders_to_remove)).

(** [not torn_api_key] *)
Definition key_missing (api_key : option string) : bool :=
  match api_key with
  | None => true
  | Some k => String.eqb k ""
  end.

(** [/order]: the manual trigger of the Matching Engine. *)
Definition check_order (st : Store) (is_admin : bool)
  (api_key : option string) (events : Events) (now : Z)
  : Store * Exc Reply :=
  if negb is_admin then (st, Ok AdminOnly)
  else if key_missing api_key then (st, Ok NoApiKey)
  else
    match pending_order st with
    | [] => (st, Ok NothingToCheck)
    | _ :: _ =>
        match perform_order_check st events now with
        | (st', Ok (still_pending_count, activated_count)) =>
            (st', Ok (CheckResults still_pending_count activated_count))
        | (st', Raise) => (st', Raise)
        end
    end.

(** ** The scheduler tick (auto_check_orders) *)

(** What a tick does, in the order it does it. *)
Inductive Action : Type :=
| MissingKeyNotice
| CallDiscovery
| CallMatching
| ResultsNotice (new_orders verified still_pending : nat)
| ErrorNotice.

(** One firing of the one-minute timer.  [guild] is [bot.guilds[0]]
    when the bot is in a guild; [fetch_discovery] and [fetch_matching]
    are what [check_torn_events] returns to each pass. *)
Definition auto_check_orders (sch : Scheduler) (st : Store)
  (guild : option (list Member)) (api_key : option string)
  (fetch_discovery fetch_matching : Events) (now : Z)
  : Scheduler * Store * list Action :=
  if negb (auto_check_enabled sch) then (sch, st, [])
  else if Z.ltb (now - last_check_time sch) (auto_check_interval sch * 60)
  then (sch, st, [])
  else
    let sch :=
      mkScheduler (auto_check_enabled sch) (auto_check_interval sch) now in
    match guild with
    | None => (sch, st, [])
    | Some members =>
        if key_missing api_key then (sch, st, [MissingKeyNotice])
        else
          let '(st, new_orders_count) :=
            detect_new_orders_from_torn st members fetch_discovery now in
          match perform_order_check st fetch_matching now with
          | (st, Ok (still_pending_count, verified_orders_count)) =>
              (sch, st,
               [CallDiscovery; CallMatching;
                ResultsNotice new_orders_count verified_orders_count
                  still_pending_count])
          | (st, Raise) =>
              (sch, st, [CallDiscovery; CallMatching; ErrorNotice])
          end
    end.

(** The tick as the overview of the specification words it: the
    Matching Engine first, New-Order Discovery second. *)
Definition tick_matching_first (sch : Scheduler) (st : Store)
  (guild : option (list Member)) (api_key : option string)
  (fetch_discovery fetch_matching : Events) (now : Z)
  : Scheduler * Store * list Action :=
  if negb (auto_check_enabled sch) then (sch, st, [])
  else if Z.ltb (now - last_check_time sch) (auto_check_interval sch * 60)
  then (sch, st, [])
  else
    let sch :=
      mkScheduler (auto_check_enabled sch) (auto_check_interval sch) now in
    match guild with
    | None => (sch, st, [])
    | Some members =>
        if key_missing api_key then (sch, st, [MissingKeyNotice])
        else
          match perform_order_check st fetch_matching now with
          | (st, Ok (still_pending_count, verified_orders_count)) =>
              let '(st, new_orders_count) :=
                detect_new_orders_from_torn st members fetch_discovery now in
              (sch, st,
               [CallMatching; CallDiscovery;
                ResultsNotice new_orders_count verified_orders_count
                  still_pending_count])
          | (st, Raise) => (sch, st, [CallMatching; ErrorNotice])
          end
    end.

(** ** Reachable stores *)

(** The operations that change the order store. *)
Inductive Command : Type :=
| SetXanPrice (is_admin : bool) (hours cost reward : Z)
| SetExtcPrice (is_admin : bool) (jumps cost edvds xanax ecstasy : Z)
| BuyXan (user : Member) (coverage : option Z) (now : Z)
| BuyExtc (user : Member) (coverage : option Z) (now : Z)
| Discover (guild : list Member) (events : Events) (now : Z)
| CheckOrders (events : Events) (now : Z)
| Activate (is_admin : bool) (uid : Z) (now : Z)
| GiveCover (is_admin : bool) (user : Member) (drug_type : CoverageKind)
    (duration reward : Z) (now : Z)
| Delete (allowed : bool) (uid : Z) (order_number : option Z)
| SweepExpired (is_admin : bool) (now : Z).

Definition exec (st : Store) (c : Command) : Store :=
  match c with
  | SetXanPrice a h c r => fst (set_xan_price st a h c r)
  | SetExtcPrice a j c e x y => fst (set_extc_price st a j c e x y)
  | BuyXan u cov now => fst (xan_insurance st u cov now)
  | BuyExtc u cov now => fst (extc_insurance st u cov now)
  | Discover g ev now => fst (detect_new_orders_from_torn st g ev now)
  | CheckOrders ev now => fst (perform_order_check st ev now)
  | Activate a uid now => fst (activate_order st a uid now)
  | GiveCover a u k d r now => fst (give_coverage st a u k d r now)
  | Delete a uid n => fst (delete_entry st a uid n)
  | SweepExpired a now => fst (expired_orders_command st a now)
  end.

Definition run (st : Store) (cs : list Command) : Store :=
  fold_left exec cs st.

(** The store at process start. *)
Definition initial_store : Store :=
  mkStore [] [] ∅ [] [].



(** The number of orders of member [m], of either kind. *)
Definition count_user (m : Z) (d : list (OrderId * Order)) : nat :=
  List.length (user_orders m d).

(** [k] is the key of an entry of [V]. *)
Definition key_in (k : OrderId) (V : list (OrderId * Order)) : bool :=
  existsb (fun v => oid_eqb (fst v) k) V.



(** ** Concrete scenarios *)

Definition alice : Member := mkMember 1001 "alice#0001" "Alice".
Definition bob : Member := mkMember 1002 "bob#0002" "Bob".

Definition text_entry (text : string) (t : Z) : RawEntry :=
  Entry (mkLogEntry (VStr "") (VStr text) (TsNum t) []).

(** A feed entry whose ['timestamp'] is JSON [null]. *)
Definition null_timestamp_entry : RawEntry :=
  Entry (mkLogEntry (VStr "") (VStr "maintenance notice") TsInvalid []).

(** The pricing table of the scenario of section 8: XAN
    [{12: cost 1, reward 4}]; and one EXTC tier. *)
Definition priced_store : Store :=
  mkStore [] [] ∅ [(12, mkXanPrice 1 4)] [(1, mkExtcPrice 3 3 4 1)].

Definition xan_payment_1 : Events :=
  EvDict [("e1",
           text_entry "You were sent 1x Xanax from Alice with the message: HJSx"
             99940)].

Definition xan_payment_2 : Events :=
  EvDict [("e1",
           text_entry "You were sent 2x Xanax from Alice with the message: HJSx"
             99940)].

Definition extc_payment_3 : Events :=
  EvDict [("e1",
           text_entry "You were sent 3x Xanax from Alice with the message: HJSe"
             99940)].

(** The store after Alice buys 12 hours of XAN coverage at instant
    200000: one pending order expecting a payment of 1. *)
Definition alice_pending : Store :=
  fst (xan_insurance priced_store alice (Some 12) 200000).

Definition alice_order_id : OrderId := mkOrderId 1001 200000 false.

Definition alice_order : Order :=
  purchase_order alice XAN 200000 12 1 4 None None.

Definition alice_payment_text : string :=
  "You were sent 1x Xanax from Alice with the message: HJSx".

(** Alice's payment seen 23 hours before, 25 hours before and 30
    minutes before her order was recorded. *)
Definition paid_23h_before : Events :=
  EvDict [("p1", text_entry alice_payment_text (200000 - 23 * 3600))].

Definition paid_25h_before : Events :=
  EvDict [("p1", text_entry alice_payment_text (200000 - 25 * 3600))].

Definition paid_30min_before : Events :=
  EvDict [("p1", text_entry alice_payment_text (200000 - 1800))].

(** Alice holds a pending XAN order and Bob a pending EXTC order, both
    recorded at instant 210000. *)
Definition two_pending : Store :=
  fst (extc_insurance
         (fst (xan_insurance priced_store alice (Some 12) 210000))
         bob (Some 1) 210000).

(** A feed with two payments by Alice, 6500 and 3000 seconds before
    her order, followed by an entry whose timestamp is [null]. *)
Definition feed_with_null_timestamp : Events :=
  EvList [text_entry alice_payment_text 203500;
          text_entry alice_payment_text 207000;
          null_timestamp_entry].

Definition alice_extc_payment : RawEntry :=
  text_entry "You were sent 3x Xanax from Alice with the message: HJSe" 99940.

(** Alice's EXTC payment alone, and behind an entry whose timestamp is
    [null]. *)
Definition extc_alone : Events := EvList [alice_extc_payment].

Definition extc_after_null : Events :=
  EvList [null_timestamp_entry; alice_extc_payment].




(** ** The older pass over the pending orders (process_pending_orders) *)

(** One iteration of the inner loop of [process_pending_orders] (lines
    695-770): the same tests as [check_event], without the relevance
    pre-filter. *)
Definition check_event_pp (od : Order) (lookback_limit : Z) (e : LogEntry)
  : Exc (option Z) :=
  let log_text := entry_text e in
  let log_text_lower := PyStr.lower log_text in
  match fromtimestamp (entry_timestamp e) with
  | Raise => Raise
  | Ok log_time =>
      if Z.ltb log_time lookback_limit then Ok None
      else
        let has_xanax := PyStr.contains "xanax" log_text_lower in
        let has_message_code :=
          PyStr.contains (PyStr.lower (message_code (coverage_type od)))
            log_text_lower in
        if has_xanax && has_message_code && has_transfer log_text_lower then
          let amount_found :=
            payment_amount_found log_text (expected_payment od) in
          let name_found := name_match_found od log_text_lower in
          match timestamp od with
          | None => Raise
          | Some order_time =>
              let time_difference := Z.abs (log_time - order_time) in
              let time_valid := Z.leb time_difference 3600 in
              if time_valid && amount_found && name_found
              then Ok (Some log_time)
              else Ok None
          end
        else Ok None
  end.

Fixpoint scan_order_pp (od : Order) (lookback_limit : Z)
  (items : list (string * RawEntry)) : Exc (option Order) :=
  match items with
  | [] => Ok None
  | (_, NotADict) :: rest => scan_order_pp od lookback_limit rest
  | (_, Entry e) :: rest =>
      match check_event_pp od lookback_limit e with
      | Raise => Raise
      | Ok (Some log_time) => Ok (Some (record_payment od log_time))
      | Ok None => scan_order_pp od lookback_limit rest
      end
  end.

(** The loop over [list(pending_order.items())]: the pending dictionary
    with the in-place updates made so far, and [verified_orders] or
    the exception that ended the loop. *)
Fixpoint check_orders_pp (lookback_limit : Z)
  (items : list (string * RawEntry)) (pending : list (OrderId * Order))
  : list (OrderId * Order) * Exc (list (OrderId * Order)) :=
  match pending with
  | [] => ([], Ok [])
  | (order_id, order_data) :: rest =>
      match scan_order_pp order_data lookback_limit items with
      | Raise => (pending, Raise)
      | Ok found =>
          let '(rest', r) := check_orders_pp lookback_limit items rest in
          match found with
          | Some order_data' =>
              ((order_id, order_data') :: rest',
               match r with
               | Ok verified => Ok ((order_id, order_data') :: verified)
               | Raise => Raise
               end)
          | None => ((order_id, order_data) :: rest', r)
          end
      end
  end.

Definition set_activated_at (od : Order) (activated : Z) : Order :=
  mkOrder (user_id od) (username od) (display_name od) (coverage_type od)
    (hours od) (jumps od) (xanax_payment od) (xanax_reward od)
    (edvds_reward od) (ecstasy_reward od) (timestamp od)
    (payment_received_at od) (status od) (Some activated) (expires_at od)
    (auto_detected od) (torn_sender_name od) (start_time od).

(** One iteration of its activation loop: no expiry time is set. *)
Definition activate_verified_pp (now : Z) (st : Store)
  (order : OrderId * Order) : Store :=
  let '(order_id, order_data) := order in
  let st :=
    with_active st
      (dict_set oid_eqb order_id (set_activated_at order_data now)
         (active_orders st)) in
  if dict_mem oid_eqb order_id (pending_order st)
  then with_pending st (dict_del oid_eqb order_id (pending_order st))
  else st.

(** [process_pending_orders]: the whole body is inside a
    [try ... except Exception], and [verified_count] is returned. *)
Definition process_pending_orders (st : Store) (events : Events) (now : Z)
  : Store * nat :=
  if events_falsy events then (st, 0%nat)
  else
    let lookback_limit := now - 24 * 3600 in
    let '(pending', r) :=
      check_orders_pp lookback_limit (log_items events) (pending_order st) in
    let st := with_pending st pending' in
    match r with
    | Raise => (st, 0%nat)
    | Ok verified_orders =>
        (fold_left (activate_verified_pp now) verified_orders st,
         List.length verified_orders)
    end.

(** ** Views of the active set *)

(** [/active] (lines 2214-2254): the entries of [active_list], before
    the display keeps the first ten. *)
Definition listed_active (now : Z) (od : Order) : bool :=
  match expires_at od, activated_at od with
  | Some expires, Some _ => Z.ltb now expires
  | _, _ => false
  end.

Definition active_orders_command (st : Store) (is_admin : bool) (now : Z)
  : option (list (OrderId * Order)) :=
  if negb is_admin then None
  else Some (List.filter (fun kv => listed_active now (snd kv))
               (active_orders st)).

(** What [/check] shows for an active order: kind, expiry, activation. *)
Record ActiveView : Type := mkActiveView {
  view_type : CoverageKind;
  view_expires_at : Z;
  view_activated_at : Z
}.

(** What [/check] shows for a pending order. *)
Record PendingView : Type := mkPendingView {
  pview_type : CoverageKind;
  pview_ordered_at : Z;
  pview_payment_required : Z;
  pview_message_code : string
}.

(** The loop of [/check] over the active orders of the member (lines
    2393-2431); [strptime] of a missing ['activated_at'] raises. *)
Fixpoint check_active (uid : Z) (now : Z) (d : list (OrderId * Order))
  : Exc (list ActiveView) :=
  match d with
  | [] => Ok []
  | (_, order_data) :: rest =>
      if Z.eqb (user_id order_data) uid then
        let expiry :=
          match expires_at order_data with
          | Some expires => Ok expires
          | None =>
              match activated_at order_data with
              | Some activation => Ok (activation + coverage_seconds order_data)
              | None => Raise
              end
          end in
        match expiry with
        | Raise => Raise
        | Ok expiry_time =>
            if Z.ltb now expiry_time then
              match activated_at order_data with
              | None => Raise
              | Some activation =>
                  match check_active uid now rest with
                  | Raise => Raise
                  | Ok views =>
                      Ok (mkActiveView (coverage_type order_data) expiry_time
                            activation :: views)
                  end
              end
            else check_active uid now rest
        end
      else check_active uid now rest
  end.

(** The loop of [/check] over the pending orders (lines 2434-2444). *)
Fixpoint check_pending (uid : Z) (d : list (OrderId * Order))
  : Exc (list PendingView) :=
  match d with
  | [] => Ok []
  | (_, order_data) :: rest =>
      if Z.eqb (user_id order_data) uid then
        match timestamp order_data with
        | None => Raise
        | Some order_time =>
            match check_pending uid rest with
            | Raise => Raise
            | Ok views =>
                Ok (mkPendingView (coverage_type order_data) order_time
                      (expected_payment order_data)
                      (message_code (coverage_type order_data)) :: views)
            end
        end
      else check_pending uid rest
  end.

(** [/check] *)
Definition check_insurance (st : Store) (uid : Z) (now : Z)
  : Exc (list ActiveView * list PendingView) :=
  match check_active uid now (active_orders st) with
  | Raise => Raise
  | Ok user_active_orders =>
      match check_pending uid (pending_order st) with
      | Raise => Raise
      | Ok user_pending_orders => Ok (user_active_orders, user_pending_orders)
      end
  end.

(** ** Overdose reports (report_overdose, finalize_overdose) *)

Inductive ReportStatus : Type := RepPending | RepFinalized.

(** The quantities the text ['payout_details'] names. *)
Inductive Payout : Type :=
| XanPayout (xanax : Z)
| ExtcPayout (edvds xanax ecstasy : Z).

(** An entry of [overdose_reports]; its key has the format of an order
    key, [f"{user.id}_{report_time.timestamp()}"]. *)
Record Report : Type := mkReport {
  report_user_id : Z;
  report_username : string;
  report_order_id : OrderId;
  report_order_data : Order;
  report_coverage_type : CoverageKind;
  payout_details : Payout;
  reported_at : Z;
  report_status : ReportStatus;
  finalized_by : option string;
  finalized_at : option Z
}.

Inductive OdReply : Type :=
| OdAdminOnly
| NoActiveCoverage
| MultipleActiveOrders
| ReportAlreadyPending
| ReportSubmitted (report_id : OrderId)
| NoPendingReports
| MultiplePendingReports
| PayoutFinalized (report_id : OrderId)
| ReportsListed
| InvalidReportNumber
| ReportDeleted (report_id : OrderId).

Definition is_pending_report (uid : Z) (r : Report) : bool :=
  Z.eqb (report_user_id r) uid
  && match report_status r with RepPending => true | RepFinalized => false end.

(** The pending reports of a member, in dictionary order. *)
Definition user_reports (uid : Z) (reports : list (OrderId * Report))
  : list (OrderId * Report) :=
  List.filter (fun kv => is_pending_report uid (snd kv)) reports.

Definition payout_of (od : Order) : Payout :=
  match coverage_type od with
  | XAN => XanPayout (xanax_reward od)
  | EXTC =>
      ExtcPayout
        (match edvds_reward od with Some x => x | None => 0 end)
        (xanax_reward od)
        (match ecstasy_reward od with Some x => x | None => 0 end)
  end.

(** [/od] (lines 2506-2557) *)
Definition report_overdose (st : Store) (reports : list (OrderId * Report))
  (user : Member) (now : Z) : list (OrderId * Report) * OdReply :=
  match user_orders (member_id user) (active_orders st) with
  | [] => (reports, NoActiveCoverage)
  | _ :: _ :: _ => (reports, MultipleActiveOrders)
  | [(order_id, order_data)] =>
      match user_reports (member_id user) reports with
      | _ :: _ => (reports, ReportAlreadyPending)
      | [] =>
          let report_time := now in
          let report_id := mkOrderId (member_id user) report_time false in
          (dict_set oid_eqb report_id
             {| report_user_id := member_id user;
                report_username := member_name user;
                report_order_id := order_id;
                report_order_data := order_data;
                report_coverage_type := coverage_type order_data;
                payout_details := payout_of order_data;
                reported_at := report_time;
                report_status := RepPending;
                finalized_by := None;
                finalized_at := None |}
             reports,
           ReportSubmitted report_id)
      end
  end.

Definition finalize (r : Report) (admin : string) (now : Z) : Report :=
  mkReport (report_user_id r) (report_username r) (report_order_id r)
    (report_order_data r) (report_coverage_type r) (payout_details r)
    (reported_at r) RepFinalized (Some admin) (Some now).

(** [/odfin] (lines 2596-2637).  The third component is the amount
    handed to [db.record_payout], when that call is made. *)
Definition finalize_overdose (reports : list (OrderId * Report))
  (is_admin : bool) (admin : string) (uid : Z) (now : Z)
  : list (OrderId * Report) * OdReply * option Z :=
  if negb is_admin then (reports, OdAdminOnly, None)
  else
    match user_reports uid reports with
    | [] => (reports, NoPendingReports, None)
    | _ :: _ :: _ => (reports, MultiplePendingReports, None)
    | [(report_id, report_data)] =>
        let xanax_amount := xanax_reward (report_order_data report_data) in
        (dict_set oid_eqb report_id (finalize report_data admin now) reports,
         PayoutFinalized report_id,
         if Z.ltb 0 xanax_amount then Some xanax_amount else None)
    end.

(** [/del] with type "od" *)
Definition delete_report (reports : list (OrderId * Report)) (allowed : bool)
  (uid : Z) (order_number : option Z) : list (OrderId * Report) * OdReply :=
  if negb allowed then (reports, OdAdminOnly)
  else
    let pending := user_reports uid reports in
    match pending with
    | [] => (reports, NoPendingReports)
    | _ :: _ =>
        match order_number with
        | None => (reports, ReportsListed)
        | Some n =>
            if Z.ltb n 1 || Z.ltb (Z.of_nat (List.length pending)) n
            then (reports, InvalidReportNumber)
            else
              match nth_error pending (Z.to_nat (n - 1)) with
              | Some (report_id, _) =>
                  (dict_del oid_eqb report_id reports, ReportDeleted report_id)
              | None => (reports, InvalidReportNumber)
              end
        end
    end.

(** The operations on [overdose_reports]. *)
Inductive OdCommand : Type :=
| ReportOd (st : Store) (user : Member) (now : Z)
| FinalizeOd (is_admin : bool) (admin : string) (uid : Z) (now : Z)
| DeleteOd (allowed : bool) (uid : Z) (order_number : option Z).

Definition exec_od (reports : list (OrderId * Report)) (c : OdCommand)
  : list (OrderId * Report) :=
  match c with
  | ReportOd st user now => fst (report_overdose st reports user now)
  | FinalizeOd a admin uid now =>
      fst (fst (finalize_overdose reports a admin uid now))
  | DeleteOd a uid n => fst (delete_report reports a uid n)
  end.

Definition count_pending_reports (uid : Z) (reports : list (OrderId * Report))
  : nat :=
  List.length (user_reports uid reports).

(** ** Control of the scheduler (auto_check_command) *)

Inductive AutoAction : Type := AutoStart | AutoStop | AutoStatus.

Inductive AutoReply : Type :=
| AutoAdminOnly
| AutoNoApiKey
| AutoBadInterval
| AutoStarted
| AutoStopped
| AutoStatusShown.

(** [/autocheck] (lines 2972-3055) *)
Definition auto_check_command (sch : Scheduler) (is_admin : bool)
  (api_key : option string) (action : AutoAction) (interval : Z) (now : Z)
  : Scheduler * AutoReply :=
  if negb is_admin then (sch, AutoAdminOnly)
  else
    match action with
    | AutoStart =>
        if key_missing api_key then (sch, AutoNoApiKey)
        else if Z.ltb interval 1 || Z.ltb 60 interval
        then (sch, AutoBadInterval)
        else (mkScheduler true interval now, AutoStarted)
    | AutoStop =>
        (mkScheduler false (auto_check_interval sch) (last_check_time sch),
         AutoStopped)
    | AutoStatus => (sch, AutoStatusShown)
    end.

(** ** Predicates used in the statements about Discovery *)

(** The key of an order names the member the order belongs to. *)
Definition keys_name_owner (d : list (OrderId * Order)) : Prop :=
  Forall (fun kv => oid_user (fst kv) = user_id (snd kv)) d.

(** [s2] has been reached from [s1] by discoveries: no processed event
    is forgotten, a member with an order still has one, and the
    pricing table is the same. *)
Definition store_extends (s1 s2 : Store) : Prop :=
  processed_events s1 ⊆ processed_events s2
  /\ (forall m, has_order m (pending_order s1) = true ->
                has_order m (pending_order s2) = true)
  /\ (forall m, has_order m (active_orders s1) = true ->
                has_order m (active_orders s2) = true)
  /\ pricing_xan s2 = pricing_xan s1
  /\ pricing_extc s2 = pricing_extc s1.

(** An order as New-Order Discovery creates it from a tier of the
    EXTC pricing table. *)
Definition discovered_from (pricing : list (Z * ExtcPrice)) (k : OrderId)
  (od : Order) : Prop :=
  coverage_type od = EXTC
  /\ auto_detected od = true
  /\ oid_auto k = true
  /\ oid_user k = user_id od
  /\ status od = None
  /\ payment_received_at od = timestamp od
  /\ exists j p,
      In (j, p) pricing
      /\ jumps od = Some j
      /\ xanax_payment od = Some (extc_cost p)
      /\ xanax_reward od = extc_xanax p.

(** ** Well-formed stores and feeds *)

Definition xan_tier_positive (tier : Z * XanPrice) : Prop :=
  1 <= fst tier /\ 1 <= xan_cost (snd tier) /\ 1 <= xan_reward (snd tier).

Definition extc_tier_positive (tier : Z * ExtcPrice) : Prop :=
  1 <= fst tier /\ 1 <= extc_cost (snd tier) /\ 1 <= extc_edvds (snd tier)
  /\ 1 <= extc_xanax (snd tier) /\ 1 <= extc_ecstasy (snd tier).

Definition prices_positive (st : Store) : Prop :=
  Forall xan_tier_positive (pricing_xan st)
  /\ Forall extc_tier_positive (pricing_extc st).

(** A pending order as the code creates it: its key names its member,
    it carries a creation time and expects a payment of at least 1. *)
Definition pending_wf (kv : OrderId * Order) : Prop :=
  oid_user (fst kv) = user_id (snd kv)
  /\ timestamp (snd kv) <> None
  /\ exists p, xanax_payment (snd kv) = Some p /\ 1 <= p.

Definition store_wf (st : Store) : Prop :=
  prices_positive st
  /\ Forall pending_wf (pending_order st)
  /\ keys_name_owner (active_orders st).


(** The store after the Matching Engine has activated Alice's order. *)
Definition alice_active : Store :=
  fst (perform_order_check alice_pending paid_30min_before 200100).

(** The reports after Alice reported an overdose at instant 201000. *)
Definition alice_reported : list (OrderId * Report) :=
  fst (report_overdose alice_active [] alice 201000).

(** ** Histories of the scheduler *)

(** What happens to the scheduler: an [/autocheck] command, or a firing
    of the one-minute timer. *)
Inductive SchedEvent : Type :=
| Control (is_admin : bool) (api_key : option string) (action : AutoAction)
    (interval : Z) (now : Z)
| Tick (guild : option (list Member)) (api_key : option string)
    (fetch_discovery fetch_matching : Events) (now : Z).

Definition sched_step (s : Scheduler * Store) (ev : SchedEvent)
  : Scheduler * Store :=
  match ev with
  | Control a key act i now =>
      (fst (auto_check_command (fst s) a key act i now), snd s)
  | Tick guild key fd fm now =>
      fst (auto_check_orders (fst s) (snd s) guild key fd fm now)
  end.

Definition sched_run (s : Scheduler * Store) (evs : list SchedEvent)
  : Scheduler * Store :=
  fold_left sched_step evs s.

(** The scheduler at process start (lines 48-50): disabled, five
    minutes, [last_check_time] the instant the module was loaded. *)
Definition initial_scheduler (started : Z) : Scheduler :=
  mkScheduler false 5 started.

(** The scheduler of the scenarios: started at instant 200000 with an
    interval of five minutes. *)
Definition started_scheduler : Scheduler :=
  fst (auto_check_command (initial_scheduler 199000) true (Some "key")
         AutoStart 5 200000).

(** * Verification *)

(** ** Text lemmas *)








(** ** C6: amount extraction *)



(** ** C1: discovery of a XAN payment *)

(** C1.  The XAN payment of one unit passes every predicate of the
    discovery path (tagged transfer, a sender resolving to a member
    without any order, an amount equal to the cost of the 12-hour
    tier), and yet the pass stores no pending order, does not mark the
    event processed and counts no new order: for kind XAN
    [materialize] never changes the store.  A payment of 2 units
    matches no tier and produces nothing; the same payment under the
    EXTC tag does produce one pending order and marks the event. *)
Theorem xan_payment_discovery :
  let text := "You were sent 1x Xanax from Alice with the message: HJSx" in
  is_tagged_transfer XAN (PyStr.lower text) = true
  /\ sender_name_of text = Ok (Some "Alice")
  /\ find_member [alice; bob] "Alice" = Some alice
  /\ has_order (member_id alice) (pending_order priced_store) = false
  /\ has_order (member_id alice) (active_orders priced_store) = false
  /\ payment_amount text = 1
  /\ List.find (fun p => Z.eqb (xan_cost (snd p)) 1) (pricing_xan priced_store)
     = Some (12, mkXanPrice 1 4)
  /\ detect_new_orders_from_torn priced_store [alice; bob] xan_payment_1 100000
     = (priced_store, 0%nat)
  /\ detect_new_orders_from_torn priced_store [alice; bob] xan_payment_2 100000
     = (priced_store, 0%nat)
  /\ (forall st event_id m log_time amount now sender,
        materialize st event_id m XAN log_time amount now sender
        = (st, 0%nat))
  /\ (let '(st, n) :=
        detect_new_orders_from_torn priced_store [alice; bob] extc_payment_3
          100000 in
      n = 1%nat
      /\ map (fun kv => (jumps (snd kv), xanax_payment (snd kv)))
           (pending_order st) = [(Some 1, Some 3)]
      /\ bool_decide ("e1" ∈ processed_events st) = true).
Proof.
  repeat split; try (vm_compute; reflexivity).
  intros st event_id m log_time amount now sender.
  unfold materialize.
  destruct (List.find _ (pricing_xan st)) as [[hours price_info]|];
    reflexivity.
Qed.

(** ** Dictionaries *)

Lemma oid_eqb_eq (a b : OrderId) : oid_eqb a b = true <-> a = b.
Proof.
  unfold oid_eqb. destruct a as [u t x], b as [u' t' x']; simpl.
  rewrite !andb_true_iff, !Z.eqb_eq, Bool.eqb_true_iff.
  split.
  - intros [[-> ->] ->]. reflexivity.
  - intros H. inversion H. auto.
Qed.

Lemma oid_eqb_refl (a : OrderId) : oid_eqb a a = true.
Proof. apply oid_eqb_eq. reflexivity. Qed.

Lemma oid_eqb_neq (a b : OrderId) : oid_eqb a b = false <-> a <> b.
Proof.
  rewrite <- oid_eqb_eq. destruct (oid_eqb a b); split; congruence.
Qed.

Lemma dict_get_set (k k' : OrderId) (v : Order) (d : list (OrderId * Order)) :
  dict_get oid_eqb k (dict_set oid_eqb k' v d) =
  if oid_eqb k k' then Some v else dict_get oid_eqb k d.
Proof.
  induction d as [|[k0 v0] d IH]; simpl.
  - reflexivity.
  - destruct (oid_eqb k' k0) eqn:E0; simpl.
    + apply oid_eqb_eq in E0. subst k0.
      destruct (oid_eqb k k'); reflexivity.
    + destruct (oid_eqb k k0) eqn:E1.
      * apply oid_eqb_eq in E1. subst k0.
        destruct (oid_eqb k k') eqn:E2; [|reflexivity].
        apply oid_eqb_eq in E2. subst k'. rewrite oid_eqb_refl in E0.
        discriminate.
      * exact IH.
Qed.

Lemma dict_del_not_mem (k : OrderId) (d : list (OrderId * Order)) :
  dict_mem oid_eqb k d = false -> dict_del oid_eqb k d = d.
Proof.
  unfold dict_mem, dict_del.
  induction d as [|[k0 v0] d IH]; simpl; intros H; [reflexivity|].
  apply orb_false_iff in H as [H0 H1]. rewrite H0. simpl.
  f_equal. apply IH, H1.
Qed.

Lemma dict_get_del (k k' : OrderId) (d : list (OrderId * Order)) :
  dict_get oid_eqb k (dict_del oid_eqb k' d) =
  if oid_eqb k' k then None else dict_get oid_eqb k d.
Proof.
  unfold dict_del.
  induction d as [|[k0 v0] d IH]; simpl.
  - destruct (oid_eqb k' k); reflexivity.
  - destruct (oid_eqb k' k0) eqn:E0; simpl.
    + rewrite IH. apply oid_eqb_eq in E0. subst k0.
      destruct (oid_eqb k' k) eqn:E1; [reflexivity|].
      destruct (oid_eqb k k') eqn:E2; [|reflexivity].
      apply oid_eqb_eq in E2. subst k'. rewrite oid_eqb_refl in E1.
      discriminate.
    + destruct (oid_eqb k k0) eqn:E1.
      * apply oid_eqb_eq in E1. subst k0. rewrite E0. reflexivity.
      * exact IH.
Qed.

Lemma with_pending_id (st : Store) : with_pending st (pending_order st) = st.
Proof. destruct st; reflexivity. Qed.

(** ** The inner loop of the Matching Engine *)

Lemma check_event_some (od : Order) (lb : Z) (e : LogEntry) (t : Z) :
  check_event od lb e = Ok (Some t) ->
  fromtimestamp (entry_timestamp e) = Ok t
  /\ lb <= t
  /\ exists ot,
      timestamp od = Some ot
      /\ Z.abs (t - ot) <= 3600
      /\ is_tagged_transfer (coverage_type od) (PyStr.lower (entry_text e))
         = true
      /\ payment_amount_found (entry_text e) (expected_payment od) = true
      /\ name_match_found od (PyStr.lower (entry_text e)) = true.
Proof.
  unfold check_event. cbv zeta.
  destruct (fromtimestamp (entry_timestamp e)) as [t0|]; [|discriminate].
  destruct (Z.ltb t0 lb) eqn:Hlb; [discriminate|].
  destruct (negb _); [discriminate|].
  destruct (is_tagged_transfer _ _) eqn:Htag; [|discriminate].
  destruct (timestamp od) as [ot|]; [|discriminate].
  destruct (Z.leb (Z.abs (t0 - ot)) 3600) eqn:Hw; simpl; [|discriminate].
  destruct (payment_amount_found _ _) eqn:Ha; simpl; [|discriminate].
  destruct (name_match_found _ _) eqn:Hn; simpl; [|discriminate].
  intros H. inversion H. subst t0.
  apply Z.ltb_ge in Hlb. apply Z.leb_le in Hw.
  split; [reflexivity|]. split; [exact Hlb|].
  exists ot. auto.
Qed.



Lemma scan_order_some (od od' : Order) (lb : Z)
  (items : list (string * RawEntry)) :
  scan_order od lb items = Ok (Some od') ->
  exists id e t,
    In (id, Entry e) items
    /\ check_event od lb e = Ok (Some t)
    /\ od' = record_payment od t.
Proof.
  induction items as [|[id [|e]] items IH]; simpl; intros H.
  - discriminate.
  - destruct (IH H) as (id' & e' & t & Hin & Hc & Hr).
    exists id', e', t. auto.
  - destruct (check_event od lb e) as [[t|]|] eqn:Hc.
    + inversion H. exists id, e, t. auto.
    + destruct (IH H) as (id' & e' & t & Hin & Hc' & Hr).
      exists id', e', t. auto.
    + discriminate.
Qed.


(** ** C3: the time window of the Matching Engine *)




(** ** The outer loop and the activation loop *)

Lemma check_orders_cons_ok (lb : Z) (items : list (string * RawEntry))
  (k : OrderId) (od : Order) (rest P' V : list (OrderId * Order)) (n : nat) :
  check_orders lb items ((k, od) :: rest) = (P', Ok (V, n)) ->
  exists rest' V' n',
    check_orders lb items rest = (rest', Ok (V', n'))
    /\ ((exists od', scan_order od lb items = Ok (Some od')
                     /\ P' = (k, od') :: rest'
                     /\ V = (k, od') :: V' /\ n = n')
        \/ (scan_order od lb items = Ok None
            /\ P' = (k, od) :: rest' /\ V = V' /\ n = S n')).
Proof.
  cbn [check_orders].
  destruct (scan_order od lb items) as [found|]; [|discriminate].
  destruct (check_orders lb items rest) as [rest' r].
  destruct found as [od'|]; destruct r as [[V' n']|]; intros H;
    try discriminate H; injection H as <- <- <-;
    exists rest', V', n'; (split; [reflexivity|]).
  - left. exists od'. auto.
  - right. auto.
Qed.

Lemma check_orders_keys (lb : Z) (items : list (string * RawEntry))
  (P : list (OrderId * Order)) :
  forall P' r, check_orders lb items P = (P', r) -> map fst P' = map fst P.
Proof.
  induction P as [|[k od] rest IH]; intros P' r H.
  - inversion H. reflexivity.
  - cbn [check_orders] in H.
    destruct (scan_order od lb items) as [found|].
    + destruct (check_orders lb items rest) as [rest' r'] eqn:E.
      specialize (IH _ _ eq_refl).
      destruct found; inversion H; subst; simpl; f_equal; exact IH.
    + inversion H. reflexivity.
Qed.

Lemma check_orders_verified_in (lb : Z) (items : list (string * RawEntry))
  (P : list (OrderId * Order)) :
  forall P' V n k od od',
    check_orders lb items P = (P', Ok (V, n)) ->
    In (k, od) P ->
    scan_order od lb items = Ok (Some od') ->
    In (k, od') V.
Proof.
  induction P as [|[k0 od0] rest IH]; intros P' V n k od od' H Hin Hs.
  - destruct Hin.
  - apply check_orders_cons_ok in H
      as (rest' & V' & n' & Hrest & [(od1 & Hs1 & -> & -> & ->)
                                    | (Hs1 & -> & -> & ->)]).
    + destruct Hin as [Heq|Hin].
      * inversion Heq; subst. left. congruence.
      * right. eapply IH; eassumption.
    + destruct Hin as [Heq|Hin].
      * inversion Heq; subst. congruence.
      * eapply IH; eassumption.
Qed.

Lemma check_orders_verified_keys (lb : Z) (items : list (string * RawEntry))
  (P : list (OrderId * Order)) :
  forall P' V n,
    check_orders lb items P = (P', Ok (V, n)) ->
    sublist (map fst V) (map fst P).
Proof.
  induction P as [|[k0 od0] rest IH]; intros P' V n H.
  - inversion H. constructor.
  - apply check_orders_cons_ok in H
      as (rest' & V' & n' & Hrest & [(od1 & Hs1 & -> & -> & ->)
                                    | (Hs1 & -> & -> & ->)]);
      simpl; specialize (IH _ _ _ Hrest).
    + apply sublist_skip, IH.
    + apply sublist_cons, IH.
Qed.

(** After a pass that returns, an entry of the scanned dictionary is
    either verified or was left as it was, unmatched. *)
Lemma check_orders_rest (lb : Z) (items : list (string * RawEntry))
  (P : list (OrderId * Order)) :
  forall P' V n,
    check_orders lb items P = (P', Ok (V, n)) ->
    Forall (fun kv => In kv V \/ scan_order (snd kv) lb items = Ok None) P'.
Proof.
  induction P as [|[k0 od0] rest IH]; intros P' V n H.
  - inversion H. constructor.
  - apply check_orders_cons_ok in H
      as (rest' & V' & n' & Hrest & [(od1 & Hs1 & -> & -> & ->)
                                    | (Hs1 & -> & -> & ->)]);
      specialize (IH _ _ _ Hrest); constructor.
    + left. left. reflexivity.
    + eapply Forall_impl; [exact IH|].
      intros kv [Hv|Hn]; [left; right; exact Hv | right; exact Hn].
    + right. exact Hs1.
    + exact IH.
Qed.

Lemma check_orders_unmatched (lb : Z) (items : list (string * RawEntry))
  (R : list (OrderId * Order)) :
  Forall (fun kv => scan_order (snd kv) lb items = Ok None) R ->
  check_orders lb items R = (R, Ok ([], List.length R)).
Proof.
  induction R as [|[k od] R IH]; intros H.
  - reflexivity.
  - inversion H as [|? ? Hhd Htl]; subst. simpl in Hhd.
    cbn [check_orders]. rewrite Hhd, (IH Htl). reflexivity.
Qed.


Lemma activate_verified_pending (now : Z) (st : Store) (k : OrderId)
  (od : Order) :
  pending_order (activate_verified now st (k, od))
  = dict_del oid_eqb k (pending_order st).
Proof.
  unfold activate_verified. cbn [with_active pending_order].
  destruct (dict_mem oid_eqb k (pending_order st)) eqn:E.
  - reflexivity.
  - cbn [pending_order]. symmetry. apply dict_del_not_mem, E.
Qed.

Lemma activate_verified_active (now : Z) (st : Store) (k : OrderId)
  (od : Order) :
  active_orders (activate_verified now st (k, od))
  = dict_set oid_eqb k
      (set_activation od now (now + coverage_seconds od) (status od))
      (active_orders st).
Proof.
  unfold activate_verified. cbn [with_active pending_order].
  destruct (dict_mem oid_eqb k (pending_order st)); reflexivity.
Qed.

Lemma fold_activate_pending (now : Z) (V : list (OrderId * Order)) :
  forall st,
    pending_order (fold_left (activate_verified now) V st)
    = List.filter (fun kv => negb (key_in (fst kv) V)) (pending_order st).
Proof.
  induction V as [|[k od] V IH]; intros st.
  - simpl. induction (pending_order st) as [|x l IHl]; simpl;
      [reflexivity | f_equal; exact IHl].
  - cbn [fold_left]. rewrite IH, activate_verified_pending.
    unfold dict_del. generalize (pending_order st) as l.
    induction l as [|[k1 od1] l IHl]; [reflexivity|].
    cbn [List.filter key_in existsb fst].
    destruct (oid_eqb k k1) eqn:E; cbn [negb orb].
    + exact IHl.
    + cbn [List.filter fst]. fold (key_in k1 V).
      destruct (negb (key_in k1 V)); [f_equal|]; exact IHl.
Qed.

Lemma fold_activate_active_other (now : Z) (k : OrderId)
  (V : list (OrderId * Order)) :
  forall st,
    key_in k V = false ->
    dict_get oid_eqb k (active_orders (fold_left (activate_verified now) V st))
    = dict_get oid_eqb k (active_orders st).
Proof.
  induction V as [|[k0 od0] V IH]; intros st H.
  - reflexivity.
  - cbn [key_in existsb fst] in H. apply orb_false_iff in H as [H0 H1].
    cbn [fold_left]. rewrite (IH _ H1), activate_verified_active.
    rewrite dict_get_set.
    destruct (oid_eqb k k0) eqn:E; [|reflexivity].
    apply oid_eqb_eq in E. subst k0. rewrite oid_eqb_refl in H0.
    discriminate.
Qed.

Lemma key_in_false (k : OrderId) (V : list (OrderId * Order)) :
  ~ In k (map fst V) -> key_in k V = false.
Proof.
  induction V as [|[k0 od0] V IH]; intros H; [reflexivity|].
  cbn [key_in existsb fst]. apply orb_false_iff. split.
  - apply oid_eqb_neq. intros ->. apply H. left. reflexivity.
  - apply IH. intros Hin. apply H. right. exact Hin.
Qed.

Lemma key_in_true (k : OrderId) (od : Order) (V : list (OrderId * Order)) :
  In (k, od) V -> key_in k V = true.
Proof.
  induction V as [|[k0 od0] V IH]; intros H; [destruct H|].
  cbn [key_in existsb fst]. destruct H as [H|H].
  - inversion H. rewrite oid_eqb_refl. reflexivity.
  - fold (key_in k V). rewrite (IH H). apply orb_true_r.
Qed.

Lemma fold_activate_active (now : Z) (k : OrderId) (od : Order)
  (V : list (OrderId * Order)) :
  forall st,
    NoDup (map fst V) ->
    In (k, od) V ->
    dict_get oid_eqb k (active_orders (fold_left (activate_verified now) V st))
    = Some (set_activation od now (now + coverage_seconds od) (status od)).
Proof.
  induction V as [|[k0 od0] V IH]; intros st Hnd Hin; [destruct Hin|].
  inversion Hnd as [|? ? Hnotin Hnd']; subst.
  rewrite list_elem_of_In in Hnotin.
  cbn [fold_left]. destruct Hin as [Heq|Hin].
  - inversion Heq; subst.
    rewrite fold_activate_active_other by (apply key_in_false, Hnotin).
    rewrite activate_verified_active, dict_get_set, oid_eqb_refl.
    reflexivity.
  - apply IH; assumption.
Qed.

Lemma dict_get_filter_none (k : OrderId) (f : OrderId * Order -> bool)
  (d : list (OrderId * Order)) :
  (forall od, f (k, od) = false) ->
  dict_get oid_eqb k (List.filter f d) = None.
Proof.
  intros Hf. induction d as [|[k0 od0] d IH]; [reflexivity|].
  cbn [List.filter]. destruct (f (k0, od0)) eqn:E; [|exact IH].
  cbn [dict_get]. destruct (oid_eqb k k0) eqn:E1; [|exact IH].
  apply oid_eqb_eq in E1. subst k0. rewrite Hf in E. discriminate.
Qed.

(** The three ways the Matching Engine ends. *)
Lemma perform_order_check_cases (st : Store) (events : Events) (now : Z) :
  (perform_order_check st events now = (st, Ok (0%nat, 0%nat))
   /\ (pending_order st = [] \/ events = EvNone))
  \/ (pending_order st <> [] /\ events <> EvNone
      /\ exists P',
          check_orders (now - 24 * 3600) (log_items events) (pending_order st)
          = (P', Raise)
          /\ perform_order_check st events now = (with_pending st P', Raise))
  \/ (pending_order st <> [] /\ events <> EvNone
      /\ exists P' V n,
          check_orders (now - 24 * 3600) (log_items events) (pending_order st)
          = (P', Ok (V, n))
          /\ perform_order_check st events now
             = (fold_left (activate_verified now) V (with_pending st P'),
                Ok (n, List.length V))).
Proof.
  unfold perform_order_check.
  destruct (pending_order st) as [|p ps] eqn:Hp; [left; auto|].
  destruct events as [|items|entries|b]; [left; auto| | |].
  all: right.
  all: match goal with
       | |- context [check_orders ?lb ?it ?P] =>
           destruct (check_orders lb it P) as [P' [[V n]|]] eqn:E
       end.
  all: first [ right; split; [discriminate|]; split; [discriminate|];
               exists P', V, n; split; reflexivity
             | left; split; [discriminate|]; split; [discriminate|];
               exists P'; split; reflexivity ].
Qed.

(** ** C7: what a match writes into the order *)

(** C7.  When the inner loop of the Matching Engine verifies an order
    against an event of the feed, the order's [payment_received_at]
    becomes the event's timestamp, and its creation timestamp becomes
    the event's timestamp when the event is earlier and is left as it
    was otherwise.  After a pass that returns, the order is in the
    active set with exactly these values and no longer pending. *)
Theorem match_records_payment_time :
  (forall od lb items od',
     scan_order od lb items = Ok (Some od') ->
     exists id e t ot,
       In (id, Entry e) items
       /\ fromtimestamp (entry_timestamp e) = Ok t
       /\ check_event od lb e = Ok (Some t)
       /\ timestamp od = Some ot
       /\ payment_received_at od' = Some t
       /\ timestamp od' = Some (if Z.ltb t ot then t else ot)
       /\ od' = record_payment od t)
  /\ (forall st events now st' res k od od',
        NoDup (map fst (pending_order st)) ->
        perform_order_check st events now = (st', Ok res) ->
        In (k, od) (pending_order st) ->
        scan_order od (now - 24 * 3600) (log_items events) = Ok (Some od') ->
        dict_get oid_eqb k (active_orders st')
        = Some (set_activation od' now (now + coverage_seconds od')
                  (status od'))
        /\ dict_get oid_eqb k (pending_order st') = None).
Proof.
  split.
  - intros od lb items od' H.
    destruct (scan_order_some _ _ _ _ H) as (id & e & t & Hin & Hc & ->).
    destruct (check_event_some _ _ _ _ Hc) as (Ht & _ & ot & Hot & _).
    exists id, e, t, ot. repeat split; auto.
    unfold record_payment. cbn [timestamp]. rewrite Hot.
    destruct (Z.ltb t ot); reflexivity.
  - intros st events now st' res k od od' Hnd H Hin Hs.
    destruct (perform_order_check_cases st events now)
      as [[_ [Hp|He]] | [(_ & _ & P' & _ & Hr) | (_ & _ & P' & V & n & Hc & Hr)]].
    + rewrite Hp in Hin. destruct Hin.
    + subst events. discriminate Hs.
    + rewrite Hr in H. discriminate H.
    + rewrite Hr in H. injection H as <- <-.
      pose proof (check_orders_verified_in _ _ _ _ _ _ _ _ _ Hc Hin Hs) as HV.
      split.
      * apply fold_activate_active; [|exact HV].
        pose proof (check_orders_verified_keys _ _ _ _ _ _ Hc) as Hsub.
        eapply sublist_NoDup; eassumption.
      * rewrite fold_activate_pending.
        apply dict_get_filter_none. intros od0. cbn [fst].
        rewrite (key_in_true _ _ _ HV). reflexivity.
Qed.

Lemma match_records_payment_time_witness :
  (exists id e t ot,
     In (id, Entry e) (log_items paid_30min_before)
     /\ fromtimestamp (entry_timestamp e) = Ok t
     /\ check_event alice_order 113700 e = Ok (Some t)
     /\ timestamp alice_order = Some ot
     /\ payment_received_at (record_payment alice_order 198200) = Some t
     /\ timestamp (record_payment alice_order 198200)
        = Some (if Z.ltb t ot then t else ot)
     /\ record_payment alice_order 198200 = record_payment alice_order t)
  /\ dict_get oid_eqb alice_order_id
       (active_orders
          (fst (perform_order_check alice_pending paid_30min_before 200100)))
     = Some (set_activation (record_payment alice_order 198200) 200100
               (200100 + coverage_seconds (record_payment alice_order 198200))
               (status (record_payment alice_order 198200)))
  /\ dict_get oid_eqb alice_order_id
       (pending_order
          (fst (perform_order_check alice_pending paid_30min_before 200100)))
     = None.
Proof.
  split.
  - apply (proj1 match_records_payment_time alice_order 113700
             (log_items paid_30min_before)).
    vm_compute. reflexivity.
  - apply (proj2 match_records_payment_time alice_pending paid_30min_before
             200100 _ (0%nat, 1%nat) alice_order_id alice_order).
    + apply NoDup_singleton.
    + vm_compute. reflexivity.
    + vm_compute. left. reflexivity.
    + vm_compute. reflexivity.
Defined.

(** ** C5: running the Matching Engine twice *)

Lemma perform_order_check_unmatched (st : Store) (events : Events) (now : Z) :
  Forall
    (fun kv => scan_order (snd kv) (now - 24 * 3600) (log_items events)
               = Ok None)
    (pending_order st) ->
  exists n, perform_order_check st events now = (st, Ok (n, 0%nat)).
Proof.
  intros H. unfold perform_order_check.
  destruct (pending_order st) as [|p ps] eqn:Hp; [exists 0%nat; reflexivity|].
  destruct events as [|items|entries|b]; [exists 0%nat; reflexivity| | |].
  all: rewrite (check_orders_unmatched _ _ _ H).
  all: rewrite <- Hp, with_pending_id.
  all: eexists; reflexivity.
Qed.

(** C5 (as amended).  When a run of the Matching Engine returns its
    counts, a second run against the same feed at the same reference
    time returns too, activates nothing and leaves the store, hence
    the pending and the active sets, exactly as the first run left
    it. *)
Theorem second_run_changes_nothing :
  forall st events now st1 res,
    perform_order_check st events now = (st1, Ok res) ->
    exists still,
      perform_order_check st1 events now = (st1, Ok (still, 0%nat)).
Proof.
  intros st events now st1 res H.
  destruct (perform_order_check_cases st events now)
    as [[Hr _] | [(_ & _ & P' & _ & Hr) | (_ & _ & P' & V & n & Hc & Hr)]].
  - rewrite Hr in H. injection H as <- _. exists 0%nat. exact Hr.
  - rewrite Hr in H. discriminate H.
  - rewrite Hr in H. injection H as <- _.
    apply perform_order_check_unmatched.
    rewrite fold_activate_pending. cbn [with_pending pending_order].
    pose proof (check_orders_rest _ _ _ _ _ _ Hc) as Hrest.
    clear Hc Hr.
    induction Hrest as [|[k od] l Hx _ IH]; [constructor|].
    cbn [List.filter fst].
    destruct (key_in k V) eqn:Hk; cbn [negb]; [exact IH|].
    constructor; [|exact IH].
    destruct Hx as [Hin|Hn]; [|exact Hn].
    rewrite (key_in_true _ _ _ Hin) in Hk. discriminate.
Qed.

Lemma second_run_changes_nothing_witness :
  exists still,
    perform_order_check
      (fst (perform_order_check alice_pending paid_30min_before 200100))
      paid_30min_before 200100
    = (fst (perform_order_check alice_pending paid_30min_before 200100),
       Ok (still, 0%nat)).
Proof.
  apply (second_run_changes_nothing alice_pending paid_30min_before 200100
           _ (0%nat, 1%nat)).
  vm_compute. reflexivity.
Defined.

(** The first run verifies Alice's order against the payment 3000
    seconds before it, moves the order time back to that payment and
    is then ended by the exception the [null] timestamp raises while
    Bob's order is scanned; Alice's order stays pending.  The second
    run, same feed and same time, verifies it against the earlier
    payment, now within the hour, and rewrites both instants. *)
Lemma aborted_run_not_idempotent :
  let run1 := perform_order_check two_pending feed_with_null_timestamp 210100 in
  let run2 := perform_order_check (fst run1) feed_with_null_timestamp 210100 in
  snd run1 = Raise
  /\ map (fun kv => (payment_received_at (snd kv), timestamp (snd kv)))
       (pending_order (fst run1))
     = [(Some 207000, Some 207000); (None, Some 210000)]
  /\ map (fun kv => (payment_received_at (snd kv), timestamp (snd kv)))
       (pending_order (fst run2))
     = [(Some 203500, Some 203500); (None, Some 210000)]
  /\ pending_order (fst run2) <> pending_order (fst run1).
Proof.
  cbv zeta. split; [vm_compute; reflexivity|].
  split; [vm_compute; reflexivity|].
  split; [vm_compute; reflexivity|].
  intros H.
  apply (f_equal (map (fun kv => payment_received_at (snd kv)))) in H.
  vm_compute in H. discriminate H.
Qed.

(** ** C4: exceptions during a pass *)

Lemma detect_loop_raise (guild : list Member) (now lb : Z)
  (items1 items2 : list (string * RawEntry)) (id : string) (entry : RawEntry) :
  forall st c st1 n1,
    detect_loop guild now lb items1 st c = (st1, n1, Ok tt) ->
    detect_event guild now lb st1 id entry = Raise ->
    detect_loop guild now lb (items1 ++ (id, entry) :: items2) st c
    = (st1, n1, Raise).
Proof.
  induction items1 as [|[id0 e0] items1 IH]; intros st c st1 n1 H Hr.
  - injection H as <- <-. cbn [app detect_loop]. rewrite Hr. reflexivity.
  - cbn [app detect_loop] in *.
    destruct (detect_event guild now lb st id0 e0) as [[st' n]|];
      [|discriminate H].
    apply IH; assumption.
Qed.

Lemma check_orders_raise (lb : Z) (items : list (string * RawEntry))
  (P : list (OrderId * Order)) (k : OrderId) (od : Order) :
  In (k, od) P ->
  scan_order od lb items = Raise ->
  snd (check_orders lb items P) = Raise.
Proof.
  induction P as [|[k0 od0] rest IH]; intros Hin Hs; [destruct Hin|].
  cbn [check_orders].
  destruct (scan_order od0 lb items) as [found|] eqn:E; [|reflexivity].
  destruct Hin as [Heq|Hin]; [inversion Heq; subst; congruence|].
  specialize (IH Hin Hs).
  destruct (check_orders lb items rest) as [rest' r]. cbn [snd] in IH.
  subst r. destruct found; reflexivity.
Qed.

(** C4 (as amended).  In New-Order Discovery an exception raised by
    the iteration for one feed entry is caught once, around the whole
    loop: the pass keeps the effects of the entries before it, does
    not process the entries after it, and still returns its count of
    new orders.  The Matching Engine has no handler: an exception
    raised while an order is scanned ends the pass without counts,
    with no order activated or removed; the scheduler tick then
    reports an error. *)
Theorem exceptions_end_the_pass :
  (forall guild now st items1 id entry items2 st1 n1,
     detect_loop guild now (now - 3600) items1 st 0%nat = (st1, n1, Ok tt) ->
     detect_event guild now (now - 3600) st1 id entry = Raise ->
     detect_new_orders_from_torn st guild
       (EvDict (items1 ++ (id, entry) :: items2)) now
     = (st1, n1))
  /\ (forall st events now k od,
        events <> EvNone ->
        In (k, od) (pending_order st) ->
        scan_order od (now - 24 * 3600) (log_items events) = Raise ->
        snd (perform_order_check st events now) = Raise)
  /\ (forall st events now st',
        perform_order_check st events now = (st', Raise) ->
        active_orders st' = active_orders st
        /\ map fst (pending_order st') = map fst (pending_order st))
  /\ (forall sch st members key fd fm now st1 n st2,
        auto_check_enabled sch = true ->
        auto_check_interval sch * 60 <= now - last_check_time sch ->
        key_missing key = false ->
        detect_new_orders_from_torn st members fd now = (st1, n) ->
        perform_order_check st1 fm now = (st2, Raise) ->
        auto_check_orders sch st (Some members) key fd fm now
        = (mkScheduler true (auto_check_interval sch) now, st2,
           [CallDiscovery; CallMatching; ErrorNotice])).
Proof.
  split; [|split; [|split]].
  - intros guild now st items1 id entry items2 st1 n1 H Hr.
    unfold detect_new_orders_from_torn.
    assert (Hf : events_falsy (EvDict (items1 ++ (id, entry) :: items2))
                 = false) by (destruct items1; reflexivity).
    rewrite Hf. cbn [log_items].
    rewrite (detect_loop_raise _ _ _ _ items2 _ _ _ _ _ _ H Hr).
    reflexivity.
  - intros st events now k od Hev Hin Hs.
    destruct (perform_order_check_cases st events now)
      as [[_ [Hp|He]] | [(_ & _ & P' & _ & Hr)
                        | (_ & _ & P' & V & n & Hc & _)]].
    + rewrite Hp in Hin. destruct Hin.
    + contradiction.
    + rewrite Hr. reflexivity.
    + pose proof (check_orders_raise _ _ _ _ _ Hin Hs) as Hx.
      rewrite Hc in Hx. discriminate Hx.
  - intros st events now st' H.
    destruct (perform_order_check_cases st events now)
      as [[Hr _] | [(_ & _ & P' & Hc & Hr) | (_ & _ & P' & V & n & _ & Hr)]].
    + rewrite Hr in H. discriminate H.
    + rewrite Hr in H. injection H as <-. split; [reflexivity|].
      cbn [with_pending pending_order].
      eapply check_orders_keys; exact Hc.
    + rewrite Hr in H. discriminate H.
  - intros sch st members key fd fm now st1 n st2 Hen Hint Hkey Hd Hm.
    unfold auto_check_orders. rewrite Hen, Hkey. cbn [negb].
    replace (Z.ltb (now - last_check_time sch) (auto_check_interval sch * 60))
      with false by (symmetry; apply Z.ltb_ge; exact Hint).
    rewrite Hd, Hm. reflexivity.
Qed.

(** With the [null]-timestamp entry in front, Alice's EXTC payment is
    not discovered although the same pass discovers it when the entry
    is absent; and the Matching Engine returns no counts. *)
Lemma exception_aborts_pass :
  detect_new_orders_from_torn priced_store [alice; bob] extc_after_null 100000
  = (priced_store, 0%nat)
  /\ snd (detect_new_orders_from_torn priced_store [alice; bob] extc_alone
            100000) = 1%nat
  /\ snd (perform_order_check two_pending feed_with_null_timestamp 210100)
     = Raise.
Proof. vm_compute. repeat split; reflexivity. Qed.

Lemma exceptions_end_the_pass_witness :
  detect_new_orders_from_torn priced_store [alice; bob]
    (EvDict ([] ++ ("0", null_timestamp_entry) :: [("1", alice_extc_payment)]))
    100000
  = (priced_store, 0%nat)
  /\ snd (perform_order_check two_pending feed_with_null_timestamp 210100)
     = Raise
  /\ (active_orders
        (fst (perform_order_check two_pending feed_with_null_timestamp 210100))
      = active_orders two_pending
      /\ map fst
           (pending_order
              (fst (perform_order_check two_pending feed_with_null_timestamp
                      210100)))
         = map fst (pending_order two_pending))
  /\ auto_check_orders (mkScheduler true 5 209000) two_pending
       (Some [alice; bob]) (Some "0123456789abcdef")
       feed_with_null_timestamp feed_with_null_timestamp 210100
     = (mkScheduler true 5 210100,
        fst (perform_order_check two_pending feed_with_null_timestamp 210100),
        [CallDiscovery; CallMatching; ErrorNotice]).
Proof.
  split; [|split; [|split]].
  - apply (proj1 exceptions_end_the_pass [alice; bob] 100000 priced_store
             [] "0" null_timestamp_entry [("1", alice_extc_payment)]
             priced_store 0%nat); reflexivity.
  - apply (proj1 (proj2 exceptions_end_the_pass) two_pending
             feed_with_null_timestamp 210100
             (mkOrderId 1002 210000 false)
             (purchase_order bob EXTC 210000 1 3 4 (Some 3) (Some 1))).
    + discriminate.
    + vm_compute. right. left. reflexivity.
    + vm_compute. reflexivity.
  - apply (proj1 (proj2 (proj2 exceptions_end_the_pass)) two_pending
             feed_with_null_timestamp 210100).
    vm_compute. reflexivity.
  - apply (proj2 (proj2 (proj2 exceptions_end_the_pass))
             (mkScheduler true 5 209000) two_pending [alice; bob]
             (Some "0123456789abcdef") feed_with_null_timestamp
             feed_with_null_timestamp 210100 two_pending 0%nat).
    + reflexivity.
    + vm_compute. discriminate.
    + reflexivity.
    + vm_compute. reflexivity.
    + vm_compute. reflexivity.
Defined.

(** ** C8: the order of the two passes in a scheduler tick *)

(** C8 (as amended).  On every effective tick (checking enabled, the
    interval elapsed, the bot in a guild, a credential present) the
    scheduler records the new last-run time, invokes New-Order
    Discovery first and the Matching Engine second, the latter on the
    store the former produced, and then reports the counts or the
    error. *)
Theorem tick_runs_discovery_then_matching :
  forall sch st members key fd fm now,
    auto_check_enabled sch = true ->
    auto_check_interval sch * 60 <= now - last_check_time sch ->
    key_missing key = false ->
    exists st1 n st2 r,
      detect_new_orders_from_torn st members fd now = (st1, n)
      /\ perform_order_check st1 fm now = (st2, r)
      /\ auto_check_orders sch st (Some members) key fd fm now
         = (mkScheduler true (auto_check_interval sch) now, st2,
            [CallDiscovery; CallMatching;
             match r with
             | Ok (still_pending, verified) =>
                 ResultsNotice n verified still_pending
             | Raise => ErrorNotice
             end]).
Proof.
  intros sch st members key fd fm now Hen Hint Hkey.
  destruct (detect_new_orders_from_torn st members fd now) as [st1 n] eqn:Hd.
  destruct (perform_order_check st1 fm now) as [st2 r] eqn:Hm.
  exists st1, n, st2, r. split; [reflexivity|]. split; [exact Hm|].
  unfold auto_check_orders. rewrite Hen, Hkey. cbn [negb].
  replace (Z.ltb (now - last_check_time sch) (auto_check_interval sch * 60))
    with false by (symmetry; apply Z.ltb_ge; exact Hint).
  rewrite Hd, Hm. destruct r as [[p v]|]; reflexivity.
Qed.

Lemma tick_runs_discovery_then_matching_witness :
  exists st1 n st2 r,
    detect_new_orders_from_torn priced_store [alice; bob] extc_alone 100000
    = (st1, n)
    /\ perform_order_check st1 extc_alone 100000 = (st2, r)
    /\ auto_check_orders (mkScheduler true 5 99000) priced_store
         (Some [alice; bob]) (Some "0123456789abcdef") extc_alone extc_alone
         100000
       = (mkScheduler true 5 100000, st2,
          [CallDiscovery; CallMatching;
           match r with
           | Ok (still_pending, verified) =>
               ResultsNotice n verified still_pending
           | Raise => ErrorNotice
           end]).
Proof.
  apply (tick_runs_discovery_then_matching (mkScheduler true 5 99000)
           priced_store [alice; bob] (Some "0123456789abcdef") extc_alone
           extc_alone 100000).
  - reflexivity.
  - vm_compute. discriminate.
  - reflexivity.
Defined.

(** An effective tick over Alice's EXTC payment: Discovery is invoked
    first, so the order it creates is verified and activated by the
    Matching Engine within the same tick.  With the Matching Engine
    first the same tick would leave the order pending. *)
Lemma tick_is_not_matching_first :
  let code :=
    auto_check_orders (mkScheduler true 5 99000) priced_store
      (Some [alice; bob]) (Some "0123456789abcdef") extc_alone extc_alone
      100000 in
  let words :=
    tick_matching_first (mkScheduler true 5 99000) priced_store
      (Some [alice; bob]) (Some "0123456789abcdef") extc_alone extc_alone
      100000 in
  snd code = [CallDiscovery; CallMatching; ResultsNotice 1 1 0]
  /\ List.length (pending_order (snd (fst code))) = 0%nat
  /\ List.length (active_orders (snd (fst code))) = 1%nat
  /\ snd words = [CallMatching; CallDiscovery; ResultsNotice 1 0 0]
  /\ List.length (pending_order (snd (fst words))) = 1%nat
  /\ List.length (active_orders (snd (fst words))) = 0%nat
  /\ code <> words.
Proof.
  cbv zeta. repeat split; try (vm_compute; reflexivity).
  intros H. apply (f_equal snd) in H. vm_compute in H. discriminate H.
Qed.

(** ** C9: the guard of the purchase commands *)

Lemma has_order_intro (uid : Z) (d : list (OrderId * Order)) (k : OrderId)
  (od : Order) :
  In (k, od) d -> user_id od = uid -> has_order uid d = true.
Proof.
  intros Hin Hu. unfold has_order. apply existsb_exists.
  exists (k, od). split; [exact Hin|]. cbn [snd]. apply Z.eqb_eq, Hu.
Qed.

(** C9.  A purchase attempt ([/xan] or [/extc]) by a member who holds
    any pending order or any order in the active set, of either
    coverage kind, is refused, and the store (pending set, active set,
    processed events and pricing table) is left exactly as it was. *)
Theorem purchase_refused_when_order_held :
  forall st user coverage now k od,
    In (k, od) (pending_order st) \/ In (k, od) (active_orders st) ->
    user_id od = member_id user ->
    (exists r, xan_insurance st user coverage now = (st, Ok r)
               /\ is_refusal r = true)
    /\ (exists r, extc_insurance st user coverage now = (st, Ok r)
                  /\ is_refusal r = true).
Proof.
  intros st user coverage now k od Hin Hu.
  assert (H : has_order (member_id user) (pending_order st) = true
              \/ has_order (member_id user) (active_orders st) = true).
  { destruct Hin as [Hin|Hin]; [left|right];
      eapply has_order_intro; eassumption. }
  split.
  - unfold xan_insurance.
    destruct (pricing_xan st); [eexists; split; reflexivity|].
    destruct (has_order (member_id user) (pending_order st));
      [eexists; split; reflexivity|].
    destruct H as [H|H]; [discriminate H|]. rewrite H.
    eexists; split; reflexivity.
  - unfold extc_insurance.
    destruct (pricing_extc st); [eexists; split; reflexivity|].
    destruct (has_order (member_id user) (pending_order st));
      [eexists; split; reflexivity|].
    destruct H as [H|H]; [discriminate H|]. rewrite H.
    eexists; split; reflexivity.
Qed.

Lemma purchase_refused_when_order_held_witness :
  (exists r, xan_insurance alice_pending alice (Some 12) 200500
             = (alice_pending, Ok r) /\ is_refusal r = true)
  /\ (exists r, extc_insurance alice_pending alice (Some 12) 200500
                = (alice_pending, Ok r) /\ is_refusal r = true).
Proof.
  apply (purchase_refused_when_order_held alice_pending alice (Some 12)
           200500 alice_order_id alice_order).
  - left. vm_compute. left. reflexivity.
  - reflexivity.
Defined.

(** ** C10: manual activation *)



(** ** C2: at most one order per member *)


Lemma count_user_cons (m : Z) (k : OrderId) (od : Order)
  (d : list (OrderId * Order)) :
  count_user m ((k, od) :: d)
  = ((if Z.eqb (user_id od) m then 1 else 0) + count_user m d)%nat.
Proof.
  unfold count_user, user_orders. cbn [List.filter snd].
  destruct (Z.eqb (user_id od) m); reflexivity.
Qed.


Lemma count_user_del_le (m : Z) (k : OrderId) (d : list (OrderId * Order)) :
  (count_user m (dict_del oid_eqb k d) <= count_user m d)%nat.
Proof.
  unfold dict_del.
  induction d as [|[k0 v0] d IH]; [reflexivity|].
  cbn [List.filter fst].
  destruct (negb (oid_eqb k k0)); rewrite !count_user_cons; lia.
Qed.

Lemma count_user_del_in (k : OrderId) (od : Order)
  (d : list (OrderId * Order)) :
  In (k, od) d ->
  (count_user (user_id od) (dict_del oid_eqb k d) + 1
   <= count_user (user_id od) d)%nat.
Proof.
  unfold dict_del.
  induction d as [|[k0 v0] d IH]; intros Hin; [destruct Hin|].
  cbn [List.filter fst]. destruct Hin as [Heq|Hin].
  - inversion Heq; subst. rewrite oid_eqb_refl. cbn [negb].
    rewrite count_user_cons, Z.eqb_refl.
    pose proof (count_user_del_le (user_id od) k d) as Hle.
    unfold dict_del in Hle. lia.
  - specialize (IH Hin).
    destruct (negb (oid_eqb k k0)); rewrite !count_user_cons; lia.
Qed.


Lemma keys_dict_set (k : OrderId) (v : Order) (d : list (OrderId * Order)) :
  map fst (dict_set oid_eqb k v d)
  = if dict_mem oid_eqb k d then map fst d else map fst d ++ [k].
Proof.
  unfold dict_mem.
  induction d as [|[k0 v0] d IH]; [reflexivity|].
  cbn [dict_set existsb fst]. destruct (oid_eqb k k0) eqn:E; cbn [orb].
  - apply oid_eqb_eq in E. subst k0. reflexivity.
  - cbn [map fst]. rewrite IH.
    destruct (existsb _ d); reflexivity.
Qed.












Lemma check_orders_verified_sub (lb : Z) (items : list (string * RawEntry))
  (P : list (OrderId * Order)) :
  forall P' V n,
    check_orders lb items P = (P', Ok (V, n)) ->
    forall kv, In kv V -> In kv P'.
Proof.
  induction P as [|[k0 od0] rest IH]; intros P' V n H kv Hin.
  - inversion H; subst. destruct Hin.
  - apply check_orders_cons_ok in H
      as (rest' & V' & n' & Hrest & [(od1 & Hs1 & -> & -> & ->)
                                    | (Hs1 & -> & -> & ->)]).
    + destruct Hin as [<-|Hin]; [left; reflexivity|].
      right. eapply IH; eassumption.
    + right. eapply IH; eassumption.
Qed.













(** * Further properties of the code *)

(** ** New-Order Discovery: what a pass can change *)

Lemma in_dict_set (k k' : OrderId) (v v' : Order)
  (d : list (OrderId * Order)) :
  In (k, v) (dict_set oid_eqb k' v' d) -> (k, v) = (k', v') \/ In (k, v) d.
Proof.
  induction d as [|[k0 v0] d IH]; cbn [dict_set]; intros H.
  - destruct H as [H|[]]. left. symmetry. exact H.
  - destruct (oid_eqb k' k0).
    + destruct H as [H|H]; [left; symmetry; exact H | right; right; exact H].
    + destruct H as [H|H]; [right; left; exact H|].
      destruct (IH H) as [E|E]; [left; exact E | right; right; exact E].
Qed.

Lemma materialize_frame (st : Store) (event_id : string) (m : Member)
  (kind : CoverageKind) (log_time amount now : Z) (sender : string) :
  let st' := fst (materialize st event_id m kind log_time amount now sender) in
  active_orders st' = active_orders st
  /\ pricing_xan st' = pricing_xan st
  /\ pricing_extc st' = pricing_extc st
  /\ processed_events st ⊆ processed_events st'
  /\ forall k od,
      In (k, od) (pending_order st') ->
      In (k, od) (pending_order st)
      \/ discovered_from (pricing_extc st) k od.
Proof.
  unfold materialize. destruct kind.
  - destruct (List.find _ (pricing_xan st)) as [[h p]|]; cbn [fst];
      repeat split; auto.
  - destruct (List.find _ (pricing_extc st)) as [[j p]|] eqn:E; cbn [fst];
      [|repeat split; auto].
    cbn [active_orders pricing_xan pricing_extc processed_events pending_order].
    split; [reflexivity|]. split; [reflexivity|]. split; [reflexivity|].
    split; [set_solver|].
    intros k od Hin. apply in_dict_set in Hin as [Heq|Hin]; [|left; exact Hin].
    right. injection Heq as -> ->.
    apply find_some in E as [Hin Hcost]. cbn [snd] in Hcost.
    apply Z.eqb_eq in Hcost.
    unfold discovered_from. cbn.
    repeat split; try reflexivity.
    exists j, p. rewrite Hcost. repeat split; auto.
Qed.

Lemma detect_event_frame (guild : list Member) (now lb : Z) (st st' : Store)
  (log_id : string) (entry : RawEntry) (n : nat) :
  detect_event guild now lb st log_id entry = Ok (st', n) ->
  active_orders st' = active_orders st
  /\ pricing_xan st' = pricing_xan st
  /\ pricing_extc st' = pricing_extc st
  /\ processed_events st ⊆ processed_events st'
  /\ forall k od,
      In (k, od) (pending_order st') ->
      In (k, od) (pending_order st)
      \/ discovered_from (pricing_extc st) k od.
Proof.
  intros H. unfold detect_event in H.
  repeat match type of H with
         | (if ?b then _ else _) = _ => destruct b eqn:?
         | match ?x with _ => _ end = _ => destruct x eqn:?
         end;
    try discriminate H;
    try (injection H as <- <-; repeat split; auto).
  all: match type of H with
       | Ok (materialize ?s ?i ?m ?k ?t ?a ?w ?nm) = _ =>
           pose proof (materialize_frame s i m k t a w nm) as Hm
       end.
  all: injection H as H; rewrite H in Hm; exact Hm.
Qed.

(** X1.  A Discovery pass leaves the active set and both pricing
    tables as they are and never removes an identifier from the set of
    processed events; every pending order it adds is an auto-detected
    EXTC order whose key names its member, whose payment is the cost
    of a configured EXTC tier with that tier's count, and whose
    creation time is the payment time. *)
Theorem discovery_frame :
  forall st guild events now st' n,
    detect_new_orders_from_torn st guild events now = (st', n) ->
    active_orders st' = active_orders st
    /\ pricing_xan st' = pricing_xan st
    /\ pricing_extc st' = pricing_extc st
    /\ processed_events st ⊆ processed_events st'
    /\ forall k od,
        In (k, od) (pending_order st') ->
        In (k, od) (pending_order st)
        \/ discovered_from (pricing_extc st) k od.
Proof.
  intros st guild events now st' n H.
  unfold detect_new_orders_from_torn in H.
  destruct (events_falsy events).
  { injection H as <- <-. repeat split; auto. }
  remember (log_items events) as items eqn:Hi. clear Hi.
  remember 0%nat as c eqn:Hc. clear Hc.
  revert st c H.
  induction items as [|[id e] items IH]; intros st c H.
  - cbn in H. injection H as <- <-. repeat split; auto.
  - cbn [detect_loop] in H.
    destruct (detect_event guild now (now - 3600) st id e) as [[s1 n1]|] eqn:E.
    + destruct (detect_event_frame _ _ _ _ _ _ _ _ E)
        as (Ha & Hx & He & Hp & Hnew).
      destruct (IH _ _ H) as (Ha' & Hx' & He' & Hp' & Hnew').
      rewrite Ha', Hx', He', Ha, Hx, He.
      split; [reflexivity|]. split; [reflexivity|]. split; [reflexivity|].
      split; [transitivity (processed_events s1); assumption|].
      intros k od Hin. destruct (Hnew' k od Hin) as [Hold|Hd].
      * apply Hnew, Hold.
      * right. rewrite <- He. exact Hd.
    + cbn in H. injection H as <- <-. repeat split; auto.
Qed.

Lemma discovery_frame_witness :
  let st' :=
    fst (detect_new_orders_from_torn priced_store [alice; bob] extc_alone
           100000) in
  active_orders st' = active_orders priced_store
  /\ pricing_xan st' = pricing_xan priced_store
  /\ pricing_extc st' = pricing_extc priced_store
  /\ processed_events priced_store ⊆ processed_events st'
  /\ forall k od,
      In (k, od) (pending_order st') ->
      In (k, od) (pending_order priced_store)
      \/ discovered_from (pricing_extc priced_store) k od.
Proof.
  apply (discovery_frame priced_store [alice; bob] extc_alone 100000 _ 1%nat).
  vm_compute. reflexivity.
Defined.

(** ** New-Order Discovery: scanning a feed again *)

Lemma store_extends_refl (st : Store) : store_extends st st.
Proof. repeat split; auto. Qed.

Lemma store_extends_trans (s1 s2 s3 : Store) :
  store_extends s1 s2 -> store_extends s2 s3 -> store_extends s1 s3.
Proof.
  intros (Hp & Hpe & Ha & Hx & He) (Hp' & Hpe' & Ha' & Hx' & He').
  split; [transitivity (processed_events s2); assumption|].
  split; [auto|]. split; [auto|]. split; congruence.
Qed.

Lemma dict_set_fresh (k : OrderId) (v : Order) (d : list (OrderId * Order)) :
  dict_mem oid_eqb k d = false -> dict_set oid_eqb k v d = d ++ [(k, v)].
Proof.
  unfold dict_mem.
  induction d as [|[k0 v0] d IH]; intros H; [reflexivity|].
  cbn [existsb fst] in H. apply orb_false_iff in H as [H0 H1].
  cbn [dict_set]. rewrite H0, (IH H1). reflexivity.
Qed.

Lemma owner_without_order_has_no_key (k : OrderId)
  (d : list (OrderId * Order)) :
  keys_name_owner d ->
  has_order (oid_user k) d = false ->
  dict_mem oid_eqb k d = false.
Proof.
  unfold keys_name_owner, has_order, dict_mem.
  induction d as [|[k0 v0] d IH]; intros Hk Hh; [reflexivity|].
  inversion Hk as [|? ? Hhd Htl]; subst. cbn [fst snd] in Hhd.
  cbn [existsb fst snd] in *. apply orb_false_iff in Hh as [H0 H1].
  rewrite (IH Htl H1), orb_false_r.
  apply oid_eqb_neq. intros ->. rewrite Hhd, Z.eqb_refl in H0. discriminate.
Qed.

Lemma materialize_settles (st : Store) (event_id : string) (m : Member)
  (kind : CoverageKind) (log_time amount now : Z) (sender : string) :
  keys_name_owner (pending_order st) ->
  has_order (member_id m) (pending_order st) = false ->
  let st' := fst (materialize st event_id m kind log_time amount now sender) in
  keys_name_owner (pending_order st')
  /\ store_extends st st'
  /\ forall s2,
      store_extends st' s2 ->
      event_id ∈ processed_events s2
      \/ materialize s2 event_id m kind log_time amount now sender
         = (s2, 0%nat).
Proof.
  intros Hk Hh. unfold materialize. destruct kind.
  - destruct (List.find _ (pricing_xan st)) as [[h p]|] eqn:E; cbn [fst].
    all: split; [exact Hk|]; split; [apply store_extends_refl|].
    all: intros s2 (_ & _ & _ & Hx & _); right; rewrite Hx, E; reflexivity.
  - destruct (List.find _ (pricing_extc st)) as [[j p]|] eqn:E; cbn [fst].
    + assert (Hfresh :
        dict_mem oid_eqb (mkOrderId (member_id m) now true) (pending_order st)
        = false)
        by (apply owner_without_order_has_no_key; [exact Hk|exact Hh]).
      cbn [pending_order]. rewrite (dict_set_fresh _ _ _ Hfresh).
      split.
      { apply Forall_app. split; [exact Hk|].
        constructor; [reflexivity|constructor]. }
      split.
      { unfold store_extends.
        cbn [processed_events pending_order active_orders pricing_xan
             pricing_extc].
        split; [apply union_subseteq_r|].
        split.
        { intros m0 H0. unfold has_order in *. rewrite existsb_app, H0.
          reflexivity. }
        auto. }
      intros s2 (Hp & _). left. apply Hp.
      cbn [processed_events]. apply elem_of_union_l, elem_of_singleton.
      reflexivity.
    + split; [exact Hk|]. split; [apply store_extends_refl|].
      intros s2 (_ & _ & _ & _ & He). right. rewrite He, E. reflexivity.
Qed.

Lemma detect_event_settles (guild : list Member) (now lb : Z)
  (st st' : Store) (log_id : string) (entry : RawEntry) (n : nat) :
  keys_name_owner (pending_order st) ->
  detect_event guild now lb st log_id entry = Ok (st', n) ->
  keys_name_owner (pending_order st')
  /\ store_extends st st'
  /\ forall s2,
      store_extends st' s2 ->
      detect_event guild now lb s2 log_id entry = Ok (s2, 0%nat).
Proof.
  intros Hk. destruct entry as [|e].
  { cbn. intros H. injection H as <- <-.
    split; [exact Hk|]. split; [apply store_extends_refl|]. reflexivity. }
  unfold detect_event. cbv zeta.
  destruct (bool_decide (log_id ∈ processed_events st)) eqn:Hproc.
  { intros H. injection H as <- <-.
    split; [exact Hk|]. split; [apply store_extends_refl|].
    intros s2 (Hp & _). apply bool_decide_eq_true_1 in Hproc.
    rewrite (bool_decide_eq_true_2 _ (Hp _ Hproc)). reflexivity. }
  destruct (fromtimestamp (entry_timestamp e)) as [log_time|];
    [|intros H; discriminate H].
  assert (Hskip :
    Ok (st, 0%nat) = Ok (st', n) ->
    keys_name_owner (pending_order st') /\ store_extends st st'
    /\ forall s2, store_extends st' s2 ->
         (if bool_decide (log_id ∈ processed_events s2)
          then Ok (s2, 0%nat) else Ok (s2, 0%nat)) = Ok (s2, 0%nat)).
  { intros H. injection H as <- <-.
    split; [exact Hk|]. split; [apply store_extends_refl|].
    intros s2 _. destruct (bool_decide (log_id ∈ processed_events s2)); reflexivity. }
  destruct (Z.ltb log_time lb); [exact Hskip|].
  destruct (negb _); [exact Hskip|].
  destruct (sender_name_of (entry_text e)) as [[sender|]|];
    [|exact Hskip|intros H; discriminate H].
  destruct (String.eqb sender ""); [exact Hskip|].
  destruct (find_member guild sender) as [dm|]; [|exact Hskip].
  destruct (has_order (member_id dm) (pending_order st)) eqn:HP.
  { intros H. injection H as <- <-.
    split; [exact Hk|]. split; [apply store_extends_refl|].
    intros s2 (_ & Hpe & _). rewrite (Hpe _ HP).
    destruct (bool_decide (log_id ∈ processed_events s2)); reflexivity. }
  destruct (has_order (member_id dm) (active_orders st)) eqn:HA.
  { intros H. injection H as <- <-.
    split; [exact Hk|]. split; [apply store_extends_refl|].
    intros s2 (_ & _ & Hae & _). rewrite (Hae _ HA).
    destruct (bool_decide (log_id ∈ processed_events s2)); [reflexivity|].
    destruct (has_order _ (pending_order s2)); reflexivity. }
  destruct (Z.eqb (payment_amount (entry_text e)) 0).
  { intros H. injection H as <- <-.
    split; [exact Hk|]. split; [apply store_extends_refl|].
    intros s2 _.
    destruct (bool_decide (log_id ∈ processed_events s2)); [reflexivity|].
    destruct (has_order _ (pending_order s2)); [reflexivity|].
    destruct (has_order _ (active_orders s2)); reflexivity. }
  intros H. injection H as H.
  match type of H with
  | materialize ?s ?i ?m ?k ?t ?a ?w ?nm = _ =>
      pose proof (materialize_settles s i m k t a w nm Hk HP) as Hm
  end.
  cbv zeta in Hm. rewrite H in Hm. cbn [fst] in Hm.
  destruct Hm as (Hk' & Hext & Hs2).
  split; [exact Hk'|]. split; [exact Hext|].
  intros s2 Hext2.
  destruct (bool_decide (log_id ∈ processed_events s2)) eqn:Hproc2;
    [reflexivity|].
  destruct (has_order _ (pending_order s2)); [reflexivity|].
  destruct (has_order _ (active_orders s2)); [reflexivity|].
  destruct (Hs2 s2 Hext2) as [Hin|Heq].
  - rewrite (bool_decide_eq_true_2 _ Hin) in Hproc2. discriminate.
  - rewrite Heq. reflexivity.
Qed.

Lemma detect_loop_settles (guild : list Member) (now lb : Z)
  (items : list (string * RawEntry)) :
  forall st c s1 n r,
    keys_name_owner (pending_order st) ->
    detect_loop guild now lb items st c = (s1, n, r) ->
    keys_name_owner (pending_order s1)
    /\ store_extends st s1
    /\ forall c2,
        match r with
        | Ok _ =>
            forall s2, store_extends s1 s2 ->
              detect_loop guild now lb items s2 c2 = (s2, c2, Ok tt)
        | Raise => detect_loop guild now lb items s1 c2 = (s1, c2, Raise)
        end.
Proof.
  induction items as [|[id e] items IH]; intros st c s1 n r Hk H.
  - cbn in H. injection H as <- <- <-.
    split; [exact Hk|]. split; [apply store_extends_refl|].
    intros c2 s2 _. reflexivity.
  - cbn [detect_loop] in H.
    destruct (detect_event guild now lb st id e) as [[st' n0]|] eqn:E.
    + destruct (detect_event_settles _ _ _ _ _ _ _ _ Hk E)
        as (Hk' & Hext & Hnoop).
      destruct (IH _ _ _ _ _ Hk' H) as (Hk1 & Hext1 & Hrest).
      split; [exact Hk1|].
      split; [eapply store_extends_trans; eassumption|].
      intros c2. specialize (Hrest c2). destruct r as [u|].
      * intros s2 Hext2. cbn [detect_loop].
        rewrite (Hnoop s2 (store_extends_trans _ _ _ Hext1 Hext2)).
        rewrite Nat.add_0_r. apply Hrest, Hext2.
      * cbn [detect_loop]. rewrite (Hnoop s1 Hext1), Nat.add_0_r.
        exact Hrest.
    + injection H as <- <- <-.
      split; [exact Hk|]. split; [apply store_extends_refl|].
      intros c2. cbn [detect_loop]. rewrite E. reflexivity.
Qed.

(** X2.  An entry whose identifier is in the set of processed events
    is never evaluated again.  And when the keys of the pending orders
    name their members, a second Discovery pass over the same feed at
    the same time finds no new order and leaves the store exactly as
    the first pass left it, whether or not an exception ended the
    first pass. *)
Theorem discovery_rescan_adds_nothing :
  (forall guild now lb st log_id entry,
     log_id ∈ processed_events st ->
     detect_event guild now lb st log_id entry = Ok (st, 0%nat))
  /\ (forall st guild events now s1 n1,
        keys_name_owner (pending_order st) ->
        detect_new_orders_from_torn st guild events now = (s1, n1) ->
        detect_new_orders_from_torn s1 guild events now = (s1, 0%nat)).
Proof.
  split.
  - intros guild now lb st log_id entry Hin. unfold detect_event.
    destruct entry as [|e]; [reflexivity|].
    rewrite (bool_decide_eq_true_2 _ Hin). reflexivity.
  - intros st guild events now s1 n1 Hk H.
    unfold detect_new_orders_from_torn in *.
    destruct (events_falsy events); [injection H as <- <-; reflexivity|].
    destruct (detect_loop guild now (now - 3600) (log_items events) st 0%nat)
      as [[s n] r] eqn:E.
    cbn [fst] in H. injection H as -> ->.
    destruct (detect_loop_settles _ _ _ _ _ _ _ _ _ Hk E) as (_ & _ & Hre).
    specialize (Hre 0%nat). destruct r as [u|].
    + rewrite (Hre s1 (store_extends_refl s1)). reflexivity.
    + rewrite Hre. reflexivity.
Qed.

Lemma discovery_rescan_adds_nothing_witness :
  detect_event [alice; bob] 100000 96400
    (fst (detect_new_orders_from_torn priced_store [alice; bob] extc_alone
            100000))
    "0" alice_extc_payment
  = Ok (fst (detect_new_orders_from_torn priced_store [alice; bob] extc_alone
               100000), 0%nat)
  /\ detect_new_orders_from_torn
       (fst (detect_new_orders_from_torn priced_store [alice; bob]
               extc_after_null 100000))
       [alice; bob] extc_after_null 100000
     = (fst (detect_new_orders_from_torn priced_store [alice; bob]
               extc_after_null 100000), 0%nat).
Proof.
  split.
  - apply (proj1 discovery_rescan_adds_nothing).
    match goal with
    | |- ?x ∈ ?X => apply (bool_decide_eq_true_1 (x ∈ X))
    end.
    vm_compute. reflexivity.
  - apply (proj2 discovery_rescan_adds_nothing priced_store [alice; bob]
             extc_after_null 100000 _ 0%nat).
    + constructor.
    + vm_compute. reflexivity.
Defined.

(** ** The Matching Engine: counts, untouched orders, feed order *)

Lemma check_orders_counts (lb : Z) (items : list (string * RawEntry))
  (P : list (OrderId * Order)) :
  forall P' V n,
    check_orders lb items P = (P', Ok (V, n)) ->
    (n + List.length V = List.length P)%nat.
Proof.
  induction P as [|[k0 od0] rest IH]; intros P' V n H.
  - injection H as <- <- <-. reflexivity.
  - apply check_orders_cons_ok in H
      as (rest' & V' & n' & Hrest & [(od1 & Hs1 & -> & -> & ->)
                                    | (Hs1 & -> & -> & ->)]);
      specialize (IH _ _ _ Hrest); cbn [List.length]; lia.
Qed.

Lemma key_in_keys (k : OrderId) (V : list (OrderId * Order)) :
  key_in k V = true -> In k (map fst V).
Proof.
  induction V as [|[k0 v0] V IH]; intros H; [discriminate H|].
  cbn [key_in existsb fst] in H. apply orb_true_iff in H as [H|H].
  - apply oid_eqb_eq in H. left. exact H.
  - right. apply IH, H.
Qed.

Lemma sublist_In (l1 l2 : list OrderId) (k : OrderId) :
  sublist l1 l2 -> In k l1 -> In k l2.
Proof.
  intros Hs Hin. apply list_elem_of_In. apply list_elem_of_In in Hin.
  eapply elem_of_sublist; eassumption.
Qed.

Lemma check_orders_left (lb : Z) (items : list (string * RawEntry))
  (P : list (OrderId * Order)) :
  forall P' V n,
    NoDup (map fst P) ->
    check_orders lb items P = (P', Ok (V, n)) ->
    List.length (List.filter (fun kv => negb (key_in (fst kv) V)) P') = n.
Proof.
  induction P as [|[k0 od0] rest IH]; intros P' V n Hnd H.
  - injection H as <- <- <-. reflexivity.
  - inversion Hnd as [|? ? Hnotin Hnd']; subst.
    rewrite list_elem_of_In in Hnotin.
    apply check_orders_cons_ok in H
      as (rest' & V' & n' & Hrest & [(od1 & Hs1 & -> & -> & ->)
                                    | (Hs1 & -> & -> & ->)]).
    + cbn [List.filter fst key_in existsb]. rewrite oid_eqb_refl. cbn [orb negb].
      rewrite <- (IH _ _ _ Hnd' Hrest). f_equal.
      apply filter_ext_in. intros [k1 od1'] Hin. cbn [fst].
      replace (oid_eqb k0 k1) with false; [reflexivity|].
      symmetry. apply oid_eqb_neq. intros ->. apply Hnotin.
      rewrite <- (check_orders_keys _ _ _ _ _ Hrest).
      apply in_map_iff. exists (k1, od1'). auto.
    + cbn [List.filter fst].
      assert (Hk : key_in k0 V' = false).
      { destruct (key_in k0 V') eqn:E; [|reflexivity].
        exfalso. apply Hnotin.
        eapply sublist_In;
          [eapply check_orders_verified_keys; exact Hrest|].
        apply key_in_keys, E. }
      rewrite Hk. cbn [negb List.length]. f_equal. apply (IH _ _ _ Hnd' Hrest).
Qed.

(** X3.  The two counts a Matching Engine pass returns add up to the
    number of pending orders it scanned, and the first count is the
    number of orders left pending.  When the feed could not be
    fetched the pass reports (0, 0) and changes nothing, however many
    orders are pending; on a feed without entries every order is
    reported still pending. *)
Theorem check_counts :
  (forall st now, perform_order_check st EvNone now = (st, Ok (0%nat, 0%nat)))
  /\ (forall st events now st' n v,
        events <> EvNone ->
        NoDup (map fst (pending_order st)) ->
        perform_order_check st events now = (st', Ok (n, v)) ->
        (n + v = List.length (pending_order st))%nat
        /\ List.length (pending_order st') = n)
  /\ (forall st events now,
        events <> EvNone ->
        log_items events = [] ->
        perform_order_check st events now
        = (st, Ok (List.length (pending_order st), 0%nat))).
Proof.
  split; [|split].
  - intros st now. unfold perform_order_check.
    destruct (pending_order st); reflexivity.
  - intros st events now st' n v Hev Hnd H.
    destruct (perform_order_check_cases st events now)
      as [[Hr [Hp|He]] | [(_ & _ & P' & _ & Hr)
                         | (_ & _ & P' & V & n0 & Hc & Hr)]].
    + rewrite Hr in H. injection H as <- <- <-. rewrite Hp. auto.
    + contradiction.
    + rewrite Hr in H. discriminate H.
    + rewrite Hr in H. injection H as <- <- <-.
      split; [eapply check_orders_counts; exact Hc|].
      rewrite fold_activate_pending. cbn [with_pending pending_order].
      eapply check_orders_left; eassumption.
  - intros st events now Hev Hi.
    assert (H : Forall
                  (fun kv => scan_order (snd kv) (now - 24 * 3600)
                               (log_items events) = Ok None)
                  (pending_order st)).
    { rewrite Hi. apply Forall_forall. intros kv _. reflexivity. }
    unfold perform_order_check.
    destruct (pending_order st) as [|p ps] eqn:Hp; [reflexivity|].
    destruct events as [|items|entries|b]; [contradiction| | |].
    all: rewrite (check_orders_unmatched _ _ _ H).
    all: rewrite <- Hp, with_pending_id; reflexivity.
Qed.

Lemma check_counts_witness :
  ((1 + 0 = List.length (pending_order alice_pending))%nat
   /\ List.length
        (pending_order (fst (perform_order_check alice_pending paid_23h_before
                               200100))) = 1%nat)
  /\ perform_order_check two_pending (EvDict []) 210100
     = (two_pending, Ok (List.length (pending_order two_pending), 0%nat)).
Proof.
  split.
  - apply (proj1 (proj2 check_counts) alice_pending paid_23h_before 200100
             _ 1%nat 0%nat).
    + discriminate.
    + apply NoDup_singleton.
    + vm_compute. reflexivity.
  - apply (proj2 (proj2 check_counts) two_pending (EvDict []) 210100).
    + discriminate.
    + reflexivity.
Defined.

Lemma fold_activate_frame (now : Z) (V : list (OrderId * Order)) :
  forall st,
    let st' := fold_left (activate_verified now) V st in
    processed_events st' = processed_events st
    /\ pricing_xan st' = pricing_xan st
    /\ pricing_extc st' = pricing_extc st.
Proof.
  induction V as [|[k od] V IH]; intros st; [repeat split|].
  cbn [fold_left]. destruct (IH (activate_verified now st (k, od)))
    as (Hp & Hx & He).
  cbv zeta. rewrite Hp, Hx, He. unfold activate_verified.
  cbn [with_active pending_order].
  destruct (dict_mem oid_eqb k (pending_order st)); repeat split.
Qed.

Lemma perform_order_check_frame (st : Store) (events : Events) (now : Z) :
  let st' := fst (perform_order_check st events now) in
  processed_events st' = processed_events st
  /\ pricing_xan st' = pricing_xan st
  /\ pricing_extc st' = pricing_extc st.
Proof.
  destruct (perform_order_check_cases st events now)
    as [[Hr _] | [(_ & _ & P' & _ & Hr) | (_ & _ & P' & V & n & _ & Hr)]];
    rewrite Hr; cbn [fst].
  - repeat split.
  - repeat split.
  - apply (fold_activate_frame now V (with_pending st P')).
Qed.

Lemma check_orders_unmatched_in (lb : Z) (items : list (string * RawEntry))
  (P : list (OrderId * Order)) :
  forall P' V n k od,
    check_orders lb items P = (P', Ok (V, n)) ->
    In (k, od) P ->
    scan_order od lb items = Ok None ->
    In (k, od) P'.
Proof.
  induction P as [|[k0 od0] rest IH]; intros P' V n k od H Hin Hs.
  - destruct Hin.
  - apply check_orders_cons_ok in H
      as (rest' & V' & n' & Hrest & [(od1 & Hs1 & -> & -> & ->)
                                    | (Hs1 & -> & -> & ->)]).
    + destruct Hin as [Heq|Hin].
      * inversion Heq; subst. congruence.
      * right. eapply IH; eassumption.
    + destruct Hin as [Heq|Hin].
      * left. exact Heq.
      * right. eapply IH; eassumption.
Qed.

Lemma check_orders_verified_origin (lb : Z) (items : list (string * RawEntry))
  (P : list (OrderId * Order)) :
  forall P' V n k od',
    check_orders lb items P = (P', Ok (V, n)) ->
    In (k, od') V ->
    exists od, In (k, od) P /\ scan_order od lb items = Ok (Some od').
Proof.
  induction P as [|[k0 od0] rest IH]; intros P' V n k od' H Hin.
  - injection H as <- <- <-. destruct Hin.
  - apply check_orders_cons_ok in H
      as (rest' & V' & n' & Hrest & [(od1 & Hs1 & -> & -> & ->)
                                    | (Hs1 & -> & -> & ->)]).
    + destruct Hin as [Heq|Hin].
      * inversion Heq; subst. exists od0. split; [left; reflexivity|exact Hs1].
      * destruct (IH _ _ _ _ _ Hrest Hin) as (od & Hi & Hs).
        exists od. split; [right; exact Hi|exact Hs].
    + destruct (IH _ _ _ _ _ Hrest Hin) as (od & Hi & Hs).
      exists od. split; [right; exact Hi|exact Hs].
Qed.

Lemma nodup_keys_functional (d : list (OrderId * Order)) (k : OrderId)
  (a b : Order) :
  NoDup (map fst d) -> In (k, a) d -> In (k, b) d -> a = b.
Proof.
  induction d as [|[k0 v0] d IH]; intros Hnd Ha Hb; [destruct Ha|].
  inversion Hnd as [|? ? Hnotin Hnd']; subst.
  rewrite list_elem_of_In in Hnotin.
  destruct Ha as [Ha|Ha], Hb as [Hb|Hb].
  - congruence.
  - inversion Ha; subst. exfalso. apply Hnotin.
    apply in_map_iff. exists (k, b). auto.
  - inversion Hb; subst. exfalso. apply Hnotin.
    apply in_map_iff. exists (k, a). auto.
  - apply IH; assumption.
Qed.

Lemma dict_get_in_nodup (d : list (OrderId * Order)) (k : OrderId)
  (v : Order) :
  NoDup (map fst d) -> In (k, v) d -> dict_get oid_eqb k d = Some v.
Proof.
  induction d as [|[k0 v0] d IH]; intros Hnd Hin; [destruct Hin|].
  inversion Hnd as [|? ? Hnotin Hnd']; subst.
  rewrite list_elem_of_In in Hnotin.
  cbn [dict_get]. destruct Hin as [Heq|Hin].
  - inversion Heq; subst. rewrite oid_eqb_refl. reflexivity.
  - destruct (oid_eqb k k0) eqn:E; [|apply IH; assumption].
    apply oid_eqb_eq in E. subst k0. exfalso. apply Hnotin.
    apply in_map_iff. exists (k, v). auto.
Qed.

Lemma dict_get_in (d : list (OrderId * Order)) (k : OrderId) (v : Order) :
  dict_get oid_eqb k d = Some v -> In (k, v) d.
Proof.
  induction d as [|[k0 v0] d IH]; cbn [dict_get]; intros H; [discriminate H|].
  destruct (oid_eqb k k0) eqn:E.
  - apply oid_eqb_eq in E. subst k0. injection H as ->. left. reflexivity.
  - right. apply IH, H.
Qed.

(** X4.  A Matching Engine pass never touches the set of processed
    events or the pricing tables.  After a pass that returns, an
    order for which no entry of the feed qualifies is still pending,
    unchanged, and the active set holds under its key what it held
    before. *)
Theorem unmatched_orders_stay_pending :
  (forall st events now,
     let st' := fst (perform_order_check st events now) in
     processed_events st' = processed_events st
     /\ pricing_xan st' = pricing_xan st
     /\ pricing_extc st' = pricing_extc st)
  /\ (forall st events now st' res k od,
        NoDup (map fst (pending_order st)) ->
        perform_order_check st events now = (st', Ok res) ->
        In (k, od) (pending_order st) ->
        scan_order od (now - 24 * 3600) (log_items events) = Ok None ->
        dict_get oid_eqb k (pending_order st') = Some od
        /\ dict_get oid_eqb k (active_orders st')
           = dict_get oid_eqb k (active_orders st)).
Proof.
  split; [exact perform_order_check_frame|].
  intros st events now st' res k od Hnd H Hin Hs.
  destruct (perform_order_check_cases st events now)
    as [[Hr _] | [(_ & _ & P' & _ & Hr) | (_ & _ & P' & V & n & Hc & Hr)]].
  - rewrite Hr in H. injection H as <- _.
    split; [apply dict_get_in_nodup; assumption|reflexivity].
  - rewrite Hr in H. discriminate H.
  - rewrite Hr in H. injection H as <- _.
    assert (Hk : key_in k V = false).
    { destruct (key_in k V) eqn:E; [|reflexivity]. exfalso.
      apply key_in_keys, in_map_iff in E as ([k1 od1] & Hfst & Hin1).
      cbn [fst] in Hfst. subst k1.
      destruct (check_orders_verified_origin _ _ _ _ _ _ _ _ Hc Hin1)
        as (od0 & Hin0 & Hs0).
      rewrite (nodup_keys_functional _ _ _ _ Hnd Hin Hin0) in Hs.
      congruence. }
    split.
    + apply dict_get_in_nodup.
      * rewrite fold_activate_pending. cbn [with_pending pending_order].
        apply (sublist_NoDup _ (map fst P'));
          [rewrite (check_orders_keys _ _ _ _ _ Hc); exact Hnd|].
        clear. induction P' as [|[k1 v1] P' IH]; [constructor|].
        cbn [List.filter fst]. destruct (negb (key_in k1 V)); cbn [map fst].
        -- apply sublist_skip, IH.
        -- apply sublist_cons, IH.
      * rewrite fold_activate_pending. cbn [with_pending pending_order].
        apply filter_In. split.
        -- eapply check_orders_unmatched_in; eassumption.
        -- cbn [fst]. rewrite Hk. reflexivity.
    + rewrite fold_activate_active_other by exact Hk. reflexivity.
Qed.

Lemma unmatched_orders_stay_pending_witness :
  dict_get oid_eqb alice_order_id
    (pending_order (fst (perform_order_check alice_pending paid_23h_before
                           200100)))
  = Some alice_order
  /\ dict_get oid_eqb alice_order_id
       (active_orders (fst (perform_order_check alice_pending paid_23h_before
                              200100)))
     = dict_get oid_eqb alice_order_id (active_orders alice_pending).
Proof.
  apply (proj2 unmatched_orders_stay_pending alice_pending paid_23h_before
           200100 _ (1%nat, 0%nat) alice_order_id alice_order).
  - apply NoDup_singleton.
  - vm_compute. reflexivity.
  - vm_compute. left. reflexivity.
  - vm_compute. reflexivity.
Defined.

(** X5.  The first qualifying entry of the feed wins: when the entries
    in front of one that verifies the order are skipped, the order is
    verified against that entry, whatever follows it in the feed. *)
Theorem first_qualifying_event_wins :
  forall od lb front id e t back,
    Forall
      (fun item =>
         match snd item with
         | NotADict => True
         | Entry e' => check_event od lb e' = Ok None
         end)
      front ->
    check_event od lb e = Ok (Some t) ->
    scan_order od lb (front ++ (id, Entry e) :: back)
    = Ok (Some (record_payment od t)).
Proof.
  intros od lb front id e t back Hfront He.
  induction Hfront as [|[id0 [|e0]] front Hhd _ IH]; cbn [app scan_order].
  - rewrite He. reflexivity.
  - exact IH.
  - cbn [snd] in Hhd. rewrite Hhd. exact IH.
Qed.

Lemma first_qualifying_event_wins_witness :
  scan_order alice_order 123700
    ([("a", NotADict); ("b", text_entry alice_payment_text 117200)]
     ++ ("c", Entry (mkLogEntry (VStr "") (VStr alice_payment_text)
                       (TsNum 198200) []))
     :: [("d", text_entry alice_payment_text 199000);
         ("e", null_timestamp_entry)])
  = Ok (Some (record_payment alice_order 198200)).
Proof.
  apply (first_qualifying_event_wins alice_order 123700
           [("a", NotADict); ("b", text_entry alice_payment_text 117200)]
           "c" _ 198200).
  - repeat constructor.
  - vm_compute. reflexivity.
Defined.

(** ** The Matching Engine: the shape of the feed, and the older pass *)

Lemma scan_order_ids (od : Order) (lb : Z)
  (items1 : list (string * RawEntry)) :
  forall items2,
    map snd items1 = map snd items2 ->
    scan_order od lb items1 = scan_order od lb items2.
Proof.
  induction items1 as [|[id1 e1] items1 IH]; intros [|[id2 e2] items2] H;
    try discriminate H; [reflexivity|].
  cbn [map snd] in H. injection H as -> H.
  cbn [scan_order]. rewrite (IH _ H). reflexivity.
Qed.

Lemma check_orders_ids (lb : Z) (items1 items2 : list (string * RawEntry))
  (P : list (OrderId * Order)) :
  map snd items1 = map snd items2 ->
  check_orders lb items1 P = check_orders lb items2 P.
Proof.
  intros H. induction P as [|[k od] P IH]; [reflexivity|].
  cbn [check_orders]. rewrite (scan_order_ids od lb _ _ H), IH. reflexivity.
Qed.

Lemma enumerate_entries (l : list RawEntry) :
  forall i, map snd (enumerate i l) = l.
Proof.
  induction l as [|e l IH]; intros i; [reflexivity|].
  cbn [enumerate map snd]. rewrite IH. reflexivity.
Qed.

(** X6.  The Matching Engine does not look at the identifiers of the
    feed entries: a feed given as a keyed mapping and the same entries
    given as a positional list lead to the same store and the same
    counts. *)
Theorem matching_ignores_feed_shape :
  forall st items now,
    perform_order_check st (EvDict items) now
    = perform_order_check st (EvList (map snd items)) now.
Proof.
  intros st items now. unfold perform_order_check.
  destruct (pending_order st) as [|p ps]; [reflexivity|].
  cbn [log_items].
  rewrite (check_orders_ids _ items (enumerate 0 (map snd items)));
    [reflexivity|].
  rewrite enumerate_entries. reflexivity.
Qed.

Lemma check_event_pp_eq (od : Order) (lb : Z) (e : LogEntry) :
  check_event_pp od lb e = check_event od lb e.
Proof.
  unfold check_event_pp, check_event, is_tagged_transfer. cbv zeta.
  destruct (fromtimestamp (entry_timestamp e)) as [t|]; [|reflexivity].
  destruct (Z.ltb t lb); [reflexivity|].
  destruct (PyStr.contains "xanax" (PyStr.lower (entry_text e)));
    [reflexivity|].
  cbn [andb orb].
  destruct (negb _); reflexivity.
Qed.

Lemma scan_order_pp_eq (od : Order) (lb : Z)
  (items : list (string * RawEntry)) :
  scan_order_pp od lb items = scan_order od lb items.
Proof.
  induction items as [|[id [|e]] items IH]; cbn [scan_order_pp scan_order].
  - reflexivity.
  - exact IH.
  - rewrite check_event_pp_eq, IH. reflexivity.
Qed.

Lemma check_orders_pp_eq (lb : Z) (items : list (string * RawEntry))
  (P : list (OrderId * Order)) :
  check_orders_pp lb items P
  = (fst (check_orders lb items P),
     match snd (check_orders lb items P) with
     | Ok (V, _) => Ok V
     | Raise => Raise
     end).
Proof.
  induction P as [|[k od] P IH]; [reflexivity|].
  cbn [check_orders_pp check_orders]. rewrite scan_order_pp_eq.
  destruct (scan_order od lb items) as [found|]; [|reflexivity].
  rewrite IH. destruct (check_orders lb items P) as [P' r]. cbn [fst snd].
  destruct found; destruct r as [[V n]|]; reflexivity.
Qed.

Lemma dict_mem_keys (k : OrderId) (d1 : list (OrderId * Order)) :
  forall d2 : list (OrderId * Order),
    map fst d1 = map fst d2 ->
    dict_mem oid_eqb k d1 = dict_mem oid_eqb k d2.
Proof.
  unfold dict_mem.
  induction d1 as [|[k1 v1] d1 IH]; intros [|[k2 v2] d2] H;
    try discriminate H; [reflexivity|].
  cbn [map fst] in H. injection H as -> H.
  cbn [existsb fst]. rewrite (IH _ H). reflexivity.
Qed.

Lemma fold_activate_pp_agrees (now : Z) (V : list (OrderId * Order)) :
  forall sa sb,
    pending_order sa = pending_order sb ->
    map fst (active_orders sa) = map fst (active_orders sb) ->
    processed_events sa = processed_events sb ->
    pending_order (fold_left (activate_verified now) V sa)
    = pending_order (fold_left (activate_verified_pp now) V sb)
    /\ map fst (active_orders (fold_left (activate_verified now) V sa))
       = map fst (active_orders (fold_left (activate_verified_pp now) V sb))
    /\ processed_events (fold_left (activate_verified now) V sa)
       = processed_events (fold_left (activate_verified_pp now) V sb).
Proof.
  induction V as [|[k od] V IH]; intros sa sb Hp Ha Hx; [auto|].
  cbn [fold_left]. apply IH.
  - rewrite activate_verified_pending. unfold activate_verified_pp.
    cbn [with_active pending_order]. rewrite <- Hp.
    destruct (dict_mem oid_eqb k (pending_order sa)) eqn:E;
      cbn [with_pending with_active pending_order]; rewrite <- ?Hp;
      [reflexivity|].
    apply dict_del_not_mem, E.
  - rewrite activate_verified_active. unfold activate_verified_pp.
    cbn [with_active pending_order].
    destruct (dict_mem oid_eqb k (pending_order sb));
      cbn [with_pending with_active active_orders];
      rewrite !keys_dict_set, (dict_mem_keys k _ _ Ha), Ha; reflexivity.
  - unfold activate_verified, activate_verified_pp.
    cbn [with_active pending_order].
    destruct (dict_mem oid_eqb k (pending_order sa)),
             (dict_mem oid_eqb k (pending_order sb)); exact Hx.
Qed.

(** X7.  The relevance pre-filter of the Matching Engine never changes
    a verdict: the inner loop of the older pass
    [process_pending_orders], which has no such filter, reaches the
    same verdict for every order and feed.  On a non-empty feed the
    older pass leaves the same pending set and the same keys in the
    active set and returns the same number of activations; where
    [perform_order_check] lets an exception escape, the older pass
    catches it and returns 0 with the same store.  The older pass
    sets no expiry time: an order it activates keeps the [expires_at]
    it had as a pending order. *)
Theorem older_pass_agrees :
  (forall od lb items, scan_order_pp od lb items = scan_order od lb items)
  /\ (forall st events now st1 n v,
        events_falsy events = false ->
        perform_order_check st events now = (st1, Ok (n, v)) ->
        exists st2,
          process_pending_orders st events now = (st2, v)
          /\ pending_order st2 = pending_order st1
          /\ map fst (active_orders st2) = map fst (active_orders st1)
          /\ processed_events st2 = processed_events st1)
  /\ (forall st events now st1,
        events_falsy events = false ->
        perform_order_check st events now = (st1, Raise) ->
        process_pending_orders st events now = (st1, 0%nat))
  /\ (forall now st k od,
        expires_at
          (match dict_get oid_eqb k
                   (active_orders (activate_verified_pp now st (k, od))) with
           | Some od' => od'
           | None => od
           end)
        = expires_at od).
Proof.
  split; [exact scan_order_pp_eq|]. split; [|split].
  - intros st events now st1 n v Hf H.
    unfold process_pending_orders. rewrite Hf, check_orders_pp_eq.
    destruct (perform_order_check_cases st events now)
      as [[Hr [Hp|He]] | [(_ & _ & P' & _ & Hr)
                         | (_ & _ & P' & V & n0 & Hc & Hr)]].
    + rewrite Hr in H. injection H as <- <- <-. rewrite Hp.
      cbn. rewrite <- Hp, with_pending_id. exists st. auto.
    + subst events. discriminate Hf.
    + rewrite Hr in H. discriminate H.
    + rewrite Hr in H. injection H as <- <- <-. rewrite Hc. cbn [fst snd].
      eexists. split; [reflexivity|].
      destruct (fold_activate_pp_agrees now V (with_pending st P')
                  (with_pending st P') eq_refl eq_refl eq_refl)
        as (Hp & Ha & Hx).
      split; [symmetry; exact Hp|]. split; symmetry; assumption.
  - intros st events now st1 Hf H.
    unfold process_pending_orders. rewrite Hf, check_orders_pp_eq.
    destruct (perform_order_check_cases st events now)
      as [[Hr _] | [(_ & _ & P' & Hc & Hr) | (_ & _ & P' & V & n0 & _ & Hr)]].
    + rewrite Hr in H. discriminate H.
    + rewrite Hr in H. injection H as <-. rewrite Hc. reflexivity.
    + rewrite Hr in H. discriminate H.
  - intros now st k od. unfold activate_verified_pp.
    cbn [with_active pending_order].
    destruct (dict_mem oid_eqb k (pending_order st));
      cbn [with_pending with_active active_orders];
      rewrite dict_get_set, oid_eqb_refl; reflexivity.
Qed.

Lemma older_pass_agrees_witness :
  (exists st2,
     process_pending_orders alice_pending paid_30min_before 200100
     = (st2, 1%nat)
     /\ pending_order st2
        = pending_order
            (fst (perform_order_check alice_pending paid_30min_before 200100))
     /\ map fst (active_orders st2)
        = map fst
            (active_orders
               (fst (perform_order_check alice_pending paid_30min_before
                       200100)))
     /\ processed_events st2
        = processed_events
            (fst (perform_order_check alice_pending paid_30min_before 200100)))
  /\ process_pending_orders two_pending feed_with_null_timestamp 210100
     = (fst (perform_order_check two_pending feed_with_null_timestamp 210100),
        0%nat).
Proof.
  split.
  - apply (proj1 (proj2 older_pass_agrees) alice_pending paid_30min_before
             200100 _ 0%nat 1%nat); [reflexivity|].
    vm_compute. reflexivity.
  - apply (proj1 (proj2 (proj2 older_pass_agrees)) two_pending
             feed_with_null_timestamp 210100); [reflexivity|].
    vm_compute. reflexivity.
Defined.

(** ** The active set: expiry sweep, listing, grants *)

Lemma in_dict_del_iff (k : OrderId) (kv : OrderId * Order)
  (d : list (OrderId * Order)) :
  In kv (dict_del oid_eqb k d) <-> In kv d /\ fst kv <> k.
Proof.
  unfold dict_del. rewrite filter_In, negb_true_iff, oid_eqb_neq.
  split; intros [H1 H2]; split; auto.
Qed.

Lemma in_fold_del (ks : list OrderId) (kv : OrderId * Order) :
  forall d,
    In kv (fold_left (fun d k => dict_del oid_eqb k d) ks d)
    <-> In kv d /\ ~ In (fst kv) ks.
Proof.
  induction ks as [|k ks IH]; intros d; cbn [fold_left].
  - split; [intros H; split; [exact H|intros []] | intros [H _]; exact H].
  - rewrite IH, in_dict_del_iff. cbn [In]. split.
    + intros [[H1 H2] H3]. split; [exact H1|]. intros [E|E]; auto.
    + intros [H1 H2]. split; [split; [exact H1|]|]; intros E; apply H2; auto.
Qed.

(** X8.  After the expiry sweep ([/expired]) every order left in the
    active set carries an activation and an expiry time and expires
    later than the time of the sweep; an order that carries both and
    has not expired is kept; nothing is added, and the pending set,
    the processed events and the prices are not touched.  Without
    administrator rights the command changes nothing. *)
Theorem expiry_sweep :
  (forall st now k od,
     In (k, od) (active_orders (fst (expired_orders_command st true now))) ->
     In (k, od) (active_orders st)
     /\ exists activated expires,
         activated_at od = Some activated
         /\ expires_at od = Some expires
         /\ now < expires)
  /\ (forall st now k od activated expires,
        NoDup (map fst (active_orders st)) ->
        In (k, od) (active_orders st) ->
        activated_at od = Some activated ->
        expires_at od = Some expires ->
        now < expires ->
        In (k, od) (active_orders (fst (expired_orders_command st true now))))
  /\ (forall st now,
        let st' := fst (expired_orders_command st true now) in
        pending_order st' = pending_order st
        /\ processed_events st' = processed_events st
        /\ pricing_xan st' = pricing_xan st
        /\ pricing_extc st' = pricing_extc st)
  /\ (forall st now, expired_orders_command st false now = (st, AdminOnly)).
Proof.
  split; [|split; [|split]].
  - intros st now k od H. unfold expired_orders_command in H.
    cbn [negb fst with_active active_orders] in H.
    apply in_fold_del in H as [Hin Hnot]. split; [exact Hin|].
    cbn [fst] in Hnot.
    destruct (to_remove now od) eqn:E.
    + exfalso. apply Hnot. apply in_map_iff. exists (k, od).
      split; [reflexivity|]. apply filter_In. auto.
    + unfold to_remove in E.
      destruct (expires_at od) as [e|]; [|discriminate E].
      destruct (activated_at od) as [a|]; [|discriminate E].
      exists a, e. apply Z.leb_gt in E. auto.
  - intros st now k od a e Hnd Hin Ha He Hlt.
    unfold expired_orders_command.
    cbn [negb fst with_active active_orders].
    apply in_fold_del. split; [exact Hin|]. cbn [fst].
    intros Hk. apply in_map_iff in Hk as ([k1 od1] & Hfst & Hf).
    cbn [fst] in Hfst. subst k1. apply filter_In in Hf as [Hin1 Hrem].
    cbn [snd] in Hrem.
    rewrite (nodup_keys_functional _ _ _ _ Hnd Hin1 Hin) in Hrem.
    unfold to_remove in Hrem. rewrite He, Ha in Hrem.
    apply Z.leb_le in Hrem. lia.
  - intros st now. cbn. repeat split.
  - reflexivity.
Qed.

Lemma expiry_sweep_witness :
  let st :=
    fst (perform_order_check alice_pending paid_30min_before 200100) in
  let od :=
    set_activation (record_payment alice_order 198200) 200100
      (200100 + 12 * 3600) (Some StPending) in
  (In (alice_order_id, od) (active_orders st)
   /\ exists activated expires,
       activated_at od = Some activated
       /\ expires_at od = Some expires
       /\ 200200 < expires)
  /\ In (alice_order_id, od)
       (active_orders (fst (expired_orders_command st true 200200))).
Proof.
  cbv zeta. split.
  - apply (proj1 expiry_sweep _ 200200 alice_order_id).
    vm_compute. left. reflexivity.
  - apply (proj1 (proj2 expiry_sweep) _ 200200 alice_order_id _ 200100
             (200100 + 12 * 3600)).
    + apply NoDup_singleton.
    + vm_compute. left. reflexivity.
    + reflexivity.
    + reflexivity.
    + vm_compute. reflexivity.
Defined.

(** X9.  [/active] lists an order exactly when it carries both times
    and the current time is before its expiry, so at no instant is an
    order both listed by [/active] and removed by [/expired], and an
    order carrying both times is one or the other.  An order the
    Matching Engine activates at time T is in the active set with
    expiry T plus its coverage length: it is listed at every time
    before that expiry and at none from it on. *)
Theorem listing_and_expiry :
  (forall st now listing kv,
     active_orders_command st true now = Some listing ->
     (In kv listing <->
      In kv (active_orders st)
      /\ exists activated expires,
          activated_at (snd kv) = Some activated
          /\ expires_at (snd kv) = Some expires
          /\ now < expires))
  /\ (forall now od, listed_active now od = true -> to_remove now od = false)
  /\ (forall now od activated expires,
        activated_at od = Some activated ->
        expires_at od = Some expires ->
        listed_active now od = negb (to_remove now od))
  /\ (forall st events now st' res k od od' t,
        NoDup (map fst (pending_order st)) ->
        perform_order_check st events now = (st', Ok res) ->
        In (k, od) (pending_order st) ->
        scan_order od (now - 24 * 3600) (log_items events) = Ok (Some od') ->
        exists active,
          In (k, active) (active_orders st')
          /\ activated_at active = Some now
          /\ expires_at active = Some (now + coverage_seconds od)
          /\ listed_active t active = Z.ltb t (now + coverage_seconds od)
          /\ to_remove t active = Z.leb (now + coverage_seconds od) t).
Proof.
  split; [|split; [|split]].
  - intros st now listing kv H. unfold active_orders_command in H.
    cbn [negb] in H. injection H as <-. rewrite filter_In.
    unfold listed_active. split.
    + intros [Hin Hl]. split; [exact Hin|].
      destruct (expires_at (snd kv)) as [e|]; [|discriminate Hl].
      destruct (activated_at (snd kv)) as [a|]; [|discriminate Hl].
      exists a, e. apply Z.ltb_lt in Hl. auto.
    + intros [Hin (a & e & Ha & He & Hlt)]. split; [exact Hin|].
      rewrite He, Ha. apply Z.ltb_lt, Hlt.
  - intros now od H. unfold listed_active in H. unfold to_remove.
    destruct (expires_at od) as [e|]; [|discriminate H].
    destruct (activated_at od) as [a|]; [|discriminate H].
    apply Z.ltb_lt in H. apply Z.leb_gt, H.
  - intros now od a e Ha He. unfold listed_active, to_remove.
    rewrite He, Ha. rewrite Z.leb_antisym. rewrite negb_involutive.
    reflexivity.
  - intros st events now st' res k od od' t Hnd H Hin Hs.
    destruct (perform_order_check_cases st events now)
      as [[_ [Hp|He]] | [(_ & _ & P' & _ & Hr)
                        | (_ & _ & P' & V & n & Hc & Hr)]].
    + rewrite Hp in Hin. destruct Hin.
    + subst events. discriminate Hs.
    + rewrite Hr in H. discriminate H.
    + rewrite Hr in H. injection H as <- _.
      pose proof (check_orders_verified_in _ _ _ _ _ _ _ _ _ Hc Hin Hs) as HV.
      assert (Hcov : coverage_seconds od' = coverage_seconds od).
      { destruct (scan_order_some _ _ _ _ Hs) as (_ & _ & t0 & _ & _ & ->).
        reflexivity. }
      exists (set_activation od' now (now + coverage_seconds od')
                (status od')).
      split.
      * apply dict_get_in. apply fold_activate_active; [|exact HV].
        eapply sublist_NoDup; [exact Hnd|].
        eapply check_orders_verified_keys; exact Hc.
      * rewrite Hcov. cbn. repeat split.
Qed.

Lemma listing_and_expiry_witness :
  (to_remove 200200
     (set_activation alice_order 200100 (200100 + 12 * 3600) None) = false)
  /\ (listed_active 300000
        (set_activation alice_order 200100 (200100 + 12 * 3600) None)
      = negb (to_remove 300000
                (set_activation alice_order 200100 (200100 + 12 * 3600) None)))
  /\ exists active,
      In (alice_order_id, active)
        (active_orders
           (fst (perform_order_check alice_pending paid_30min_before 200100)))
      /\ activated_at active = Some 200100
      /\ expires_at active = Some (200100 + coverage_seconds alice_order)
      /\ listed_active (200100 + 13 * 3600) active
         = Z.ltb (200100 + 13 * 3600) (200100 + coverage_seconds alice_order)
      /\ to_remove (200100 + 13 * 3600) active
         = Z.leb (200100 + coverage_seconds alice_order) (200100 + 13 * 3600).
Proof.
  destruct listing_and_expiry as (_ & L2 & L3 & L4).
  split; [|split].
  - apply L2. reflexivity.
  - apply (L3 300000 _ 200100 (200100 + 12 * 3600)); reflexivity.
  - apply (L4 alice_pending paid_30min_before 200100 _ (0%nat, 1%nat)
             alice_order_id alice_order (record_payment alice_order 198200)).
    + apply NoDup_singleton.
    + vm_compute. reflexivity.
    + vm_compute. left. reflexivity.
    + vm_compute. reflexivity.
Defined.

Lemma check_active_raises (uid now : Z) (d : list (OrderId * Order))
  (k : OrderId) (od : Order) :
  In (k, od) d ->
  user_id od = uid ->
  activated_at od = None ->
  expires_at od = None ->
  check_active uid now d = Raise.
Proof.
  intros Hin Hu Ha He.
  induction d as [|[k0 od0] d IH]; [destruct Hin|].
  cbn [check_active]. destruct Hin as [Heq|Hin].
  - inversion Heq; subst. rewrite Z.eqb_refl, He, Ha. reflexivity.
  - specialize (IH Hin). rewrite IH.
    destruct (Z.eqb (user_id od0) uid); [|reflexivity].
    destruct (expires_at od0) as [e|].
    + destruct (Z.ltb now e); [|reflexivity].
      destruct (activated_at od0); reflexivity.
    + destruct (activated_at od0) as [a|]; [|reflexivity].
      destruct (Z.ltb now (a + coverage_seconds od0)); reflexivity.
Qed.

(** X10.  Coverage granted by an administrator ([/givecover]) is put
    into the active set with a start time but without activation and
    expiry times, whatever orders the member already has.  Such an
    order is never listed by [/active], is removed by the next expiry
    sweep whenever that runs, and makes [/check] raise for its member
    at any time; the pending set, the processed events and the prices
    are not touched by the grant. *)
Theorem granted_coverage :
  forall st user drug_type duration reward now,
    let k := mkOrderId (member_id user) now false in
    let st' :=
      fst (give_coverage st true user drug_type duration reward now) in
    exists od,
      dict_get oid_eqb k (active_orders st') = Some od
      /\ user_id od = member_id user
      /\ coverage_type od = drug_type
      /\ xanax_reward od = reward
      /\ start_time od = Some now
      /\ activated_at od = None
      /\ expires_at od = None
      /\ pending_order st' = pending_order st
      /\ processed_events st' = processed_events st
      /\ pricing_xan st' = pricing_xan st
      /\ pricing_extc st' = pricing_extc st
      /\ (forall t, listed_active t od = false)
      /\ (forall t,
            dict_get oid_eqb k
              (active_orders (fst (expired_orders_command st' true t)))
            = None)
      /\ (forall t, check_insurance st' (member_id user) t = Raise).
Proof.
  intros st user drug_type duration reward now k st'.
  assert (Hex : exists od,
             dict_get oid_eqb k (active_orders st') = Some od
             /\ user_id od = member_id user /\ coverage_type od = drug_type
             /\ xanax_reward od = reward
             /\ start_time od = Some now /\ activated_at od = None
             /\ expires_at od = None).
  { subst st' k. unfold give_coverage.
    cbn [negb fst with_active active_orders].
    eexists. rewrite dict_get_set, oid_eqb_refl.
    split; [reflexivity|]. destruct drug_type; repeat split. }
  destruct Hex as (od & Hget & Hu & Hk & Hr & Hs & Ha & He).
  exists od.
  split; [exact Hget|].
  split; [exact Hu|]. split; [exact Hk|]. split; [exact Hr|].
  split; [exact Hs|]. split; [exact Ha|]. split; [exact He|].
  split; [reflexivity|]. split; [reflexivity|].
  split; [reflexivity|]. split; [reflexivity|].
  split; [|split].
  - intros t. unfold listed_active. rewrite He. reflexivity.
  - intros t. destruct (dict_get oid_eqb k
      (active_orders (fst (expired_orders_command st' true t)))) as [od1|] eqn:E;
      [|reflexivity].
    exfalso. apply dict_get_in in E.
    unfold expired_orders_command in E.
    cbn [negb fst with_active active_orders] in E.
    apply in_fold_del in E as [Hin Hnot]. apply Hnot. cbn [fst].
    apply in_map_iff. exists (k, od). split; [reflexivity|].
    apply filter_In. split; [apply dict_get_in, Hget|].
    cbn [snd]. unfold to_remove. rewrite He. reflexivity.
  - intros t. unfold check_insurance.
    rewrite (check_active_raises _ t _ k od (dict_get_in _ _ _ Hget) Hu Ha He).
    reflexivity.
Qed.

(** ** What [/check] shows *)





(** ** Overdose reports *)

Section DictFacts.
Context {V : Type}.
Implicit Types (d : list (OrderId * V)) (k : OrderId) (v : V).

Lemma dict_get_set_any k k' v d :
  dict_get oid_eqb k (dict_set oid_eqb k' v d) =
  if oid_eqb k k' then Some v else dict_get oid_eqb k d.
Proof.
  induction d as [|[k0 v0] d IH]; simpl.
  - reflexivity.
  - destruct (oid_eqb k' k0) eqn:E0; simpl.
    + apply oid_eqb_eq in E0. subst k0.
      destruct (oid_eqb k k'); reflexivity.
    + destruct (oid_eqb k k0) eqn:E1.
      * apply oid_eqb_eq in E1. subst k0.
        destruct (oid_eqb k k') eqn:E2; [|reflexivity].
        apply oid_eqb_eq in E2. subst k'. rewrite oid_eqb_refl in E0.
        discriminate.
      * exact IH.
Qed.

Lemma keys_dict_set_any k v d :
  map fst (dict_set oid_eqb k v d)
  = if dict_mem oid_eqb k d then map fst d else map fst d ++ [k].
Proof.
  unfold dict_mem.
  induction d as [|[k0 v0] d IH]; [reflexivity|].
  cbn [dict_set existsb fst]. destruct (oid_eqb k k0) eqn:E; cbn [orb].
  - apply oid_eqb_eq in E. subst k0. reflexivity.
  - cbn [map fst]. rewrite IH.
    destruct (existsb _ d); reflexivity.
Qed.

Lemma dict_mem_in_any k d : dict_mem oid_eqb k d = false -> ~ In k (map fst d).
Proof.
  unfold dict_mem.
  induction d as [|[k0 v0] d IH]; intros H Hin; [destruct Hin|].
  cbn [existsb fst] in H. apply orb_false_iff in H as [H0 H1].
  destruct Hin as [Heq|Hin].
  - cbn [fst] in Heq. subst k0. rewrite oid_eqb_refl in H0. discriminate.
  - exact (IH H1 Hin).
Qed.

Lemma nodup_dict_set_any k v d :
  NoDup (map fst d) -> NoDup (map fst (dict_set oid_eqb k v d)).
Proof.
  intros H. rewrite keys_dict_set_any.
  destruct (dict_mem oid_eqb k d) eqn:E; [exact H|].
  apply NoDup_app. split; [exact H|]. split.
  - intros x Hx Hk. apply list_elem_of_In in Hx, Hk.
    destruct Hk as [<-|[]]. exact (dict_mem_in_any _ _ E Hx).
  - apply NoDup_singleton.
Qed.

Lemma nodup_dict_del_any k d :
  NoDup (map fst d) -> NoDup (map fst (dict_del oid_eqb k d)).
Proof.
  intros H. apply (sublist_NoDup _ (map fst d)); [exact H|].
  unfold dict_del. clear H.
  induction d as [|[k0 v0] d IH]; [constructor|].
  cbn [List.filter fst]. destruct (negb (oid_eqb k k0)); cbn [map fst].
  - apply sublist_skip, IH.
  - apply sublist_cons, IH.
Qed.

End DictFacts.

Lemma count_reports_cons (m : Z) (k : OrderId) (r : Report)
  (d : list (OrderId * Report)) :
  count_pending_reports m ((k, r) :: d)
  = ((if is_pending_report m r then 1 else 0)
     + count_pending_reports m d)%nat.
Proof.
  unfold count_pending_reports, user_reports. cbn [List.filter snd].
  destruct (is_pending_report m r); reflexivity.
Qed.

Lemma count_reports_set (m : Z) (k : OrderId) (r : Report)
  (d : list (OrderId * Report)) :
  (count_pending_reports m (dict_set oid_eqb k r d)
   <= count_pending_reports m d
      + (if is_pending_report m r then 1 else 0))%nat.
Proof.
  induction d as [|[k0 r0] d IH]; cbn [dict_set].
  - rewrite count_reports_cons. unfold count_pending_reports. simpl. lia.
  - destruct (oid_eqb k k0); rewrite !count_reports_cons; lia.
Qed.

Lemma count_reports_del (m : Z) (k : OrderId) (d : list (OrderId * Report)) :
  (count_pending_reports m (dict_del oid_eqb k d)
   <= count_pending_reports m d)%nat.
Proof.
  unfold dict_del.
  induction d as [|[k0 r0] d IH]; [reflexivity|].
  cbn [List.filter fst].
  destruct (negb (oid_eqb k k0)); rewrite !count_reports_cons; lia.
Qed.

Lemma is_pending_report_user (m : Z) (r : Report) :
  is_pending_report m r = true -> report_user_id r = m.
Proof.
  unfold is_pending_report. intros H.
  apply andb_true_iff in H as [H _]. apply Z.eqb_eq, H.
Qed.

Lemma exec_od_inv (reports : list (OrderId * Report)) (c : OdCommand) :
  NoDup (map fst reports)
  /\ (forall m, (count_pending_reports m reports <= 1)%nat) ->
  NoDup (map fst (exec_od reports c))
  /\ (forall m, (count_pending_reports m (exec_od reports c) <= 1)%nat).
Proof.
  intros [Hnd Hc]. destruct c; cbn [exec_od].
  - unfold report_overdose.
    destruct (user_orders (member_id user) (active_orders st))
      as [|[oid od] [|? ?]]; cbn [fst]; auto.
    destruct (user_reports (member_id user) reports) eqn:E; cbn [fst]; auto.
    split; [apply nodup_dict_set_any, Hnd|].
    intros m.
    match goal with
    | |- (count_pending_reports m (dict_set oid_eqb ?k ?r ?d) <= 1)%nat =>
        pose proof (count_reports_set m k r d) as Hs;
        destruct (is_pending_report m r) eqn:Ep
    end.
    + apply is_pending_report_user in Ep. cbn [report_user_id] in Ep.
      subst m. unfold count_pending_reports in *. rewrite E in Hs.
      cbn [List.length] in Hs. lia.
    + specialize (Hc m). lia.
  - unfold finalize_overdose. destruct is_admin; cbn [negb fst]; auto.
    destruct (user_reports uid reports) as [|[k r] [|? ?]]; cbn [fst]; auto.
    split; [apply nodup_dict_set_any, Hnd|].
    intros m. pose proof (count_reports_set m k (finalize r admin now) reports)
      as Hs.
    assert (Hf : is_pending_report m (finalize r admin now) = false).
    { unfold is_pending_report, finalize. cbn. apply andb_false_r. }
    rewrite Hf in Hs. specialize (Hc m). lia.
  - unfold delete_report. destruct allowed; cbn [negb fst]; auto.
    destruct (user_reports uid reports) as [|p ps]; cbn [fst]; auto.
    destruct order_number as [n|]; cbn [fst]; auto.
    destruct (_ || _); cbn [fst]; auto.
    destruct (nth_error _ _) as [[k r]|]; cbn [fst]; auto.
    split; [apply nodup_dict_del_any, Hnd|].
    intros m. pose proof (count_reports_del m k reports). specialize (Hc m).
    lia.
Qed.

Lemma finalize_clears_pending (uid : Z) (k : OrderId) (r r' : Report)
  (d : list (OrderId * Report)) :
  NoDup (map fst d) ->
  user_reports uid d = [(k, r)] ->
  is_pending_report uid r' = false ->
  user_reports uid (dict_set oid_eqb k r' d) = [].
Proof.
  unfold user_reports. intros Hnd H Hr'.
  induction d as [|[k0 r0] d IH]; [discriminate H|].
  inversion Hnd as [|? ? Hnotin Hnd']; subst.
  rewrite list_elem_of_In in Hnotin.
  cbn [List.filter snd] in H. cbn [dict_set].
  destruct (is_pending_report uid r0) eqn:E0.
  - injection H as -> -> H. rewrite oid_eqb_refl.
    cbn [List.filter snd]. rewrite Hr'. exact H.
  - destruct (oid_eqb k k0) eqn:Ek.
    + apply oid_eqb_eq in Ek. subst k0. exfalso. apply Hnotin.
      assert (Hin : In (k, r)
                (List.filter (fun kv => is_pending_report uid (snd kv)) d))
        by (rewrite H; left; reflexivity).
      apply filter_In in Hin as [Hin _].
      apply in_map_iff. exists (k, r). auto.
    + cbn [List.filter snd]. rewrite E0. apply IH; assumption.
Qed.

(** X12.  Whatever sequence of [/od], [/odfin] and report deletions is
    carried out, against whatever order stores, a member never has
    more than one pending overdose report.  A report is accepted only
    for a member with exactly one order in the active set and no
    pending report, and it records that order and its payout.
    Finalizing marks the member's pending report finalized, leaves the
    member without a pending report, and hands the Xanax reward to the
    payout record only when it is positive. *)
Theorem at_most_one_pending_report :
  (forall cs m,
     (count_pending_reports m (fold_left exec_od cs []) <= 1)%nat)
  /\ (forall st reports user now reports' k,
        report_overdose st reports user now = (reports', ReportSubmitted k) ->
        count_pending_reports (member_id user) reports = 0%nat
        /\ exists oid od r,
            user_orders (member_id user) (active_orders st) = [(oid, od)]
            /\ dict_get oid_eqb k reports' = Some r
            /\ report_user_id r = member_id user
            /\ report_order_id r = oid
            /\ payout_details r = payout_of od
            /\ report_status r = RepPending)
  /\ (forall reports admin uid now reports' k paid,
        NoDup (map fst reports) ->
        finalize_overdose reports true admin uid now
        = (reports', PayoutFinalized k, paid) ->
        exists r,
          user_reports uid reports = [(k, r)]
          /\ dict_get oid_eqb k reports' = Some (finalize r admin now)
          /\ count_pending_reports uid reports' = 0%nat
          /\ paid
             = (if Z.ltb 0 (xanax_reward (report_order_data r))
                then Some (xanax_reward (report_order_data r)) else None)).
Proof.
  split; [|split].
  - intros cs m.
    assert (H : forall reports,
               NoDup (map fst reports)
               /\ (forall m, (count_pending_reports m reports <= 1)%nat) ->
               NoDup (map fst (fold_left exec_od cs reports))
               /\ (forall m,
                     (count_pending_reports m (fold_left exec_od cs reports)
                      <= 1)%nat)).
    { induction cs as [|c cs IH]; intros reports Hinv; [exact Hinv|].
      cbn [fold_left]. apply IH, exec_od_inv, Hinv. }
    apply H. split; [constructor|]. intros m0. cbn. lia.
  - intros st reports user now reports' k H. unfold report_overdose in H.
    destruct (user_orders (member_id user) (active_orders st))
      as [|[oid od] [|? ?]] eqn:Eo; try discriminate H.
    destruct (user_reports (member_id user) reports) eqn:Er;
      [|discriminate H].
    injection H as <- <-.
    split; [unfold count_pending_reports; rewrite Er; reflexivity|].
    eexists oid, od, _. split; [reflexivity|].
    rewrite dict_get_set_any, oid_eqb_refl. split; [reflexivity|].
    repeat split.
  - intros reports admin uid now reports' k paid Hnd H.
    unfold finalize_overdose in H. cbn [negb] in H.
    destruct (user_reports uid reports) as [|[k0 r] [|? ?]] eqn:Er;
      try discriminate H.
    injection H as <- <- <-. exists r. split; [reflexivity|].
    split; [rewrite dict_get_set_any, oid_eqb_refl; reflexivity|].
    split; [|reflexivity].
    unfold count_pending_reports.
    rewrite (finalize_clears_pending uid k0 r _ reports Hnd Er); [reflexivity|].
    unfold is_pending_report, finalize. cbn. apply andb_false_r.
Qed.

Lemma at_most_one_pending_report_witness :
  (count_pending_reports (member_id alice) [] = 0%nat
   /\ exists oid od r,
       user_orders (member_id alice) (active_orders alice_active)
       = [(oid, od)]
       /\ dict_get oid_eqb (mkOrderId 1001 201000 false) alice_reported
          = Some r
       /\ report_user_id r = member_id alice
       /\ report_order_id r = oid
       /\ payout_details r = payout_of od
       /\ report_status r = RepPending)
  /\ exists r,
      user_reports 1001 alice_reported = [(mkOrderId 1001 201000 false, r)]
      /\ dict_get oid_eqb (mkOrderId 1001 201000 false)
           (fst (fst (finalize_overdose alice_reported true "admin#1" 1001
                        202000)))
         = Some (finalize r "admin#1" 202000)
      /\ count_pending_reports 1001
           (fst (fst (finalize_overdose alice_reported true "admin#1" 1001
                        202000))) = 0%nat
      /\ Some 4
         = (if Z.ltb 0 (xanax_reward (report_order_data r))
            then Some (xanax_reward (report_order_data r)) else None).
Proof.
  destruct at_most_one_pending_report as (_ & R2 & R3).
  split.
  - apply (R2 alice_active [] alice 201000 alice_reported
             (mkOrderId 1001 201000 false)).
    vm_compute. reflexivity.
  - apply (R3 alice_reported "admin#1" 1001 202000 _
             (mkOrderId 1001 201000 false) (Some 4)).
    + apply NoDup_singleton.
    + vm_compute. reflexivity.
Defined.

Lemma one_pending_after_report (m : Z) (k : OrderId) (r : Report)
  (d : list (OrderId * Report)) :
  is_pending_report m r = true ->
  user_reports m d = [] ->
  count_pending_reports m (dict_set oid_eqb k r d) = 1%nat.
Proof.
  unfold count_pending_reports, user_reports. intros Hr.
  induction d as [|[k1 r1] d IH]; intros H0.
  - cbn [dict_set List.filter snd]. rewrite Hr. reflexivity.
  - cbn [List.filter snd] in H0.
    destruct (is_pending_report m r1) eqn:E1; [discriminate H0|].
    cbn [dict_set]. destruct (oid_eqb k k1).
    + cbn [List.filter snd]. rewrite Hr, H0. reflexivity.
    + cbn [List.filter snd]. rewrite E1. apply IH, H0.
Qed.

(** X13.  Expiry is lazy and [/od] does not look at the clock: a
    member whose only order in the active set has already expired can
    still open an overdose report against it, until an administrator
    runs the expiry sweep; after the sweep the same report is refused
    for lack of active coverage. *)
Theorem expired_order_claimable_until_swept :
  forall st reports user now k od,
    user_orders (member_id user) (active_orders st) = [(k, od)] ->
    user_reports (member_id user) reports = [] ->
    to_remove now od = true ->
    (exists reports',
       report_overdose st reports user now
       = (reports', ReportSubmitted (mkOrderId (member_id user) now false))
       /\ count_pending_reports (member_id user) reports' = 1%nat)
    /\ report_overdose (fst (expired_orders_command st true now)) reports
         user now
       = (reports, NoActiveCoverage).
Proof.
  intros st reports user now k od Ho Hr Hexp. split.
  - unfold report_overdose. rewrite Ho, Hr. eexists. split; [reflexivity|].
    apply one_pending_after_report; [|exact Hr].
    unfold is_pending_report. cbn [report_user_id report_status].
    rewrite Z.eqb_refl. reflexivity.
  - unfold report_overdose.
    assert (He : user_orders (member_id user)
                   (active_orders (fst (expired_orders_command st true now)))
                 = []).
    { destruct (user_orders (member_id user)
                  (active_orders (fst (expired_orders_command st true now))))
        as [|[k1 od1] l] eqn:E; [reflexivity|].
      exfalso.
      assert (Hin : In (k1, od1)
                (user_orders (member_id user)
                   (active_orders (fst (expired_orders_command st true now)))))
        by (rewrite E; left; reflexivity).
      apply filter_In in Hin as [Hin Hu].
      unfold expired_orders_command in Hin.
      cbn [negb fst with_active active_orders] in Hin.
      apply in_fold_del in Hin as [Hin Hnot].
      assert (Hin' : In (k1, od1) (user_orders (member_id user)
                                     (active_orders st)))
        by (apply filter_In; auto).
      rewrite Ho in Hin'. destruct Hin' as [Heq|[]].
      injection Heq as <- <-. apply Hnot. cbn [fst].
      apply in_map_iff. exists (k, od). split; [reflexivity|].
      apply filter_In. auto. }
    rewrite He. reflexivity.
Qed.

Lemma expired_order_claimable_until_swept_witness :
  (exists reports',
     report_overdose alice_active [] alice 300000
     = (reports', ReportSubmitted (mkOrderId (member_id alice) 300000 false))
     /\ count_pending_reports (member_id alice) reports' = 1%nat)
  /\ report_overdose (fst (expired_orders_command alice_active true 300000)) []
       alice 300000
     = ([], NoActiveCoverage).
Proof.
  apply (expired_order_claimable_until_swept alice_active [] alice 300000
           alice_order_id
           (set_activation (record_payment alice_order 198200) 200100
              (200100 + 12 * 3600) (Some StPending))).
  - vm_compute. reflexivity.
  - reflexivity.
  - vm_compute. reflexivity.
Defined.

(** ** Well-formed stores *)

Section DictForall.
Context {K V : Type} (eqb : K -> K -> bool).
Hypothesis eqb_spec : forall a b, eqb a b = true <-> a = b.

Lemma Forall_dict_set (P : K * V -> Prop) (k : K) (v : V)
  (d : list (K * V)) :
  Forall P d -> P (k, v) -> Forall P (dict_set eqb k v d).
Proof.
  intros Hd Hv. induction Hd as [|[k0 v0] d Hhd Htl IH]; cbn [dict_set].
  - repeat constructor. exact Hv.
  - destruct (eqb k k0); constructor; auto.
Qed.

Lemma Forall_dict_del (P : K * V -> Prop) (k : K) (d : list (K * V)) :
  Forall P d -> Forall P (dict_del eqb k d).
Proof.
  intros Hd. unfold dict_del.
  induction Hd as [|[k0 v0] d Hhd Htl IH]; cbn [List.filter]; [constructor|].
  destruct (negb _); [constructor|]; auto.
Qed.

Lemma dict_get_some_in (k : K) (v : V) (d : list (K * V)) :
  dict_get eqb k d = Some v -> In (k, v) d.
Proof.
  induction d as [|[k0 v0] d IH]; cbn [dict_get]; intros H; [discriminate H|].
  destruct (eqb k k0) eqn:E.
  - apply eqb_spec in E. subst k0. injection H as ->. left. reflexivity.
  - right. apply IH, H.
Qed.

Lemma dict_get_set_same (k : K) (v : V) (d : list (K * V)) :
  dict_get eqb k (dict_set eqb k v d) = Some v.
Proof.
  assert (Hrefl : eqb k k = true) by (apply eqb_spec; reflexivity).
  induction d as [|[k0 v0] d IH]; cbn [dict_set dict_get].
  - rewrite Hrefl. reflexivity.
  - destruct (eqb k k0) eqn:E; cbn [dict_get].
    + rewrite Hrefl. reflexivity.
    + rewrite E. exact IH.
Qed.

Lemma dict_get_set_other (k k' : K) (v : V) (d : list (K * V)) :
  k' <> k ->
  dict_get eqb k' (dict_set eqb k v d) = dict_get eqb k' d.
Proof.
  intros Hne.
  assert (Hf : eqb k' k = false).
  { destruct (eqb k' k) eqn:E; [|reflexivity].
    apply eqb_spec in E. contradiction. }
  induction d as [|[k0 v0] d IH]; cbn [dict_set dict_get].
  - rewrite Hf. reflexivity.
  - destruct (eqb k k0) eqn:E; cbn [dict_get].
    + apply eqb_spec in E. subst k0. rewrite Hf. reflexivity.
    + rewrite IH. reflexivity.
Qed.

End DictForall.

Lemma fold_del_forall (P : OrderId * Order -> Prop) (ks : list OrderId) :
  forall d,
    Forall P d ->
    Forall P (fold_left (fun d k => dict_del oid_eqb k d) ks d).
Proof.
  induction ks as [|k ks IH]; intros d H; [exact H|].
  cbn [fold_left]. apply IH, Forall_dict_del, H.
Qed.

Lemma record_payment_wf (k : OrderId) (od : Order) (t : Z) :
  pending_wf (k, od) -> pending_wf (k, record_payment od t).
Proof.
  unfold pending_wf, record_payment. cbn [fst snd].
  intros (Hu & Ht & Hp). split; [exact Hu|]. split; [|exact Hp].
  cbn [timestamp]. destruct (timestamp od) as [ot|]; [|contradiction].
  destruct (Z.ltb t ot); discriminate.
Qed.

Lemma check_orders_wf (lb : Z) (items : list (string * RawEntry))
  (P : list (OrderId * Order)) :
  forall P' r,
    check_orders lb items P = (P', r) ->
    Forall pending_wf P -> Forall pending_wf P'.
Proof.
  induction P as [|[k od] rest IH]; intros P' r H Hwf.
  - injection H as <- _. constructor.
  - inversion Hwf as [|? ? Hhd Htl]; subst.
    cbn [check_orders] in H.
    destruct (scan_order od lb items) as [found|] eqn:Hs.
    + destruct (check_orders lb items rest) as [rest' r'] eqn:E.
      specialize (IH _ _ eq_refl Htl).
      destruct found as [od'|]; injection H as <- _; constructor; auto.
      destruct (scan_order_some _ _ _ _ Hs) as (_ & _ & t & _ & _ & ->).
      apply record_payment_wf, Hhd.
    + injection H as <- _. exact Hwf.
Qed.

Lemma fold_activate_wf (now : Z) (V : list (OrderId * Order)) :
  forall st,
    Forall pending_wf V ->
    Forall pending_wf (pending_order st) ->
    keys_name_owner (active_orders st) ->
    Forall pending_wf
      (pending_order (fold_left (activate_verified now) V st))
    /\ keys_name_owner
         (active_orders (fold_left (activate_verified now) V st)).
Proof.
  induction V as [|[k od] V IH]; intros st HV Hp Ha; [auto|].
  inversion HV as [|? ? Hhd Htl]; subst.
  cbn [fold_left]. apply IH; [exact Htl| |].
  - rewrite activate_verified_pending. apply Forall_dict_del, Hp.
  - rewrite activate_verified_active.
    apply (Forall_dict_set oid_eqb); [exact Ha|].
    cbn [fst snd set_activation user_id]. exact (proj1 Hhd).
Qed.

Lemma detect_loop_pricing (guild : list Member) (now lb : Z)
  (items : list (string * RawEntry)) :
  forall st c,
    let st' := fst (fst (detect_loop guild now lb items st c)) in
    pricing_xan st' = pricing_xan st
    /\ pricing_extc st' = pricing_extc st
    /\ active_orders st' = active_orders st.
Proof.
  induction items as [|[id e] items IH]; intros st c; [repeat split|].
  cbn [detect_loop].
  destruct (detect_event guild now lb st id e) as [[s1 n1]|] eqn:E;
    [|repeat split].
  destruct (detect_event_frame _ _ _ _ _ _ _ _ E) as (Ha & Hx & He & _).
  destruct (IH s1 (c + n1)%nat) as (Hx' & He' & Ha').
  cbv zeta. rewrite Hx', He', Ha', Hx, He, Ha. repeat split.
Qed.

Lemma materialize_wf (st : Store) (event_id : string) (m : Member)
  (kind : CoverageKind) (log_time amount now : Z) (sender : string) :
  Forall extc_tier_positive (pricing_extc st) ->
  Forall pending_wf (pending_order st) ->
  Forall pending_wf
    (pending_order
       (fst (materialize st event_id m kind log_time amount now sender))).
Proof.
  intros Hx Hp. unfold materialize. destruct kind.
  - destruct (List.find _ (pricing_xan st)) as [[h p]|]; exact Hp.
  - destruct (List.find _ (pricing_extc st)) as [[j p]|] eqn:E; [|exact Hp].
    cbn [fst pending_order].
    apply (Forall_dict_set oid_eqb); [exact Hp|].
    apply find_some in E as [Hin Hcost]. cbn [snd] in Hcost.
    apply Z.eqb_eq in Hcost.
    rewrite List.Forall_forall in Hx. specialize (Hx _ Hin).
    destruct Hx as (_ & Hc & _). cbn [snd] in Hc.
    unfold pending_wf. cbn. split; [reflexivity|]. split; [discriminate|].
    exists amount. split; [reflexivity|]. lia.
Qed.

Lemma detect_event_wf (guild : list Member) (now lb : Z) (st st' : Store)
  (log_id : string) (entry : RawEntry) (n : nat) :
  Forall extc_tier_positive (pricing_extc st) ->
  Forall pending_wf (pending_order st) ->
  detect_event guild now lb st log_id entry = Ok (st', n) ->
  Forall pending_wf (pending_order st').
Proof.
  intros Hx Hp H. unfold detect_event in H.
  repeat match type of H with
         | (if ?b then _ else _) = _ => destruct b eqn:?
         | match ?x with _ => _ end = _ => destruct x eqn:?
         end;
    try discriminate H; try (injection H as <- <-; exact Hp).
  all: match type of H with
       | Ok (materialize ?s ?i ?m ?k ?t ?a ?w ?nm) = _ =>
           pose proof (materialize_wf s i m k t a w nm Hx Hp) as Hm
       end.
  all: injection H as H; rewrite H in Hm; exact Hm.
Qed.

Lemma detect_loop_wf (guild : list Member) (now lb : Z)
  (items : list (string * RawEntry)) :
  forall st c,
    Forall extc_tier_positive (pricing_extc st) ->
    Forall pending_wf (pending_order st) ->
    Forall pending_wf
      (pending_order (fst (fst (detect_loop guild now lb items st c)))).
Proof.
  induction items as [|[id e] items IH]; intros st c Hx Hp; [exact Hp|].
  cbn [detect_loop].
  destruct (detect_event guild now lb st id e) as [[s1 n1]|] eqn:E;
    [|exact Hp].
  apply IH.
  - destruct (detect_event_frame _ _ _ _ _ _ _ _ E) as (_ & _ & He & _).
    rewrite He. exact Hx.
  - eapply detect_event_wf; eassumption.
Qed.

Lemma exec_wf (st : Store) (c : Command) : store_wf st -> store_wf (exec st c).
Proof.
  intros H. pose proof H as ([Hxan Hextc] & Hp & Ha).
  destruct c; cbn [exec].
  - unfold set_xan_price. destruct is_admin; cbn [negb];
      [|exact H].
    destruct (_ || _) eqn:E; [exact H|].
    apply orb_false_iff in E as [E Hr]. apply orb_false_iff in E as [Hh Hc].
    apply Z.ltb_ge in Hh, Hc, Hr.
    cbn [fst]. split; [split|split]; cbn; auto.
    apply (Forall_dict_set Z.eqb); [exact Hxan|].
    unfold xan_tier_positive. cbn. auto.
  - unfold set_extc_price. destruct is_admin; cbn [negb];
      [|exact H].
    destruct (_ || _) eqn:E; [exact H|].
    apply orb_false_iff in E as [E Hy]. apply orb_false_iff in E as [E Hx].
    apply orb_false_iff in E as [E He]. apply orb_false_iff in E as [Hj Hc].
    apply Z.ltb_ge in Hj, Hc, He, Hx, Hy.
    cbn [fst]. split; [split|split]; cbn; auto.
    apply (Forall_dict_set Z.eqb); [exact Hextc|].
    unfold extc_tier_positive. cbn. auto.
  - unfold xan_insurance.
    destruct (pricing_xan st) as [|tier tiers] eqn:Epx; [exact H|].
    cbv beta iota zeta. rewrite <- Epx in Hxan |- *.
    destruct (has_order _ (pending_order st));
      [exact H|].
    destruct (has_order _ (active_orders st));
      [exact H|].
    destruct coverage as [h|]; [|exact H].
    destruct (dict_get Z.eqb h (pricing_xan st)) as [price|] eqn:Eg;
      [|exact H].
    cbn [fst]. split; [exact (proj1 H)|]. split; [|exact Ha].
    cbn [with_pending pending_order].
    apply (Forall_dict_set oid_eqb); [exact Hp|].
    apply (dict_get_some_in Z.eqb Z.eqb_eq) in Eg.
    rewrite List.Forall_forall in Hxan.
    destruct (Hxan _ Eg) as (_ & Hc & _). cbn [snd] in Hc.
    unfold pending_wf. cbn. split; [reflexivity|]. split; [discriminate|].
    eexists. split; [reflexivity|exact Hc].
  - unfold extc_insurance.
    destruct (pricing_extc st) as [|tier tiers] eqn:Epx; [exact H|].
    cbv beta iota zeta. rewrite <- Epx in Hextc |- *.
    destruct (has_order _ (pending_order st));
      [exact H|].
    destruct (has_order _ (active_orders st));
      [exact H|].
    destruct coverage as [j|]; [|exact H].
    destruct (dict_get Z.eqb j (pricing_extc st)) as [price|] eqn:Eg;
      [|exact H].
    cbn [fst]. split; [exact (proj1 H)|]. split; [|exact Ha].
    cbn [with_pending pending_order].
    apply (Forall_dict_set oid_eqb); [exact Hp|].
    apply (dict_get_some_in Z.eqb Z.eqb_eq) in Eg.
    rewrite List.Forall_forall in Hextc.
    destruct (Hextc _ Eg) as (_ & Hc & _). cbn [snd] in Hc.
    unfold pending_wf. cbn. split; [reflexivity|]. split; [discriminate|].
    eexists. split; [reflexivity|exact Hc].
  - unfold detect_new_orders_from_torn.
    destruct (events_falsy events); [exact H|].
    cbn [fst].
    destruct (detect_loop_pricing guild now (now - 3600) (log_items events)
                st 0%nat) as (Hx' & He' & Ha').
    cbv zeta in Hx', He', Ha'.
    split; [split; [rewrite Hx'|rewrite He']; assumption|].
    split; [apply detect_loop_wf; assumption|].
    rewrite Ha'. exact Ha.
  - destruct (perform_order_check_frame st events now) as (_ & Hx' & He').
    cbv zeta in Hx', He'.
    split; [split; [rewrite Hx'|rewrite He']; assumption|].
    destruct (perform_order_check_cases st events now)
      as [[Hr _] | [(_ & _ & P' & Hc & Hr) | (_ & _ & P' & V & n & Hc & Hr)]];
      rewrite Hr; cbn [fst].
    + split; assumption.
    + cbn [with_pending pending_order active_orders].
      split; [eapply check_orders_wf; eassumption|exact Ha].
    + pose proof (check_orders_wf _ _ _ _ _ Hc Hp) as HP'.
      apply fold_activate_wf; cbn [with_pending pending_order active_orders];
        [|exact HP'|exact Ha].
      apply List.Forall_forall. intros kv Hin.
      rewrite List.Forall_forall in HP'. apply HP'.
      eapply check_orders_verified_sub; eassumption.
  - unfold activate_order. destruct is_admin; cbn [negb];
      [|exact H].
    destruct (user_orders uid (pending_order st)) as [|[k od] [|? ?]] eqn:E;
      try exact H.
    cbn [fst]. split; [exact (proj1 H)|].
    cbn [with_pending with_active pending_order active_orders].
    split; [apply Forall_dict_del, Hp|].
    apply (Forall_dict_set oid_eqb); [exact Ha|].
    assert (Hin : In (k, od) (user_orders uid (pending_order st)))
      by (rewrite E; left; reflexivity).
    apply filter_In in Hin as [Hin _].
    rewrite List.Forall_forall in Hp. exact (proj1 (Hp _ Hin)).
  - unfold give_coverage. destruct is_admin; cbn [negb];
      [|exact H].
    cbn [fst]. split; [exact (proj1 H)|].
    cbn [with_active pending_order active_orders].
    split; [exact Hp|].
    apply (Forall_dict_set oid_eqb); [exact Ha|]. reflexivity.
  - unfold delete_entry. destruct allowed; cbn [negb];
      [|exact H].
    destruct (user_orders uid (pending_order st)) as [|p ps];
      [exact H|].
    destruct order_number as [n|]; [|exact H].
    destruct (_ || _); [exact H|].
    destruct (nth_error _ _) as [[k od]|]; [|exact H].
    cbn [fst]. split; [exact (proj1 H)|].
    cbn [with_pending pending_order active_orders].
    split; [apply Forall_dict_del, Hp|exact Ha].
  - unfold expired_orders_command. destruct is_admin; cbn [negb];
      [|exact H].
    cbn [fst]. split; [exact (proj1 H)|].
    cbn [with_active pending_order active_orders].
    split; [exact Hp|]. apply fold_del_forall, Ha.
Qed.


Lemma initial_store_wf : store_wf initial_store.
Proof. repeat split; constructor. Qed.

(** X14.  Every store reached from the empty one by the commands and
    the two passes is well formed: each tier of both pricing tables has
    a parameter, a cost and rewards of at least 1; each pending order is
    filed under a key naming its member, carries its creation time and
    expects a payment of at least 1; each active order is filed under a
    key naming its member. *)
Theorem reachable_store_well_formed (cs : list Command) :
  store_wf (run initial_store cs).
Proof.
  unfold run. generalize initial_store_wf. generalize initial_store.
  induction cs as [|c cs IH]; intros st Hwf; [exact Hwf|].
  cbn [fold_left]. apply IH, exec_wf, Hwf.
Qed.







(** ** The scheduler and its control command *)

Lemma auto_check_orders_settings (sch : Scheduler) (st : Store)
  (guild : option (list Member)) (api_key : option string)
  (fd fm : Events) (now : Z) :
  let sch' := fst (fst (auto_check_orders sch st guild api_key fd fm now)) in
  auto_check_enabled sch' = auto_check_enabled sch
  /\ auto_check_interval sch' = auto_check_interval sch.
Proof.
  unfold auto_check_orders.
  destruct (negb _); [split; reflexivity|].
  destruct (Z.ltb _ _); [split; reflexivity|].
  destruct guild as [members|]; [|split; reflexivity].
  destruct (key_missing api_key); [split; reflexivity|].
  destruct (detect_new_orders_from_torn st members fd now) as [s1 c].
  destruct (perform_order_check s1 fm now) as [s2 [[n v]|]];
    split; reflexivity.
Qed.

Lemma auto_check_orders_idle (sch : Scheduler) (st : Store)
  (guild : option (list Member)) (api_key : option string)
  (fd fm : Events) (now : Z) :
  auto_check_enabled sch = false
  \/ now < last_check_time sch + 60 * auto_check_interval sch ->
  auto_check_orders sch st guild api_key fd fm now = (sch, st, []).
Proof.
  intros H. unfold auto_check_orders.
  destruct (auto_check_enabled sch); cbn [negb]; [|reflexivity].
  destruct H as [H|H]; [discriminate H|].
  destruct (Z.ltb_spec (now - last_check_time sch)
              (auto_check_interval sch * 60)); [reflexivity|lia].
Qed.

Lemma auto_check_orders_effective (sch : Scheduler) (st : Store)
  (guild : option (list Member)) (api_key : option string)
  (fd fm : Events) (now : Z) :
  auto_check_orders sch st guild api_key fd fm now <> (sch, st, []) ->
  auto_check_enabled sch = true
  /\ last_check_time sch + 60 * auto_check_interval sch <= now
  /\ last_check_time
       (fst (fst (auto_check_orders sch st guild api_key fd fm now))) = now.
Proof.
  unfold auto_check_orders.
  destruct (auto_check_enabled sch); cbn [negb]; [|congruence].
  destruct (Z.ltb_spec (now - last_check_time sch)
              (auto_check_interval sch * 60)) as [Hlt|Hge]; [congruence|].
  intros _. split; [reflexivity|]. split; [lia|].
  destruct guild as [members|]; [|reflexivity].
  destruct (key_missing api_key); [reflexivity|].
  destruct (detect_new_orders_from_torn st members fd now) as [s1 c].
  destruct (perform_order_check s1 fm now) as [s2 [[n v]|]]; reflexivity.
Qed.

Lemma sched_step_interval (s : Scheduler * Store) (ev : SchedEvent) :
  1 <= auto_check_interval (fst s) <= 60 ->
  1 <= auto_check_interval (fst (sched_step s ev)) <= 60.
Proof.
  intros H. destruct ev as [a key act i now|guild key fd fm now];
    cbn [sched_step].
  - cbn [fst]. unfold auto_check_command.
    destruct a; cbn [negb fst]; [|exact H].
    destruct act; cbn [fst]; [|exact H|exact H].
    destruct (key_missing key); [exact H|].
    destruct (Z.ltb_spec i 1); cbn [orb]; [exact H|].
    destruct (Z.ltb_spec 60 i); cbn [fst auto_check_interval];
      [exact H|lia].
  - destruct (auto_check_orders_settings (fst s) (snd s) guild key fd fm now)
      as [_ Hi].
    cbv zeta in Hi. rewrite Hi. exact H.
Qed.

(** X16.  The scheduler and [/autocheck].  (1) Whatever commands and
    timer firings happen after process start, the interval stays
    between 1 and 60 minutes.  (2) A disabled scheduler's tick does
    nothing.  (3) After an accepted start at [t0] with interval [i], a
    tick before [t0 + 60 i] does nothing, so the first pass comes a
    full interval after the start.  (4) After a stop no tick does
    anything.  (5) A tick that does anything is at least one interval
    after the previous [last_check_time], moves [last_check_time] to
    its own instant, and the ticks of the following interval do
    nothing.  (6) With the credential missing, a due tick posts the
    notice, leaves the store alone and still counts as a check. *)
Theorem scheduler_control :
  (forall started st evs,
      1 <= auto_check_interval
             (fst (sched_run (initial_scheduler started, st) evs)) <= 60)
  /\ (forall sch st guild api_key fd fm now,
         auto_check_enabled sch = false ->
         auto_check_orders sch st guild api_key fd fm now = (sch, st, []))
  /\ (forall sch key i t0 sch',
         auto_check_command sch true key AutoStart i t0 = (sch', AutoStarted) ->
         key_missing key = false /\ 1 <= i <= 60
         /\ sch' = mkScheduler true i t0
         /\ forall st guild api_key fd fm t,
             t < t0 + 60 * i ->
             auto_check_orders sch' st guild api_key fd fm t = (sch', st, []))
  /\ (forall sch key i t0 st guild api_key fd fm t,
         let sch' := fst (auto_check_command sch true key AutoStop i t0) in
         auto_check_orders sch' st guild api_key fd fm t = (sch', st, []))
  /\ (forall sch st guild api_key fd fm now,
         auto_check_orders sch st guild api_key fd fm now <> (sch, st, []) ->
         let sch' :=
           fst (fst (auto_check_orders sch st guild api_key fd fm now)) in
         last_check_time sch + 60 * auto_check_interval sch <= now
         /\ last_check_time sch' = now
         /\ forall st' guild' api_key' fd' fm' t,
             t < now + 60 * auto_check_interval sch ->
             auto_check_orders sch' st' guild' api_key' fd' fm' t
             = (sch', st', []))
  /\ (forall sch st members api_key fd fm now,
         auto_check_enabled sch = true ->
         last_check_time sch + 60 * auto_check_interval sch <= now ->
         key_missing api_key = true ->
         auto_check_orders sch st (Some members) api_key fd fm now
         = (mkScheduler true (auto_check_interval sch) now, st,
            [MissingKeyNotice])).
Proof.
  split; [|split; [|split; [|split; [|split]]]].
  - intros started st evs. unfold sched_run.
    assert (H : 1 <= auto_check_interval
                       (fst (initial_scheduler started, st)) <= 60)
      by (cbn; lia).
    revert H. generalize (initial_scheduler started, st).
    induction evs as [|ev evs IH]; intros s H; [exact H|].
    cbn [fold_left]. apply IH, sched_step_interval, H.
  - intros. apply auto_check_orders_idle. left. assumption.
  - intros sch key i t0 sch' H. unfold auto_check_command in H.
    cbn [negb] in H.
    destruct (key_missing key); [discriminate H|].
    destruct (Z.ltb_spec i 1); cbn [orb] in H; [discriminate H|].
    destruct (Z.ltb_spec 60 i); [discriminate H|].
    injection H as <-.
    split; [reflexivity|]. split; [lia|]. split; [reflexivity|].
    intros. apply auto_check_orders_idle. right. cbn. lia.
  - intros. apply auto_check_orders_idle. left. reflexivity.
  - intros sch st guild api_key fd fm now Hne.
    destruct (auto_check_orders_effective _ _ _ _ _ _ _ Hne)
      as (_ & Hdue & Hlast).
    destruct (auto_check_orders_settings sch st guild api_key fd fm now)
      as [_ Hi].
    cbv zeta in Hi |- *. split; [exact Hdue|]. split; [exact Hlast|].
    intros. apply auto_check_orders_idle. right. rewrite Hlast, Hi. lia.
  - intros sch st members api_key fd fm now He Hdue Hk.
    unfold auto_check_orders. rewrite He, Hk. cbn [negb].
    destruct (Z.ltb_spec (now - last_check_time sch)
                (auto_check_interval sch * 60)); [lia|reflexivity].
Qed.

Lemma scheduler_control_witness :
  auto_check_command (initial_scheduler 199000) true (Some "key") AutoStart
    5 200000 = (started_scheduler, AutoStarted)
  /\ 200299 < 200000 + 60 * 5
  /\ auto_check_orders started_scheduler alice_pending (Some [alice; bob])
       (Some "key") paid_30min_before paid_30min_before 200299
     = (started_scheduler, alice_pending, []).
Proof.
  assert (H : auto_check_command (initial_scheduler 199000) true (Some "key")
                AutoStart 5 200000 = (started_scheduler, AutoStarted))
    by reflexivity.
  assert (Hlt : 200299 < 200000 + 60 * 5) by lia.
  split; [exact H|]. split; [exact Hlt|].
  destruct (proj1 (proj2 (proj2 scheduler_control)) _ _ _ _ _ H)
    as (_ & _ & _ & Hidle).
  exact (Hidle alice_pending (Some [alice; bob]) (Some "key")
           paid_30min_before paid_30min_before 200299 Hlt).
Defined.

(** ** The two amount tests *)

(** X17.  New-Order Discovery and the Matching Engine read amounts
    with the same three tiers, so they agree: the amount Discovery
    extracts from a text, when it is not the "nothing found" value 0,
    passes the Matching Engine's amount test on the same text.  The
    Matching Engine's test is the weaker one: on the fallback tier it
    accepts any number of the text, Discovery only reads the first. *)
Theorem amount_tests_agree :
  (forall text p,
      payment_amount text = p -> p <> 0 ->
      payment_amount_found text p = true)
  /\ (forall text,
         payment_amount_found text (payment_amount text) = false ->
         payment_amount text = 0 /\ PyStr.findall_digits text = [])
  /\ exists text p,
      payment_amount_found text p = true /\ payment_amount text <> p.
Proof.
  split; [|split].
  - intros text p <- Hp. revert Hp.
    unfold payment_amount, payment_amount_found.
    destruct (xanax_pattern (PyStr.lower text)) as [g|].
    + intros _. apply Z.eqb_refl.
    + destruct (PyStr.contains "some xanax" (PyStr.lower text));
        [reflexivity|].
      cbn [andb].
      destruct (PyStr.findall_digits text) as [|n ns]; [congruence|].
      intros _. cbn [existsb]. rewrite Z.eqb_refl. reflexivity.
  - intros text. unfold payment_amount, payment_amount_found.
    destruct (xanax_pattern (PyStr.lower text)) as [g|].
    + rewrite Z.eqb_refl. discriminate.
    + destruct (PyStr.contains "some xanax" (PyStr.lower text));
        [discriminate|].
      cbn [andb].
      destruct (PyStr.findall_digits text) as [|n ns]; [auto|].
      cbn [existsb]. rewrite Z.eqb_refl. discriminate.
  - exists "2 items, 5 in total", 5. split; [vm_compute; reflexivity|].
    vm_compute. discriminate.
Qed.

Lemma amount_tests_agree_witness :
  payment_amount alice_payment_text = 1
  /\ 1 <> 0
  /\ payment_amount_found alice_payment_text 1 = true.
Proof.
  assert (H : payment_amount alice_payment_text = 1)
    by (vm_compute; reflexivity).
  assert (Hne : 1 <> 0) by discriminate.
  split; [exact H|]. split; [exact Hne|].
  exact (proj1 amount_tests_agree alice_payment_text 1 H Hne).
Defined.

(** ** Pricing and purchases *)

Lemma xan_insurance_created (st : Store) (user : Member) (h now : Z)
  (price : XanPrice) :
  dict_get Z.eqb h (pricing_xan st) = Some price ->
  has_order (member_id user) (pending_order st) = false ->
  has_order (member_id user) (active_orders st) = false ->
  xan_insurance st user (Some h) now
  = (with_pending st
       (dict_set oid_eqb (mkOrderId (member_id user) now false)
          (purchase_order user XAN now h (xan_cost price) (xan_reward price)
             None None)
          (pending_order st)),
     Ok (OrderCreated (mkOrderId (member_id user) now false))).
Proof.
  intros Hg Hp Ha. unfold xan_insurance.
  destruct (pricing_xan st) as [|tier tiers] eqn:E; [discriminate Hg|].
  rewrite Hp, Ha, Hg. reflexivity.
Qed.

Lemma extc_insurance_created (st : Store) (user : Member) (j now : Z)
  (price : ExtcPrice) :
  dict_get Z.eqb j (pricing_extc st) = Some price ->
  has_order (member_id user) (pending_order st) = false ->
  has_order (member_id user) (active_orders st) = false ->
  extc_insurance st user (Some j) now
  = (with_pending st
       (dict_set oid_eqb (mkOrderId (member_id user) now false)
          (purchase_order user EXTC now j (extc_cost price)
             (extc_xanax price) (Some (extc_edvds price))
             (Some (extc_ecstasy price)))
          (pending_order st)),
     Ok (OrderCreated (mkOrderId (member_id user) now false))).
Proof.
  intros Hg Hp Ha. unfold extc_insurance.
  destruct (pricing_extc st) as [|tier tiers] eqn:E; [discriminate Hg|].
  rewrite Hp, Ha, Hg. reflexivity.
Qed.

(** X18.  The price an administrator sets is the price a purchase
    charges.  After an accepted [/setxanprice h c r], a member without
    an order who buys [h] hours gets a pending order that expects [c]
    Xanax and pays [r], recorded at the instant of the purchase; the
    other tiers of the table keep their prices and the EXTC table is
    untouched.  The same holds for [/setextcprice] and [/extc].  A
    setting with a value below 1, or from a non-administrator, changes
    nothing. *)
Theorem price_set_is_price_charged :
  (forall st h c r user now,
      1 <= h -> 1 <= c -> 1 <= r ->
      has_order (member_id user) (pending_order st) = false ->
      has_order (member_id user) (active_orders st) = false ->
      let st1 := fst (set_xan_price st true h c r) in
      let k := mkOrderId (member_id user) now false in
      snd (set_xan_price st true h c r) = PricingUpdated
      /\ snd (xan_insurance st1 user (Some h) now) = Ok (OrderCreated k)
      /\ (exists od,
             dict_get oid_eqb k
               (pending_order (fst (xan_insurance st1 user (Some h) now)))
             = Some od
             /\ user_id od = member_id user
             /\ coverage_type od = XAN /\ hours od = Some h
             /\ xanax_payment od = Some c /\ xanax_reward od = r
             /\ timestamp od = Some now /\ payment_received_at od = None)
      /\ (forall h', h' <> h ->
             dict_get Z.eqb h' (pricing_xan st1)
             = dict_get Z.eqb h' (pricing_xan st))
      /\ pricing_extc st1 = pricing_extc st)
  /\ (forall st j c e x y user now,
         1 <= j -> 1 <= c -> 1 <= e -> 1 <= x -> 1 <= y ->
         has_order (member_id user) (pending_order st) = false ->
         has_order (member_id user) (active_orders st) = false ->
         let st1 := fst (set_extc_price st true j c e x y) in
         let k := mkOrderId (member_id user) now false in
         snd (set_extc_price st true j c e x y) = PricingUpdated
         /\ snd (extc_insurance st1 user (Some j) now) = Ok (OrderCreated k)
         /\ (exists od,
                dict_get oid_eqb k
                  (pending_order (fst (extc_insurance st1 user (Some j) now)))
                = Some od
                /\ user_id od = member_id user
                /\ coverage_type od = EXTC /\ jumps od = Some j
                /\ xanax_payment od = Some c /\ xanax_reward od = x
                /\ edvds_reward od = Some e /\ ecstasy_reward od = Some y
                /\ timestamp od = Some now /\ payment_received_at od = None)
         /\ (forall j', j' <> j ->
                dict_get Z.eqb j' (pricing_extc st1)
                = dict_get Z.eqb j' (pricing_extc st))
         /\ pricing_xan st1 = pricing_xan st)
  /\ (forall st a h c r,
         a = false \/ h < 1 \/ c < 1 \/ r < 1 ->
         fst (set_xan_price st a h c r) = st
         /\ snd (set_xan_price st a h c r) <> PricingUpdated)
  /\ (forall st a j c e x y,
         a = false \/ j < 1 \/ c < 1 \/ e < 1 \/ x < 1 \/ y < 1 ->
         fst (set_extc_price st a j c e x y) = st
         /\ snd (set_extc_price st a j c e x y) <> PricingUpdated).
Proof.
  split; [|split; [|split]].
  - intros st h c r user now Hh Hc Hr Hp Ha st1 k.
    assert (Hset : set_xan_price st true h c r
                   = (mkStore (pending_order st) (active_orders st)
                        (processed_events st)
                        (dict_set Z.eqb h (mkXanPrice c r) (pricing_xan st))
                        (pricing_extc st), PricingUpdated)).
    { unfold set_xan_price. cbn [negb].
      destruct (Z.ltb_spec h 1); [lia|].
      destruct (Z.ltb_spec c 1); [lia|].
      destruct (Z.ltb_spec r 1); [lia|]. reflexivity. }
    subst st1. rewrite Hset. cbn [fst snd].
    split; [reflexivity|].
    rewrite (xan_insurance_created _ user h now (mkXanPrice c r));
      [|cbn [pricing_xan]; apply (dict_get_set_same Z.eqb Z.eqb_eq)
       |exact Hp|exact Ha].
    cbn [fst snd]. split; [reflexivity|]. split.
    + eexists. split.
      * cbn [with_pending pending_order]. rewrite dict_get_set.
        subst k. rewrite oid_eqb_refl. reflexivity.
      * repeat split.
    + split; [|reflexivity].
      intros h' Hne. cbn [pricing_xan].
      apply (dict_get_set_other Z.eqb Z.eqb_eq). exact Hne.
  - intros st j c e x y user now Hj Hc He Hx Hy Hp Ha st1 k.
    assert (Hset : set_extc_price st true j c e x y
                   = (mkStore (pending_order st) (active_orders st)
                        (processed_events st) (pricing_xan st)
                        (dict_set Z.eqb j (mkExtcPrice c e x y)
                           (pricing_extc st)), PricingUpdated)).
    { unfold set_extc_price. cbn [negb].
      destruct (Z.ltb_spec j 1); [lia|].
      destruct (Z.ltb_spec c 1); [lia|].
      destruct (Z.ltb_spec e 1); [lia|].
      destruct (Z.ltb_spec x 1); [lia|].
      destruct (Z.ltb_spec y 1); [lia|]. reflexivity. }
    subst st1. rewrite Hset. cbn [fst snd].
    split; [reflexivity|].
    rewrite (extc_insurance_created _ user j now (mkExtcPrice c e x y));
      [|cbn [pricing_extc]; apply (dict_get_set_same Z.eqb Z.eqb_eq)
       |exact Hp|exact Ha].
    cbn [fst snd]. split; [reflexivity|]. split.
    + eexists. split.
      * cbn [with_pending pending_order]. rewrite dict_get_set.
        subst k. rewrite oid_eqb_refl. reflexivity.
      * repeat split.
    + split; [|reflexivity].
      intros j' Hne. cbn [pricing_extc].
      apply (dict_get_set_other Z.eqb Z.eqb_eq). exact Hne.
  - intros st a h c r H. unfold set_xan_price.
    destruct a; cbn [negb]; [|split; [reflexivity|discriminate]].
    destruct (Z.ltb_spec h 1); cbn [orb]; [split; [reflexivity|discriminate]|].
    destruct (Z.ltb_spec c 1); cbn [orb]; [split; [reflexivity|discriminate]|].
    destruct (Z.ltb_spec r 1); cbn [orb]; [split; [reflexivity|discriminate]|].
    destruct H as [H|[H|[H|H]]]; [discriminate H|lia|lia|lia].
  - intros st a j c e x y H. unfold set_extc_price.
    destruct a; cbn [negb]; [|split; [reflexivity|discriminate]].
    destruct (Z.ltb_spec j 1); cbn [orb]; [split; [reflexivity|discriminate]|].
    destruct (Z.ltb_spec c 1); cbn [orb]; [split; [reflexivity|discriminate]|].
    destruct (Z.ltb_spec e 1); cbn [orb]; [split; [reflexivity|discriminate]|].
    destruct (Z.ltb_spec x 1); cbn [orb]; [split; [reflexivity|discriminate]|].
    destruct (Z.ltb_spec y 1); cbn [orb]; [split; [reflexivity|discriminate]|].
    destruct H as [H|[H|[H|[H|[H|H]]]]]; [discriminate H|lia|lia|lia|lia|lia].
Qed.

Lemma price_set_is_price_charged_witness :
  has_order (member_id alice) (pending_order initial_store) = false
  /\ has_order (member_id alice) (active_orders initial_store) = false
  /\ snd (xan_insurance (fst (set_xan_price initial_store true 12 1 4))
            alice (Some 12) 200000)
     = Ok (OrderCreated (mkOrderId (member_id alice) 200000 false)).
Proof.
  split; [reflexivity|]. split; [reflexivity|].
  exact (proj1 (proj2 (proj1 price_set_is_price_charged
                         initial_store 12 1 4 alice 200000
                         ltac:(lia) ltac:(lia) ltac:(lia)
                         eq_refl eq_refl))).
Defined.

(** ** Deleting a pending order *)

Lemma count_user_zero (m : Z) (d : list (OrderId * Order)) :
  count_user m d = 0%nat -> has_order m d = false.
Proof.
  unfold count_user, user_orders, has_order.
  induction d as [|[k od] d IH]; cbn [List.filter existsb snd];
    [reflexivity|].
  destruct (Z.eqb (user_id od) m); cbn [List.length orb];
    [discriminate|exact IH].
Qed.

Lemma delete_entry_deleted (st st' : Store) (allowed : bool) (uid : Z)
  (order_number : option Z) (k : OrderId) :
  delete_entry st allowed uid order_number = (st', OrderDeleted k) ->
  exists n od,
    order_number = Some n
    /\ allowed = true
    /\ 1 <= n <= Z.of_nat (count_user uid (pending_order st))
    /\ nth_error (user_orders uid (pending_order st)) (Z.to_nat (n - 1))
       = Some (k, od)
    /\ st' = with_pending st (dict_del oid_eqb k (pending_order st)).
Proof.
  unfold delete_entry, count_user. intros H.
  destruct allowed; cbn [negb] in H; [|discriminate H].
  destruct (user_orders uid (pending_order st)) as [|p ps] eqn:E;
    [discriminate H|].
  destruct order_number as [n|]; [|discriminate H].
  destruct (Z.ltb_spec n 1); cbn [orb] in H; [discriminate H|].
  destruct (Z.ltb_spec (Z.of_nat (List.length (p :: ps))) n);
    [discriminate H|].
  destruct (nth_error (p :: ps) (Z.to_nat (n - 1))) as [[k0 od]|] eqn:En;
    [|discriminate H].
  injection H as <- <-. exists n, od. repeat split; auto; lia.
Qed.

(** X19.  [/del] of a pending order.  An accepted deletion removes the
    order the number selects among the member's pending orders (in
    dictionary order, counted from 1): the order was the member's, its
    key is gone afterwards, every other key keeps its order, the member
    has fewer pending orders than before, and the active orders, the
    processed events and the prices are untouched.  A number outside
    [1, number of the member's pending orders], a missing number or a
    missing permission leaves the store unchanged.  When the deleted
    order was the member's only order, the member can buy again. *)
Theorem deletion_removes_the_selected_order :
  (forall st st' allowed uid order_number k,
      delete_entry st allowed uid order_number = (st', OrderDeleted k) ->
      (exists n od,
          order_number = Some n
          /\ nth_error (user_orders uid (pending_order st)) (Z.to_nat (n - 1))
             = Some (k, od)
          /\ In (k, od) (pending_order st) /\ user_id od = uid)
      /\ dict_get oid_eqb k (pending_order st') = None
      /\ (forall k', k' <> k ->
             dict_get oid_eqb k' (pending_order st')
             = dict_get oid_eqb k' (pending_order st))
      /\ (count_user uid (pending_order st')
          < count_user uid (pending_order st))%nat
      /\ active_orders st' = active_orders st
      /\ processed_events st' = processed_events st
      /\ pricing_xan st' = pricing_xan st
      /\ pricing_extc st' = pricing_extc st)
  /\ (forall st allowed uid order_number,
         allowed = false \/ order_number = None
         \/ (exists n, order_number = Some n
                       /\ (n < 1 \/ Z.of_nat (count_user uid (pending_order st))
                                    < n)) ->
         fst (delete_entry st allowed uid order_number) = st)
  /\ (forall st st' user k h price now,
         delete_entry st true (member_id user) (Some 1)
         = (st', OrderDeleted k) ->
         count_user (member_id user) (pending_order st) = 1%nat ->
         has_order (member_id user) (active_orders st) = false ->
         dict_get Z.eqb h (pricing_xan st) = Some price ->
         snd (xan_insurance st user (Some h) now) = Ok OrderAlreadyExists
         /\ snd (xan_insurance st' user (Some h) now)
            = Ok (OrderCreated (mkOrderId (member_id user) now false))).
Proof.
  split; [|split].
  - intros st st' allowed uid order_number k H.
    destruct (delete_entry_deleted _ _ _ _ _ _ H)
      as (n & od & -> & -> & Hn & Hnth & ->).
    assert (Hin : In (k, od) (user_orders uid (pending_order st)))
      by (eapply nth_error_In; exact Hnth).
    apply filter_In in Hin as [Hin Hu]. cbn [snd] in Hu.
    apply Z.eqb_eq in Hu.
    split; [exists n, od; auto|].
    cbn [with_pending pending_order active_orders processed_events
           pricing_xan pricing_extc].
    split; [rewrite dict_get_del, oid_eqb_refl; reflexivity|].
    split.
    { intros k' Hne. rewrite dict_get_del.
      destruct (oid_eqb k k') eqn:E; [|reflexivity].
      apply oid_eqb_eq in E. congruence. }
    split; [|repeat split].
    pose proof (count_user_del_in k od (pending_order st) Hin) as Hc.
    rewrite Hu in Hc. lia.
  - intros st allowed uid order_number H. unfold delete_entry.
    destruct allowed; cbn [negb]; [|reflexivity].
    unfold count_user in H.
    destruct (user_orders uid (pending_order st)) as [|p ps];
      [reflexivity|].
    destruct order_number as [n|]; [|reflexivity].
    destruct (Z.ltb_spec n 1); cbn [orb]; [reflexivity|].
    destruct (Z.ltb_spec (Z.of_nat (List.length (p :: ps))) n);
      [reflexivity|].
    destruct H as [H|[H|(n' & Hn' & H)]]; [discriminate H|discriminate H|].
    injection Hn' as <-. lia.
  - intros st st' user k h price now H Hone Ha Hg.
    destruct (delete_entry_deleted _ _ _ _ _ _ H)
      as (n & od & Hn & _ & _ & Hnth & ->).
    injection Hn as <-.
    assert (Hin : In (k, od) (user_orders (member_id user) (pending_order st)))
      by (eapply nth_error_In; exact Hnth).
    apply filter_In in Hin as [Hin Hu]. cbn [snd] in Hu.
    apply Z.eqb_eq in Hu.
    split.
    + unfold xan_insurance.
      destruct (pricing_xan st) as [|tier tiers]; [discriminate Hg|].
      rewrite (has_order_intro _ _ _ _ Hin Hu). reflexivity.
    + rewrite (xan_insurance_created _ user h now price);
        [reflexivity|exact Hg| |exact Ha].
      cbn [with_pending pending_order]. apply count_user_zero.
      pose proof (count_user_del_in k od (pending_order st) Hin) as Hc.
      rewrite Hu in Hc. lia.
Qed.

Lemma deletion_removes_the_selected_order_witness :
  delete_entry alice_pending true 1001 (Some 1)
  = (fst (delete_entry alice_pending true 1001 (Some 1)),
     OrderDeleted alice_order_id)
  /\ dict_get oid_eqb alice_order_id
       (pending_order (fst (delete_entry alice_pending true 1001 (Some 1))))
     = None.
Proof.
  assert (H : delete_entry alice_pending true 1001 (Some 1)
              = (fst (delete_entry alice_pending true 1001 (Some 1)),
                 OrderDeleted alice_order_id))
    by (vm_compute; reflexivity).
  split; [exact H|].
  exact (proj1 (proj2 (proj1 deletion_removes_the_selected_order
                         _ _ _ _ _ _ H))).
Defined.

(** ** The manual trigger of the Matching Engine *)

(** X20.  [/order] runs the same pass as the scheduler.  For an
    administrator with the credential configured, the store after
    [/order] is the store after the Matching Engine's pass on the same
    feed, the reply carries the pass's two counts, and an exception of
    the pass leaves the command.  Without the permission or the
    credential the pass is not run.  When the feed could not be fetched
    while orders are pending, the reply reports no order pending and
    none activated, and the store is unchanged. *)
Theorem manual_check_runs_the_pass :
  (forall st api_key events now,
      key_missing api_key = false ->
      fst (check_order st true api_key events now)
      = fst (perform_order_check st events now)
      /\ (forall n v,
             snd (perform_order_check st events now) = Ok (n, v) ->
             snd (check_order st true api_key events now)
             = Ok (if match pending_order st with [] => true | _ => false end
                   then NothingToCheck else CheckResults n v))
      /\ (snd (perform_order_check st events now) = Raise ->
          snd (check_order st true api_key events now) = Raise))
  /\ (forall st is_admin api_key events now,
         is_admin = false \/ key_missing api_key = true ->
         fst (check_order st is_admin api_key events now) = st
         /\ exists r, snd (check_order st is_admin api_key events now) = Ok r
                      /\ (r = AdminOnly \/ r = NoApiKey))
  /\ (forall st api_key now,
         key_missing api_key = false ->
         pending_order st <> [] ->
         check_order st true api_key EvNone now
         = (st, Ok (CheckResults 0 0))).
Proof.
  split; [|split].
  - intros st api_key events now Hk. unfold check_order.
    rewrite Hk. cbn [negb].
    destruct (pending_order st) as [|p ps] eqn:Hp.
    + unfold perform_order_check. rewrite Hp. cbn [fst snd].
      split; [reflexivity|]. split; [reflexivity|discriminate].
    + destruct (perform_order_check st events now) as [st' [[n v]|]];
        cbn [fst snd].
      * split; [reflexivity|]. split; [|discriminate].
        intros n' v' H. injection H as <- <-. reflexivity.
      * split; [reflexivity|]. split; [discriminate|reflexivity].
  - intros st is_admin api_key events now H. unfold check_order.
    destruct is_admin; cbn [negb].
    + destruct H as [H|H]; [discriminate H|]. rewrite H.
      split; [reflexivity|]. exists NoApiKey. auto.
    + split; [reflexivity|]. exists AdminOnly. auto.
  - intros st api_key now Hk Hp. unfold check_order, perform_order_check.
    rewrite Hk. cbn [negb].
    destruct (pending_order st) as [|p ps]; [contradiction|reflexivity].
Qed.

Lemma manual_check_runs_the_pass_witness :
  key_missing (Some "key") = false
  /\ fst (check_order alice_pending true (Some "key") paid_30min_before 200100)
     = fst (perform_order_check alice_pending paid_30min_before 200100).
Proof.
  assert (Hk : key_missing (Some "key") = false) by reflexivity.
  split; [exact Hk|].
  exact (proj1 (proj1 manual_check_runs_the_pass alice_pending (Some "key")
                  paid_30min_before 200100 Hk)).
Defined.
